(** * TVA Boom Deployment Calculator: the two report endpoints

    A shallow embedding of the two serverless handlers of the repository,
    [api/generate-report.js] (retry helper [exponentialBackoff]) and its
    sibling handler (retry helper [fetchWithBackoff]), together with the
    JavaScript built-ins they rely on.

    Conventions of the model:
    - JavaScript numbers are exact rationals extended with [NaN] and the two
      infinities; the rounding of binary64, the negative zero and the
      exponent notation of very large or very small numbers are not modelled,
      so that a statement about the value of a number speaks of the code
      only where no rounding occurs (see [binary64]);
    - request fields are JSON scalars or absent ([VUndef]); arrays and
      objects are not modelled;
    - effects (outbound [fetch] calls, timers, console output) are recorded
      in a trace threaded through a small state-and-exception monad;
    - the network is a script: the outcome of the n-th outbound call. *)

From Stdlib Require Import ZArith QArith Qreduction Bool List Lia.
From Stdlib Require Import Ascii String DecimalString.
From Equations Require Import Equations.
Import ListNotations.

Open Scope string_scope.
Open Scope Z_scope.

(* ------------------------------------------------------------------ *)
(** ** JavaScript numbers *)

Inductive number : Type :=
| NaN
| Inf (negative : bool)
| Fin (q : Q).

Definition numZ (z : Z) : number := Fin (z # 1).

(** [m * 10^e] as a reduced fraction. *)
Definition mkDec (m e : Z) : number :=
  if 0 <=? e then Fin (m * 10 ^ e # 1)
  else Fin (Qred (m # Z.to_pos (10 ^ (- e)))).

Definition isNaN (n : number) : bool :=
  match n with NaN => true | _ => false end.

Definition numTruthy (n : number) : bool :=
  match n with
  | NaN => false
  | Inf _ => true
  | Fin q => negb (Qnum q =? 0)
  end.

Definition qNegative (q : Q) : bool := Qnum q <? 0.

(** The [/] operator on numbers. *)
Definition numDiv (a b : number) : number :=
  match a, b with
  | NaN, _ | _, NaN => NaN
  | Inf _, Inf _ => NaN
  | Inf s, Fin q => Inf (xorb s (qNegative q))
  | Fin _, Inf _ => Fin 0
  | Fin p, Fin q =>
      if Qnum q =? 0 then
        (if Qnum p =? 0 then NaN else Inf (qNegative p))
      else Fin (Qred (p / q))
  end.

(* ------------------------------------------------------------------ *)
(** ** Strings: scanning helpers *)

Definition digit_of (c : ascii) : option Z :=
  let n := Z.of_nat (nat_of_ascii c) in
  if (48 <=? n) && (n <=? 57) then Some (n - 48) else None.

Definition hexdigit_of (c : ascii) : option Z :=
  let n := Z.of_nat (nat_of_ascii c) in
  if (48 <=? n) && (n <=? 57) then Some (n - 48)
  else if (97 <=? n) && (n <=? 102) then Some (n - 87)
  else if (65 <=? n) && (n <=? 70) then Some (n - 55)
  else None.

Definition octdigit_of (c : ascii) : option Z :=
  let n := Z.of_nat (nat_of_ascii c) in
  if (48 <=? n) && (n <=? 55) then Some (n - 48) else None.

Definition bindigit_of (c : ascii) : option Z :=
  let n := Z.of_nat (nat_of_ascii c) in
  if (48 <=? n) && (n <=? 49) then Some (n - 48) else None.

Definition isSome {A} (o : option A) : bool :=
  match o with Some _ => true | None => false end.

(** The ASCII members of the ECMAScript WhiteSpace and LineTerminator sets. *)
Definition isWhite (c : ascii) : bool :=
  let n := nat_of_ascii c in
  ((9 <=? n) && (n <=? 13))%nat || (n =? 32)%nat.

Fixpoint trimStart (s : string) : string :=
  match s with
  | String c r => if isWhite c then trimStart r else s
  | EmptyString => s
  end.

Fixpoint revString (s acc : string) : string :=
  match s with
  | EmptyString => acc
  | String c r => revString r (String c acc)
  end.

Definition trim (s : string) : string :=
  revString (trimStart (revString (trimStart s) "")) "".

(** Longest prefix of digits of the given kind, and the rest. *)
Fixpoint spanDigits (dig : ascii -> option Z) (s : string) : string * string :=
  match s with
  | String c r =>
      if isSome (dig c) then
        let (ds, rest) := spanDigits dig r in (String c ds, rest)
      else ("", s)
  | EmptyString => ("", "")
  end.

Fixpoint digitsValueFrom (dig : ascii -> option Z) (radix : Z)
         (acc : Z) (s : string) : Z :=
  match s with
  | String c r =>
      match dig c with
      | Some d => digitsValueFrom dig radix (acc * radix + d) r
      | None => acc
      end
  | EmptyString => acc
  end.

Definition digitsValue (s : string) : Z := digitsValueFrom digit_of 10 0 s.

Definition isEmpty (s : string) : bool :=
  match s with EmptyString => true | _ => false end.

(** An optional leading sign. *)
Definition takeSign (s : string) : bool * string :=
  match s with
  | String "-" r => (true, r)
  | String "+" r => (false, r)
  | _ => (false, s)
  end.

Definition signed (neg : bool) (z : Z) : Z := if neg then - z else z.

(** [String.prototype.includes] *)
Fixpoint includes (needle s : string) : bool :=
  prefix needle s ||
  match s with
  | String _ r => includes needle r
  | EmptyString => false
  end.

(** [s.replace('+', '')]: the first occurrence only. *)
Fixpoint removeFirst (c : ascii) (s : string) : string :=
  match s with
  | String d r => if Ascii.eqb d c then r else String d (removeFirst c r)
  | EmptyString => EmptyString
  end.

(** [s.split(' ')[0]] *)
Fixpoint beforeFirst (c : ascii) (s : string) : string :=
  match s with
  | String d r => if Ascii.eqb d c then "" else String d (beforeFirst c r)
  | EmptyString => EmptyString
  end.

(* ------------------------------------------------------------------ *)
(** ** [parseFloat], [parseInt] and [Number] on strings *)

(** The exponent part [e[+-]digits], when well formed; 0 otherwise. *)
Definition scanExponent (s : string) : Z * string :=
  match s with
  | String c r =>
      if Ascii.eqb c "e" || Ascii.eqb c "E" then
        let (neg, r1) := takeSign r in
        let (ed, r2) := spanDigits digit_of r1 in
        if isEmpty ed then (0, s) else (signed neg (digitsValue ed), r2)
      else (0, s)
  | EmptyString => (0, s)
  end.

(** Longest prefix that is a StrDecimalLiteral: its value and what follows. *)
Definition scanDecimal (s : string) : number * string :=
  let (neg, s1) := takeSign s in
  if prefix "Infinity" s1 then (Inf neg, substring 8 (length s1 - 8) s1)
  else
    let (ip, r1) := spanDigits digit_of s1 in
    let (fp, r2) :=
      match r1 with
      | String "." r => spanDigits digit_of r
      | _ => ("", r1)
      end in
    if isEmpty ip && isEmpty fp then (NaN, s)
    else
      let (e, r3) := scanExponent r2 in
      (mkDec (signed neg (digitsValue (ip ++ fp))) (e - Z.of_nat (length fp)),
       r3).

(** [parseFloat] on a string.  The value is the exact one of the literal;
    the code has the binary64 number nearest to it (an infinity beyond the
    range of binary64). *)
Definition parseFloat_str (s : string) : number :=
  fst (scanDecimal (trimStart s)).

Definition hasHexPrefix (s : string) : bool :=
  prefix "0x" s || prefix "0X" s.

(** [parseInt(s)] with no radix argument.  The value is the exact one of
    the digits; the code has the binary64 number nearest to it. *)
Definition parseInt_str (s : string) : number :=
  let (neg, s1) := takeSign (trimStart s) in
  if hasHexPrefix s1 then
    let (ds, _) := spanDigits hexdigit_of (substring 2 (length s1 - 2) s1) in
    if isEmpty ds then NaN
    else numZ (signed neg (digitsValueFrom hexdigit_of 16 0 ds))
  else
    let (ds, _) := spanDigits digit_of s1 in
    if isEmpty ds then NaN else numZ (signed neg (digitsValue ds)).

Definition radixLiteral (dig : ascii -> option Z) (radix : Z) (s : string)
  : number :=
  let (ds, rest) := spanDigits dig s in
  if isEmpty ds || negb (isEmpty rest) then NaN
  else numZ (digitsValueFrom dig radix 0 ds).

(** StringToNumber, as applied by the arithmetic operators. *)
Definition stringToNumber (s : string) : number :=
  let t := trim s in
  if isEmpty t then numZ 0
  else if hasHexPrefix t then
    radixLiteral hexdigit_of 16 (substring 2 (length t - 2) t)
  else if prefix "0o" t || prefix "0O" t then
    radixLiteral octdigit_of 8 (substring 2 (length t - 2) t)
  else if prefix "0b" t || prefix "0B" t then
    radixLiteral bindigit_of 2 (substring 2 (length t - 2) t)
  else
    let (n, rest) := scanDecimal t in
    if isEmpty rest then n else NaN.

(** An integer in decimal. *)
Definition showZ (z : Z) : string :=
  if z <? 0 then "-" ++ NilZero.string_of_uint (N.to_uint (Z.to_N (- z)))
  else NilZero.string_of_uint (N.to_uint (Z.to_N z)).

Fixpoint fractionDigits (fuel : nat) (r d : Z) : string :=
  match fuel with
  | O => ""
  | S f =>
      if r =? 0 then ""
      else showZ (r * 10 / d) ++ fractionDigits f (r * 10 mod d) d
  end.

(** Number::toString in positional notation (at most 20 fraction digits). *)
Definition numToString (n : number) : string :=
  match n with
  | NaN => "NaN"
  | Inf true => "-Infinity"
  | Inf false => "Infinity"
  | Fin q =>
      let q' := Qred q in
      let a := Z.abs (Qnum q') in
      let d := Z.pos (Qden q') in
      let body :=
        showZ (a / d) ++
        (if a mod d =? 0 then "" else "." ++ fractionDigits 20 (a mod d) d) in
      if Qnum q' <? 0 then "-" ++ body else body
  end.

(* ------------------------------------------------------------------ *)
(** ** JavaScript values carried by requests and responses *)

Inductive value : Type :=
| VUndef
| VNull
| VBool (b : bool)
| VNum (n : number)
| VStr (s : string).

Definition truthy (v : value) : bool :=
  match v with
  | VUndef | VNull => false
  | VBool b => b
  | VNum n => numTruthy n
  | VStr s => negb (isEmpty s)
  end.

(** [a || b] *)
Definition orElse (a b : value) : value := if truthy a then a else b.

(** ToString, as applied by template literals. *)
Definition toString (v : value) : string :=
  match v with
  | VUndef => "undefined"
  | VNull => "null"
  | VBool true => "true"
  | VBool false => "false"
  | VNum n => numToString n
  | VStr s => s
  end.

(** ToNumber, as applied by the arithmetic operators. *)
Definition toNumber (v : value) : number :=
  match v with
  | VUndef => NaN
  | VNull => numZ 0
  | VBool true => numZ 1
  | VBool false => numZ 0
  | VNum n => n
  | VStr s => stringToNumber s
  end.

(** [parseFloat(v)]: on a number, printing and reading back is the identity. *)
Definition parseFloat (v : value) : number :=
  match v with
  | VNum n => n
  | _ => parseFloat_str (toString v)
  end.

Definition parseInt (v : value) : number := parseInt_str (toString v).

#[local] Set Warnings "-register-all".

(** JSON documents, as sent to the two services. *)
Inductive json : Type :=
| JNull
| JBool (b : bool)
| JNum (q : Q)
| JStr (s : string)
| JArr (items : list json)
| JObj (members : list (string * json)).

(** [JSON.stringify] of a property value: [None] when the property is left
    out; non-finite numbers become [null]. *)
Definition jsonOfValue (v : value) : option json :=
  match v with
  | VUndef => None
  | VNull => Some JNull
  | VBool b => Some (JBool b)
  | VNum (Fin q) => Some (JNum q)
  | VNum _ => Some JNull
  | VStr s => Some (JStr s)
  end.

Fixpoint jsonMembers (fields : list (string * value)) : list (string * json) :=
  match fields with
  | [] => []
  | (k, v) :: rest =>
      match jsonOfValue v with
      | Some j => (k, j) :: jsonMembers rest
      | None => jsonMembers rest
      end
  end.

Fixpoint lookup {A} (k : string) (l : list (string * A)) : option A :=
  match l with
  | [] => None
  | (k', a) :: rest => if String.eqb k k' then Some a else lookup k rest
  end.

(* ------------------------------------------------------------------ *)
(** ** Effects: errors, the trace, and the monad of asynchronous code *)

Record error : Type := mkError { err_name : string; err_message : string }.

Definition Error (msg : string) : error := mkError "Error" msg.
Definition TypeError (msg : string) : error := mkError "TypeError" msg.

Record FetchOptions : Type := mkOptions {
  fo_method : string;
  fo_headers : list (string * string);
  fo_body : json
}.

Inductive event : Type :=
| EvCall                                         (* an abstract operation ran *)
| EvFetch (url : string) (opts : FetchOptions)   (* fetch(url, opts) *)
| EvSleep (ms : Z)                               (* setTimeout(resolve, ms) *)
| EvLog (msg : string)                           (* console.log *)
| EvError (label : string) (e : error).          (* console.error *)

Definition trace := list event.

Inductive settled (A : Type) : Type :=
| Fulfilled (a : A)
| Rejected (e : error).
Arguments Fulfilled {A} a.
Arguments Rejected {A} e.

Definition M (A : Type) : Type := trace -> settled A * trace.

Definition ret {A} (a : A) : M A := fun t => (Fulfilled a, t).
Definition throw {A} (e : error) : M A := fun t => (Rejected e, t).

Definition bind {A B} (m : M A) (k : A -> M B) : M B :=
  fun t =>
    match m t with
    | (Fulfilled a, t1) => k a t1
    | (Rejected e, t1) => (Rejected e, t1)
    end.

Definition tryCatch {A} (m : M A) (h : error -> M A) : M A :=
  fun t =>
    match m t with
    | (Fulfilled a, t1) => (Fulfilled a, t1)
    | (Rejected e, t1) => h e t1
    end.

Definition emit (e : event) : M unit := fun t => (Fulfilled tt, (t ++ [e])%list).

(** [await new Promise(res => setTimeout(res, ms))] *)
Definition sleep (ms : Z) : M unit := emit (EvSleep ms).

Declare Scope js_scope.
Delimit Scope js_scope with js.
Notation "x <- m ;; k" := (bind m (fun x => k))
  (at level 61, m at next level, right associativity) : js_scope.
Notation "m ;; k" := (bind m (fun _ => k))
  (at level 61, right associativity) : js_scope.
Open Scope js_scope.

(** Observations on a trace. *)
Definition isAttempt (e : event) : bool :=
  match e with EvCall | EvFetch _ _ => true | _ => false end.

Definition attempts (t : trace) : nat := List.length (filter isAttempt t).

Definition delayOf (e : event) : Z :=
  match e with EvSleep ms => ms | _ => 0 end.

Definition totalDelay (t : trace) : Z :=
  fold_right (fun e acc => delayOf e + acc) 0 t.

Fixpoint sleeps (t : trace) : list Z :=
  match t with
  | [] => []
  | EvSleep ms :: r => ms :: sleeps r
  | _ :: r => sleeps r
  end.

Definition fetchedUrls (t : trace) : list string :=
  flat_map (fun e => match e with EvFetch u _ => [u] | _ => [] end) t.

(** Values that have an [undefined]. *)
Class Undef (A : Type) : Type := undefined : A.

#[export] Instance Undef_value : Undef value := VUndef.

(** An abstract fallible operation, scripted by the number of operations
    that ran before it. *)
Definition invoke {A} (script : nat -> settled A) : M A :=
  fun t => (script (attempts t), (t ++ [EvCall])%list).

(** What [fetch] resolves to.  The document a body parses to is kept up to
    what the handlers read from it. *)
Inductive document : Type :=
| DocNull                       (* the body is the document null *)
| Doc (candidateText : value).  (* any other document, with the value of
                                   candidates?.[0]?.content?.parts?.[0]?.text *)

Record Response : Type := mkResponse {
  status : Z;
  statusText : string;
  bodyText : string;              (* what response.text() resolves to *)
  bodyJson : settled document     (* how response.json() settles *)
}.

Definition ok (r : Response) : bool := (200 <=? status r) && (status r <=? 299).

Inductive fetched : Type :=
| NoResponse
| Resp (r : Response).

#[export] Instance Undef_fetched : Undef fetched := NoResponse.

(** The network: the outcome of a call to a URL when [n] operations ran
    before it. *)
Definition network := string -> nat -> settled Response.

Definition fetch (net : network) (url : string) (opts : FetchOptions)
  : M Response :=
  fun t => (net url (attempts t), (t ++ [EvFetch url opts])%list).


(** [async () => fetch(url, opts)], as handed to a retry helper. *)
Definition fetchResp (net : network) (url : string) (opts : FetchOptions)
  : M fetched :=
  r <- fetch net url opts ;; ret (Resp r).

(* ------------------------------------------------------------------ *)
(** ** Requests, configuration and replies *)

Record Body : Type := mkBody {
  current : value;
  angle : value;
  riverWidth : value;
  riverMile : value;
  calculatedBoomLength : value;
  tension : value;
  interval : value;
  driftTime : value;
  isCascade : value;
  segments : value;
  anchors : value;
  anchorDetailsText : value
}.

(** [body] is [None] when [req.body] is [undefined]. *)
Record Request : Type := mkRequest {
  method : string;
  body : option Body
}.

(** [process.env] *)
Record Env : Type := mkEnv {
  GOOGLE_API_KEY : option string;
  GEMINI_API_KEY : option string;
  AIRTABLE_API_KEY : option string;
  AIRTABLE_BASE_ID : option string;
  AIRTABLE_TABLE_ID : option string
}.

(** [res.status(code).json(content)] *)
Record Reply : Type := mkReply {
  code : Z;
  content : list (string * value)
}.

(** An environment variable inside a template literal. *)
Definition envText (o : option string) : string :=
  match o with Some s => s | None => "undefined" end.

(** Truthiness of an environment variable. *)
Definition envSet (o : option string) : bool :=
  match o with Some s => negb (isEmpty s) | None => false end.

(** [const { current, ... } = req.body] *)
Definition destructure (b : option Body) : M Body :=
  match b with
  | Some b => ret b
  | None =>
      throw (TypeError
        "Cannot destructure property 'current' of 'req.body' as it is undefined.")
  end.

(** [await response.json()] and [await response.text()] *)
Definition responseJson (r : Response) : M document :=
  fun t => (bodyJson r, t).

Definition responseText (r : Response) : M string := ret (bodyText r).

Definition nl : string := String (ascii_of_nat 10) "".
Definition dq : string := String (ascii_of_nat 34) "".

Definition jsonHeaders : list (string * string) :=
  [("Content-Type", "application/json")].

Definition airtableHeaders (key : option string) : list (string * string) :=
  [("Authorization", "Bearer " ++ envText key);
   ("Content-Type", "application/json")].

(** [{ records: [{ fields }] }], serialised. *)
Definition recordsJson (fields : list (string * value)) : json :=
  JObj [("records", JArr [JObj [("fields", JObj (jsonMembers fields))]])].

Definition textPart (s : string) : json :=
  JObj [("parts", JArr [JObj [("text", JStr s)]])].

(* ------------------------------------------------------------------ *)
(** ** api/generate-report.js: the retry helper *)

Module GenerateReport.

(** How one pass through the body of the [for] loop ends. *)
Inductive completion (A : Type) : Type :=
| Return (a : A)    (* return await func() *)
| Continue.         (* fall out of the try statement: i++ and loop *)
Arguments Return {A} a.
Arguments Continue {A}.

(** The body of the loop of [exponentialBackoff], at index [i]. *)
Definition iteration {A} (func : M A) (maxRetries delay i : Z)
  : M (completion A) :=
  tryCatch
    (a <- func ;; ret (Return a))
    (fun error =>
       if i <? maxRetries - 1 then
         sleep (delay * 2 ^ i) ;; ret Continue
       else throw error).

(** [for (let i = 0; i < maxRetries; i++) { ... }], from index [i] on;
    running off the end of the loop returns [undefined]. *)
Equations exponentialBackoff_loop {A} {U : Undef A} (func : M A)
  (maxRetries delay i : Z) (t : trace) : settled A * trace
  by wf (Z.to_nat (maxRetries - i)) lt :=
exponentialBackoff_loop func maxRetries delay i t with Z_lt_dec i maxRetries := {
  | left _ with iteration func maxRetries delay i t := {
      | (Fulfilled (Return a), t1) => (Fulfilled a, t1)
      | (Fulfilled Continue, t1) =>
          exponentialBackoff_loop func maxRetries delay (i + 1) t1
      | (Rejected e, t1) => (Rejected e, t1) }
  | right _ => (Fulfilled undefined, t) }.
Next Obligation. lia. Qed.

Definition exponentialBackoff {A} {U : Undef A} (func : M A)
  (maxRetries delay : Z) : M A :=
  exponentialBackoff_loop func maxRetries delay 0.

(** *** The handler *)

Definition GOOGLE_AI_API_URL : string :=
  "https://generativelanguage.googleapis.com/v1beta/models/gemini-2.5-flash-preview-05-20:generateContent".

Definition AIRTABLE_API_URL (env : Env) : string :=
  "https://api.airtable.com/v0/" ++ envText (AIRTABLE_BASE_ID env)
  ++ "/" ++ envText (AIRTABLE_TABLE_ID env).

Definition googleAiUrl (env : Env) : string :=
  GOOGLE_AI_API_URL ++ "?key=" ++ envText (GOOGLE_API_KEY env).

Definition prompt (b : Body) : string :=
  nl
    ++ "            You are a subject matter expert on boom deployment for environmental response." ++ nl
    ++ "            Your task is to generate a professional, concise, and easy-to-read report" ++ nl
    ++ "            on a geographic response strategy for a diesel fuel spill." ++ nl
    ++ nl
    ++ "            The report should be a single, well-structured paragraph that includes the following information:" ++ nl
    ++ "            - A professional salutation." ++ nl
    ++ "            - A summary of the deployment conditions (river mile, current, river width, boom angle, drift time if available)." ++ nl
    ++ "            - The calculated boom length required and the estimated tension." ++ nl
    ++ "            - The recommended anchor interval and total number of anchors." ++ nl
    ++ "            - A clear recommendation on whether a single boom or a cascade booming system is required, and if so, how many segments." ++ nl
    ++ "            - A professional closing." ++ nl
    ++ nl
    ++ "            Here are the details for the report:" ++ nl
    ++ "            - River Mile: " ++ toString (orElse (riverMile b) (VStr "Not specified")) ++ nl
    ++ "            - River Current: " ++ toString (current b) ++ " knots" ++ nl
    ++ "            - River Width: " ++ toString (riverWidth b) ++ " ft" ++ nl
    ++ "            - Boom Angle: " ++ toString (angle b) ++ " degrees" ++ nl
    ++ "            - Calculated Boom Length: " ++ toString (calculatedBoomLength b) ++ " ft" ++ nl
    ++ "            - Estimated Tension: " ++ toString (tension b) ++ " lbs" ++ nl
    ++ "            - Recommended Anchor Interval: " ++ toString (interval b) ++ nl
    ++ "            - Drift Time (for 100ft): " ++ toString (orElse (driftTime b) (VStr "Not measured")) ++ " seconds" ++ nl
    ++ "            - Is Cascade Booming System Recommended?: " ++ (if truthy (isCascade b) then "Yes" else "No") ++ nl
    ++ "            - Total segments (if cascade): " ++ toString (if truthy (isCascade b) then segments b else VNum (numZ 1)) ++ nl
    ++ "            - Total anchors required: " ++ toString (anchors b) ++ nl
    ++ "            - Anchor details: " ++ toString (anchorDetailsText b) ++ nl
    ++ "            - Spill Type: Diesel Fuel" ++ nl
    ++ "            - Location: Tennessee Valley Authority waterway" ++ nl
    ++ "        ".

Definition systemInstruction : string :=
  "Act as an expert environmental response consultant. Provide a concise, single-paragraph report based on the provided data.".

Definition googleAiPayload (b : Body) : json :=
  JObj [("contents", JArr [textPart (prompt b)]);
        ("tools", JArr [JObj [("google_search", JObj [])]]);
        ("systemInstruction", textPart systemInstruction)].

(** The [fields] object of [airtablePayload]. *)
Definition airtableFields (b : Body) (generatedText : value)
  : list (string * value) :=
  [("Report", generatedText);
   ("Current", VNum (parseFloat (current b)));
   ("Angle", VNum (parseFloat (angle b)));
   ("River Width", VNum (parseFloat (riverWidth b)));
   ("River Mile", riverMile b);
   ("Boom Length", VNum (parseFloat (calculatedBoomLength b)));
   ("Seg Length",
    VNum (parseFloat
            (VNum (numDiv (toNumber (calculatedBoomLength b))
                          (toNumber (segments b))))));
   ("Anchor Interval", VNum (parseInt (interval b)));
   ("Drift Time", orElse (VNum (parseFloat (driftTime b))) VNull);
   ("Segments", if truthy (isCascade b) then segments b else VNum (numZ 1));
   ("Anchors", anchors b)].

Definition airtablePayload (b : Body) (generatedText : value) : json :=
  recordsJson (airtableFields b generatedText).

(** [await googleAiResponse.json()] *)
Definition googleAiResult (googleAiResponse : fetched) : M document :=
  match googleAiResponse with
  | NoResponse =>
      throw (TypeError "Cannot read properties of undefined (reading 'json')")
  | Resp r => responseJson r
  end.

(** [googleAiResult.candidates?.[0]?.content?.parts?.[0]?.text] *)
Definition candidateOf (d : document) : M value :=
  match d with
  | DocNull =>
      throw (TypeError "Cannot read properties of null (reading 'candidates')")
  | Doc v => ret v
  end.

Definition saveFailed (r : Response) (errorText : string) : error :=
  Error ("Failed to save report to Airtable: " ++ showZ (status r) ++ " "
         ++ statusText r ++ " - " ++ errorText).

Definition handler (env : Env) (net : network) (req : Request) : M Reply :=
  if negb (method req =? "POST")%string then
    ret (mkReply 405 [("message", VStr "Method Not Allowed")])
  else
    tryCatch
      (b <- destructure (body req) ;;
       (* Step 1: generate the report text *)
       googleAiResponse <-
         exponentialBackoff
           (fetchResp net (googleAiUrl env)
              (mkOptions "POST" jsonHeaders (googleAiPayload b)))
           5 1000 ;;
       result <- googleAiResult googleAiResponse ;;
       generatedText <- candidateOf result ;;
       if negb (truthy generatedText) then
         throw (Error "Failed to generate report text from Google AI.")
       else
         (* Step 2: save the generated report *)
         airtableResponse <-
           exponentialBackoff
             (fetchResp net (AIRTABLE_API_URL env)
                (mkOptions "POST" (airtableHeaders (AIRTABLE_API_KEY env))
                   (airtablePayload b generatedText)))
             5 1000 ;;
         match airtableResponse with
         | NoResponse =>
             throw (TypeError
                      "Cannot read properties of undefined (reading 'ok')")
         | Resp r =>
             if negb (ok r) then
               errorText <- responseText r ;;
               throw (saveFailed r errorText)
             else ret (mkReply 200 [("reportText", generatedText)])
         end)
      (fun error =>
         emit (EvError "API Error:" error) ;;
         ret (mkReply 500 [("message", VStr "An unexpected error occurred.");
                           ("error", VStr (err_message error))])).

End GenerateReport.

(* ------------------------------------------------------------------ *)
(** ** The sibling handler: the retry helper *)

Module Generate.

(** How one run of the body of [fetchWithBackoff] ends: with the response,
    or by returning (without awaiting it) the promise of the recursive call,
    whose rejection therefore bypasses the [catch] clause. *)
Inductive completion (retries : Z) : Type :=
| Return (response : Response)
| TailCall (positive : 0 < retries).
Arguments Return {retries} response.
Arguments TailCall {retries} positive.

Definition rateLimitMessage (delay : Z) : string :=
  "Rate limit exceeded. Retrying in "
  ++ numToString (numDiv (numZ delay) (numZ 1000)) ++ " seconds...".

Definition fetchErrorMessage (delay : Z) : string :=
  "Fetch error. Retrying in "
  ++ numToString (numDiv (numZ delay) (numZ 1000)) ++ " seconds...".

Definition httpError (r : Response) : error :=
  Error ("HTTP error! status: " ++ showZ (status r)).

(** The [try { ... } catch (error) { ... }] of [fetchWithBackoff]. *)
Definition attempt (net : network) (url : string) (options : FetchOptions)
  (retries delay : Z) : M (completion retries) :=
  tryCatch
    (response <- fetch net url options ;;
     if negb (ok response) then
       match status response =? 429, Z_lt_dec 0 retries with
       | true, left positive =>
           emit (EvLog (rateLimitMessage delay)) ;;
           sleep delay ;;
           ret (TailCall positive)
       | _, _ => throw (httpError response)
       end
     else ret (Return response))
    (fun error =>
       match Z_lt_dec 0 retries with
       | left positive =>
           emit (EvLog (fetchErrorMessage delay)) ;;
           sleep delay ;;
           ret (TailCall positive)
       | right _ => throw error
       end).

Equations fetchWithBackoff (net : network) (url : string)
  (options : FetchOptions) (retries delay : Z) (t : trace)
  : settled Response * trace by wf (Z.to_nat retries) lt :=
fetchWithBackoff net url options retries delay t
  with attempt net url options retries delay t := {
  | (Fulfilled (Return response), t1) => (Fulfilled response, t1)
  | (Fulfilled (TailCall positive), t1) =>
      fetchWithBackoff net url options (retries - 1) (delay * 2) t1
  | (Rejected e, t1) => (Rejected e, t1) }.
Next Obligation. lia. Qed.

(** *** The handler *)

Definition geminiApiUrl (env : Env) : string :=
  "https://generativelanguage.googleapis.com/v1beta/models/gemini-2.5-flash-preview-05-20:generateContent?key="
  ++ envText (GEMINI_API_KEY env).

Definition airtableUrl (env : Env) : string :=
  "https://api.airtable.com/v0/" ++ envText (AIRTABLE_BASE_ID env)
  ++ "/" ++ envText (AIRTABLE_TABLE_ID env).

(** The conditional clause of the last paragraph of [userQuery]. *)
Definition cascadeClause (b : Body) : string :=
  if truthy (isCascade b) then
    "The deployment will utilize a cascade booming system with "
    ++ toString (segments b) ++ " segments."
  else "".

Definition userQuery (b : Body) : string :=
  "Write a detailed operational plan for a deployment report using the following format and data:" ++ nl
    ++ "        " ++ nl
    ++ "        Deployment Report" ++ nl
    ++ "        Prepared for: TVA Emergency Management" ++ nl
    ++ "        Subject: Geographic Response Strategy for River Mile " ++ toString (riverMile b) ++ nl
    ++ "        " ++ nl
    ++ "        Operational Plan:" ++ nl
    ++ "        " ++ nl
    ++ "        Location: River Mile " ++ toString (riverMile b) ++ nl
    ++ "        River Width: " ++ toString (riverWidth b) ++ " feet" ++ nl
    ++ "        Drift Time: " ++ toString (driftTime b) ++ " seconds" ++ nl
    ++ "        Current: " ++ toString (current b) ++ " knots" ++ nl
    ++ "        Max Boom Deflection Angle: " ++ toString (angle b) ++ " degrees" ++ nl
    ++ "        Boom Required: " ++ toString (calculatedBoomLength b) ++ " feet" ++ nl
    ++ "        Estimated Tension: " ++ toString (tension b) ++ " pounds per 100 ft of boom profile" ++ nl
    ++ "        Recommended Anchor Interval: " ++ toString (interval b) ++ nl
    ++ "        " ++ nl
    ++ "        " ++ toString (anchorDetailsText b) ++ " " ++ nl
    ++ "        " ++ nl
    ++ "        " ++ cascadeClause b ++ " The deployment will use a 22-pound Danforth anchor. Please ensure all measurements and values in the report are presented in imperial units (e.g., feet, knots, pounds). Do not include any mention of a diagram, sketch, or formal email headings like " ++ dq ++ "Prepared For" ++ dq ++ " or " ++ dq ++ "Subject" ++ dq ++ " in the report text itself.".

Definition systemPrompt : string :=
  "You are an expert oil spill response specialist. Your task is to write the body of a detailed, professional, and concise deployment report based on the provided data. The body should describe the operational plan, highlight key safety considerations, and explain the physical principles at play. Do not mention that you are an AI or language model. Respond in a formal, informative tone. Do not use an emoji.".

Definition geminiPayload (b : Body) : json :=
  JObj [("contents", JArr [textPart (userQuery b)]);
        ("systemInstruction", textPart systemPrompt)].

(** [geminiResult?.candidates?.[0]?.content?.parts?.[0]?.text || "..."] *)
Definition generatedTextOf (d : document) : value :=
  orElse (match d with DocNull => VUndef | Doc v => v end)
         (VStr "Could not generate report. Please try again.").

(** [isNaN(x) ? null : x] *)
Definition orNull (n : number) : value :=
  if isNaN n then VNull else VNum n.

(** The computation of [intervalValueForAirtable]; among the scalars of
    the model, [interval.includes] throws unless [interval] is a string (an
    array, which has an [includes] of its own, is outside the model). *)
Definition intervalValueForAirtable (interval : value) : M number :=
  match interval with
  | VStr s =>
      if includes "+" s then
        ret (parseFloat (VStr (removeFirst "+" s)))
      else if includes "per" s then
        ret (parseFloat (VStr (beforeFirst " " s)))
      else ret (parseFloat (VStr s))
  | VUndef =>
      throw (TypeError
               "Cannot read properties of undefined (reading 'includes')")
  | VNull =>
      throw (TypeError "Cannot read properties of null (reading 'includes')")
  | _ => throw (TypeError "interval.includes is not a function")
  end.

(** The [fields] object of [airtablePayload]; [today] is
    [new Date().toISOString().split('T')[0]]. *)
Definition airtableFields (b : Body) (generatedText : value)
  (intervalValue : number) (today : string) : list (string * value) :=
  let currentNum := parseFloat (current b) in
  let boomLengthNum := parseFloat (calculatedBoomLength b) in
  let angleNum := parseFloat (angle b) in
  let anchorsNum := parseFloat (anchors b) in
  let segmentsNum := parseFloat (segments b) in
  let riverWidthNum := parseFloat (riverWidth b) in
  [("River Mile", orElse (riverMile b) (VStr "N/A"));
   ("Current", orNull currentNum);
   ("Boom Required (ft)", orNull boomLengthNum);
   ("Angle", orNull angleNum);
   ("Tension", tension b);
   ("Anchors", orNull anchorsNum);
   ("Anchor Interval", orNull intervalValue);
   ("River Width (ft)", orNull riverWidthNum);
   ("Drift Time (sec)", driftTime b);
   ("Generated Report", generatedText);
   ("Report Date", VStr today);
   ("Cascade System?", isCascade b);
   ("Segments", if truthy (isCascade b) then VNum segmentsNum else VNull)].

Definition airtablePayload (b : Body) (generatedText : value)
  (intervalValue : number) (today : string) : json :=
  recordsJson (airtableFields b generatedText intervalValue today).

Definition missingEnvironment : Reply :=
  mkReply 500
    [("error",
      VStr "Missing environment variables. Please check your Vercel settings.")].

(** [module.exports = async (req, res) => { ... }] *)
Definition exports (env : Env) (today : string) (net : network)
  (req : Request) : M Reply :=
  if negb (method req =? "POST")%string then
    ret (mkReply 405 [("message", VStr "Method Not Allowed")])
  else
    tryCatch
      (b <- destructure (body req) ;;
       if negb (envSet (AIRTABLE_API_KEY env))
          || negb (envSet (AIRTABLE_BASE_ID env))
          || negb (envSet (AIRTABLE_TABLE_ID env))
          || negb (envSet (GEMINI_API_KEY env))
       then ret missingEnvironment
       else
         (* Step 1: generate the report text *)
         geminiResponse <-
           fetchWithBackoff net (geminiApiUrl env)
             (mkOptions "POST" jsonHeaders (geminiPayload b)) 3 1000 ;;
         geminiResult <- responseJson geminiResponse ;;
         let generatedText := generatedTextOf geminiResult in
         intervalValue <- intervalValueForAirtable (interval b) ;;
         (* Step 2: save the report *)
         fetchWithBackoff net (airtableUrl env)
           (mkOptions "POST" (airtableHeaders (AIRTABLE_API_KEY env))
              (airtablePayload b generatedText intervalValue today))
           3 1000 ;;
         ret (mkReply 200
                [("success", VBool true);
                 ("message", VStr "Report generated and saved!");
                 ("reportText", generatedText)]))
      (fun error =>
         emit (EvError "API call failed:" error) ;;
         ret (mkReply 500
                [("message", VStr "Failed to generate or save the report.");
                 ("error", VStr (err_message error))])).

End Generate.

(* ------------------------------------------------------------------ *)
(** ** The backoff series and the outcomes of an attempt *)

(** The delays [delay, 2 delay, 4 delay, ...] of [k] failed attempts. *)
Fixpoint geometric (delay : Z) (k : nat) : list Z :=
  match k with
  | O => []
  | S k' => delay :: geometric (delay * 2) k'
  end.

Definition sumZ (l : list Z) : Z := fold_right Z.add 0 l.

(** An attempt of [fetch] that the sibling handler's helper counts as
    failed: a network error or a response that is not [ok]. *)
Definition failed (o : settled Response) : bool :=
  match o with
  | Rejected _ => true
  | Fulfilled r => negb (ok r)
  end.

(** The error that a failed attempt of [fetchWithBackoff] raises. *)
Definition errorOf (o : settled Response) : error :=
  match o with
  | Rejected e => e
  | Fulfilled r => Generate.httpError r
  end.

Definition rateLimited (o : settled Response) : bool :=
  match o with
  | Rejected _ => false
  | Fulfilled r => status r =? 429
  end.

Definition rejected {A} (o : settled A) : bool :=
  match o with
  | Rejected _ => true
  | Fulfilled _ => false
  end.

(* ------------------------------------------------------------------ *)
(** ** Numerals at the head of an interval *)

(** Unsigned decimal numerals: a whole part [ip] and an optional fraction
    [fp], written [ip] or [ip.fp]. *)
Fixpoint allDigits (s : string) : bool :=
  match s with
  | EmptyString => true
  | String c r => isSome (digit_of c) && allDigits r
  end.

Definition wholeNumber (s : string) : bool := negb (isEmpty s) && allDigits s.

Definition decimalLiteral (ip fp : string) : string :=
  (if isEmpty fp then ip else ip ++ "." ++ fp)%string.

(** The number that [ip.fp] denotes. *)
Definition decimalValue (ip fp : string) : number :=
  mkDec (digitsValue (ip ++ fp)%string) (- Z.of_nat (String.length fp)).

Definition startsWithDigit (s : string) : bool :=
  match s with
  | String c _ => isSome (digit_of c)
  | EmptyString => false
  end.

(** What may follow the numeral of an interval: nothing, a space or a plus. *)
Definition endsNumeral (rest : string) : bool :=
  match rest with
  | EmptyString => true
  | String c _ => Ascii.eqb c " " || Ascii.eqb c "+"
  end.

(** What may follow the whole part of a numeral. *)
Definition endsWhole (tail : string) : bool :=
  match tail with
  | EmptyString => true
  | String c _ => Ascii.eqb c " " || Ascii.eqb c "+" || Ascii.eqb c "."
  end.

(** Characters that a string does not contain. *)
Fixpoint absent (c : ascii) (s : string) : bool :=
  match s with
  | EmptyString => true
  | String d r => negb (Ascii.eqb d c) && absent c r
  end.

(* ------------------------------------------------------------------ *)
(** ** Requests and the fields of a record *)

Definition withInterval (b : Body) (v : value) : Body :=
  mkBody (current b) (angle b) (riverWidth b) (riverMile b)
         (calculatedBoomLength b) (tension b) v (driftTime b) (isCascade b)
         (segments b) (anchors b) (anchorDetailsText b).

Definition withSegments (b : Body) (v : value) : Body :=
  mkBody (current b) (angle b) (riverWidth b) (riverMile b)
         (calculatedBoomLength b) (tension b) (interval b) (driftTime b)
         (isCascade b) v (anchors b) (anchorDetailsText b).

(** The value a field of a record is persisted with: [None] when the
    property is left out of the JSON document. *)
Definition persisted (field : string) (fields : list (string * value))
  : option json :=
  match lookup field fields with
  | Some v => jsonOfValue v
  | None => None
  end.

(** The fields that api/generate-report.js parses with [parseFloat], with
    the request value each one is parsed from. *)
Definition parsedFields (b : Body) : list (string * value) :=
  [("Current", current b); ("Angle", angle b);
   ("River Width", riverWidth b); ("Boom Length", calculatedBoomLength b);
   ("Drift Time", driftTime b)].

(** The same for the sibling handler. *)
Definition siblingParsedFields (b : Body) : list (string * value) :=
  [("Current", current b); ("Boom Required (ft)", calculatedBoomLength b);
   ("Angle", angle b); ("Anchors", anchors b);
   ("River Width (ft)", riverWidth b)].

(* ------------------------------------------------------------------ *)
(** ** Further observations on runs *)

(** The outbound calls of a trace, in order, each with its options. *)
Definition fetches (t : trace) : list (string * FetchOptions) :=
  flat_map (fun e => match e with EvFetch u o => [(u, o)] | _ => [] end) t.

(** The trace of [k] failed runs of an operation that leaves the event
    [ev], each followed by its wait, and of one last run. *)
Fixpoint schedule (ev : event) (delay : Z) (k : nat) : trace :=
  match k with
  | O => [ev]
  | S k' => ev :: EvSleep delay :: schedule ev (delay * 2) k'
  end.

(** The outcome of [async () => fetch(url, opts)] for an outcome of [fetch]. *)
Definition asFetched (o : settled Response) : settled fetched :=
  match o with
  | Fulfilled r => Fulfilled (Resp r)
  | Rejected e => Rejected e
  end.

Definition isString (v : value) : bool :=
  match v with VStr _ => true | _ => false end.

(* ------------------------------------------------------------------ *)
(** ** Numbers that binary64 holds exactly *)

Fixpoint oddPart (p : positive) : positive :=
  match p with
  | xO q => oddPart q
  | _ => p
  end.

(** The finite numbers of the model that are binary64 numbers: [M * 2^e]
    with [|M| < 2^53] and [-1074 <= e <= 971].  On these the exact
    arithmetic of the model and the arithmetic of the code agree: parsing
    the numeral of such a number yields the number itself, with no
    rounding. *)
Definition binary64 (n : number) : bool :=
  match n with
  | Fin q =>
      let q' := Qred q in
      match Qnum q' with
      | 0 => true
      | Z.pos m | Z.neg m =>
          (Z.pos (oddPart m) <? 2 ^ 53)
          && Pos.eqb (oddPart (Qden q')) 1
          && (Z.pos (Qden q') <=? 2 ^ 1074)
          && (Z.pos m <? 2 ^ 1024 * Z.pos (Qden q'))
      end
  | _ => true
  end.

(* ------------------------------------------------------------------ *)
(** ** Template literals as lists of pieces *)

(** The text of a template literal, from its pieces in order. *)
Fixpoint pieces (l : list string) : string :=
  match l with
  | [] => ""
  | p :: rest =>
      match rest with
      | [] => p
      | _ => p ++ pieces rest
      end
  end.

Fixpoint lastChar (s : string) : option ascii :=
  match s with
  | EmptyString => None
  | String c r =>
      match r with
      | EmptyString => Some c
      | _ => lastChar r
      end
  end.

(** The piece ends with a character that [needle] does not contain. *)
Definition breaksAfter (needle p : string) : bool :=
  match lastChar p with
  | Some c => absent c needle
  | None => false
  end.

(** The piece starts with a character that [needle] does not contain. *)
Definition breaksBefore (needle q : string) : bool :=
  match q with
  | String c _ => absent c needle
  | EmptyString => false
  end.

(** No occurrence of [needle] can straddle two consecutive pieces. *)
Fixpoint separated (needle : string) (l : list string) : Prop :=
  match l with
  | [] => True
  | p :: rest =>
      match rest with
      | [] => True
      | q :: _ =>
          (breaksAfter needle p = true \/ breaksBefore needle q = true)
          /\ separated needle rest
      end
  end.

(** The request fields that the sibling handler's prompt interpolates
    outside of its cascade clause. *)
Definition interpolated (b : Body) : list value :=
  [riverMile b; riverWidth b; driftTime b; current b; angle b;
   calculatedBoomLength b; tension b; interval b; anchorDetailsText b].

(** Some interpolated field has [needle] in its own text. *)
Definition mentions (needle : string) (b : Body) : bool :=
  existsb (fun v => includes needle (toString v)) (interpolated b).

(* ------------------------------------------------------------------ *)
(** ** Sample requests, configurations and networks *)

Module Sample.

(** The request of the end-to-end scenario. *)
Definition cascadeBody : Body :=
  mkBody (VStr "2.5") (VStr "30") (VStr "300") (VStr "45") (VStr "350")
         (VStr "1200") (VStr "150+") (VStr "40") (VBool true) (VStr "2")
         (VStr "5") (VStr "...").

(** The same deployment with a single boom. *)
Definition singleBody : Body :=
  mkBody (VStr "2.5") (VStr "30") (VStr "300") (VStr "45") (VStr "350")
         (VStr "1200") (VStr "150+") (VStr "40") (VBool false) (VStr "2")
         (VStr "5") (VStr "...").

(** A request whose free-text entries are not numbers. *)
Definition wordyBody : Body :=
  mkBody (VStr "fast") VUndef (VStr "300") VUndef (VStr "350")
         (VStr "heavy") (VStr "wide") VUndef (VBool true) (VStr "several")
         (VStr "five") (VStr "...").

Definition post (b : Body) : Request := mkRequest "POST" (Some b).

Definition configured : Env :=
  mkEnv (Some "google-key") (Some "gemini-key") (Some "airtable-key")
        (Some "appBase") (Some "tblReports").

Definition unconfigured : Env := mkEnv None None None None None.

Definition today : string := "2025-01-01".

Definition generated : Response :=
  mkResponse 200 "OK" "" (Fulfilled (Doc (VStr "Deploy 350 ft of boom."))).

Definition tooManyRequests : Response :=
  mkResponse 429 "Too Many Requests" "quota exceeded" (Fulfilled DocNull).

Definition unprocessable : Response :=
  mkResponse 422 "Unprocessable Entity" "unknown field" (Fulfilled DocNull).

Definition forbidden : Response :=
  mkResponse 403 "Forbidden" "invalid key" (Fulfilled (Doc VUndef)).

Definition connectionReset : error := TypeError "fetch failed".

(** Every call is refused for want of a valid key. *)
Definition unauthorized : network := fun _ _ => Fulfilled forbidden.

(** An accepted call whose document carries no candidate text. *)
Definition textless : Response :=
  mkResponse 200 "OK" "{}" (Fulfilled (Doc VUndef)).

Definition speechless : network := fun _ _ => Fulfilled textless.

(** Every call succeeds. *)
Definition reliable : network := fun _ _ => Fulfilled generated.

(** HTTP 429 twice, then 200. *)
Definition rateLimitedTwice : network :=
  fun _ n =>
    match n with
    | 0%nat | 1%nat => Fulfilled tooManyRequests
    | _ => Fulfilled generated
    end.

(** Two network errors, then 200. *)
Definition droppedTwice : network :=
  fun _ n =>
    match n with
    | 0%nat | 1%nat => Rejected connectionReset
    | _ => Fulfilled generated
    end.

(** The generation service answers; the persistence service refuses. *)
Definition saveRefused : network :=
  fun url _ =>
    if prefix "https://api.airtable.com/" url then Fulfilled unprocessable
    else Fulfilled generated.

(** The generation service answers; the persistence service is unreachable. *)
Definition saveUnreachable : network :=
  fun url _ =>
    if prefix "https://api.airtable.com/" url then Rejected connectionReset
    else Fulfilled generated.

Definition url : string := "https://example.invalid/service".

Definition options : FetchOptions := mkOptions "POST" jsonHeaders JNull.

(** An operation that throws twice and then resolves. *)
Definition flaky : nat -> settled value :=
  fun n =>
    match n with
    | 0%nat | 1%nat => Rejected connectionReset
    | _ => Fulfilled (VStr "done")
    end.

(** An operation whose n-th run throws an error numbered n. *)
Definition numbered (n : nat) : error :=
  Error ("attempt " ++ showZ (Z.of_nat n)).

Definition hopeless : nat -> settled value := fun n => Rejected (numbered n).

End Sample.

(* ------------------------------------------------------------------ *)
(** ** Lemmas on traces and on the series *)

Open Scope list_scope.

Lemma attempts_app (t u : trace) :
  attempts (t ++ u) = (attempts t + attempts u)%nat.
Proof.
  unfold attempts. rewrite filter_app, length_app. reflexivity.
Qed.

(** Counts the attempts of the literal suffixes of a trace. *)
Ltac count_attempts :=
  rewrite ?attempts_app;
  repeat match goal with
         | |- context [attempts (?e :: ?l)] =>
             let n := eval cbv in (attempts (e :: l)) in
             change (attempts (e :: l)) with n
         end;
  try lia.

Lemma sleeps_app (t u : trace) : sleeps (t ++ u) = (sleeps t ++ sleeps u)%list.
Proof.
  induction t as [|e t IH]; simpl; [reflexivity|].
  destruct e; simpl; rewrite IH; reflexivity.
Qed.

Lemma totalDelay_sleeps (t : trace) : totalDelay t = sumZ (sleeps t).
Proof.
  induction t as [|e t IH]; simpl; [reflexivity|].
  unfold totalDelay in *. simpl. rewrite IH.
  destruct e; simpl; reflexivity.
Qed.

Lemma sumZ_geometric (delay : Z) (k : nat) :
  sumZ (geometric delay k) = delay * (2 ^ Z.of_nat k - 1).
Proof.
  revert delay. induction k as [|k IH]; intro delay.
  - simpl. lia.
  - cbn [geometric sumZ fold_right]. fold (sumZ (geometric (delay * 2) k)).
    rewrite IH, Nat2Z.inj_succ, Z.pow_succ_r by lia. lia.
Qed.

(** ** The loop of [exponentialBackoff], one iteration at a time *)

Lemma exponentialBackoff_loop_unfold {A} {U : Undef A} (func : M A)
  (maxRetries delay i : Z) (t : trace) :
  GenerateReport.exponentialBackoff_loop func maxRetries delay i t =
  if i <? maxRetries then
    match GenerateReport.iteration func maxRetries delay i t with
    | (Fulfilled (GenerateReport.Return a), t1) => (Fulfilled a, t1)
    | (Fulfilled GenerateReport.Continue, t1) =>
        GenerateReport.exponentialBackoff_loop func maxRetries delay (i + 1) t1
    | (Rejected e, t1) => (Rejected e, t1)
    end
  else (Fulfilled undefined, t).
Proof.
  rewrite GenerateReport.exponentialBackoff_loop_equation_1.
  destruct (Z_lt_dec i maxRetries) as [H|H]; simpl.
  - destruct (Z.ltb_spec i maxRetries); [|lia].
    destruct (GenerateReport.iteration func maxRetries delay i t)
      as [[[a|]|e] t1]; reflexivity.
  - destruct (Z.ltb_spec i maxRetries); [lia|]. reflexivity.
Qed.

Lemma fetchWithBackoff_unfold (net : network) (url : string)
  (options : FetchOptions) (retries delay : Z) (t : trace) :
  Generate.fetchWithBackoff net url options retries delay t =
  match Generate.attempt net url options retries delay t with
  | (Fulfilled (Generate.Return response), t1) => (Fulfilled response, t1)
  | (Fulfilled (Generate.TailCall _), t1) =>
      Generate.fetchWithBackoff net url options (retries - 1) (delay * 2) t1
  | (Rejected e, t1) => (Rejected e, t1)
  end.
Proof.
  rewrite Generate.fetchWithBackoff_equation_1.
  destruct (Generate.attempt net url options retries delay t)
    as [[[a|]|e] t1]; reflexivity.
Qed.

(** One iteration over a scripted operation. *)
Lemma iteration_invoke {A} (script : nat -> settled A)
  (maxRetries delay i : Z) (t : trace) :
  GenerateReport.iteration (invoke script) maxRetries delay i t =
  match script (attempts t) with
  | Fulfilled a => (Fulfilled (GenerateReport.Return a), (t ++ [EvCall])%list)
  | Rejected e =>
      if i <? maxRetries - 1 then
        (Fulfilled GenerateReport.Continue,
         ((t ++ [EvCall]) ++ [EvSleep (delay * 2 ^ i)])%list)
      else (Rejected e, (t ++ [EvCall])%list)
  end.
Proof.
  unfold GenerateReport.iteration, tryCatch, bind, invoke, sleep, emit, ret, throw.
  destruct (script (attempts t)); [reflexivity|].
  destruct (i <? maxRetries - 1); reflexivity.
Qed.

(** One attempt of [fetchWithBackoff], by the outcome of the call. *)
Lemma attempt_ok (net : network) url options retries delay t response :
  net url (attempts t) = Fulfilled response -> ok response = true ->
  Generate.attempt net url options retries delay t =
  (Fulfilled (Generate.Return response), (t ++ [EvFetch url options])%list).
Proof.
  intros Hn Hok.
  unfold Generate.attempt, tryCatch, bind, fetch. rewrite Hn, Hok. reflexivity.
Qed.

Lemma attempt_failed_retry (net : network) url options retries delay t :
  failed (net url (attempts t)) = true -> 0 < retries ->
  exists (positive : 0 < retries) (msg : string),
    Generate.attempt net url options retries delay t =
    (Fulfilled (Generate.TailCall positive),
     (t ++ [EvFetch url options; EvLog msg; EvSleep delay])%list).
Proof.
  intros Hf Hpos.
  unfold Generate.attempt, tryCatch, bind, fetch, sleep, emit, ret, throw.
  destruct (net url (attempts t)) as [r|e]; simpl in Hf.
  - apply negb_true_iff in Hf. rewrite Hf. simpl.
    destruct (status r =? 429); destruct (Z_lt_dec 0 retries) as [p|n];
      try lia; eexists; eexists; rewrite <- !app_assoc; reflexivity.
  - destruct (Z_lt_dec 0 retries) as [p|n]; [|lia].
    eexists; eexists; rewrite <- !app_assoc; reflexivity.
Qed.

Lemma attempt_failed_last (net : network) url options retries delay t :
  failed (net url (attempts t)) = true -> retries <= 0 ->
  Generate.attempt net url options retries delay t =
  (Rejected (errorOf (net url (attempts t))), (t ++ [EvFetch url options])%list).
Proof.
  intros Hf Hpos.
  unfold Generate.attempt, tryCatch, bind, fetch, sleep, emit, ret, throw.
  destruct (net url (attempts t)) as [r|e]; simpl in Hf |- *.
  - apply negb_true_iff in Hf. rewrite Hf. simpl.
    destruct (status r =? 429); destruct (Z_lt_dec 0 retries) as [p|n];
      try lia; reflexivity.
  - destruct (Z_lt_dec 0 retries) as [p|n]; [lia|]. reflexivity.
Qed.

Lemma pow2_step (delay i : Z) : 0 <= i -> delay * 2 ^ (i + 1) = delay * 2 ^ i * 2.
Proof. intro H. rewrite Z.pow_add_r by lia. lia. Qed.

(** ** [exponentialBackoff] over a scripted operation *)

Section ScriptedOperation.

Context {A : Type} {U : Undef A}.
Variable script : nat -> settled A.
Variables maxRetries delay : Z.

Let loop := GenerateReport.exponentialBackoff_loop (invoke script) maxRetries delay.

(** [k] rejections, then a result, all within the budget. *)
Lemma loop_first_success (v : A) (k : nat) :
  forall (i : Z) (t : trace),
    0 <= i -> i + Z.of_nat k < maxRetries ->
    (forall j, (j < k)%nat -> rejected (script (attempts t + j)%nat) = true) ->
    script (attempts t + k)%nat = Fulfilled v ->
    exists t',
      loop i t = (Fulfilled v, t')
      /\ attempts t' = (attempts t + S k)%nat
      /\ sleeps t' = sleeps t ++ geometric (delay * 2 ^ i) k.
Proof.
  subst loop. induction k as [|k IH]; intros i t Hi Hk Hrej Hv.
  - rewrite exponentialBackoff_loop_unfold, iteration_invoke.
    destruct (Z.ltb_spec i maxRetries); [|lia].
    rewrite Nat.add_0_r in Hv. rewrite Hv.
    exists (t ++ [EvCall]). rewrite attempts_app, sleeps_app. simpl.
    rewrite app_nil_r. auto.
  - rewrite exponentialBackoff_loop_unfold, iteration_invoke.
    destruct (Z.ltb_spec i maxRetries); [|lia].
    pose proof (Hrej 0%nat ltac:(lia)) as H0. rewrite Nat.add_0_r in H0.
    destruct (script (attempts t)) as [a|e]; [discriminate|].
    destruct (Z.ltb_spec i (maxRetries - 1)); [|lia].
    set (t1 := (t ++ [EvCall]) ++ [EvSleep (delay * 2 ^ i)]).
    assert (Ha : attempts t1 = S (attempts t)).
    { subst t1. count_attempts. }
    destruct (IH (i + 1) t1) as (t' & Hrun & Hatt & Hsl).
    + lia.
    + lia.
    + intros j Hj. rewrite Ha. replace (S (attempts t) + j)%nat
        with (attempts t + S j)%nat by lia. apply Hrej. lia.
    + rewrite Ha. replace (S (attempts t) + k)%nat
        with (attempts t + S k)%nat by lia. exact Hv.
    + exists t'. rewrite Hrun. split; [reflexivity|]. split; [lia|].
      rewrite Hsl. subst t1. rewrite !sleeps_app. simpl.
      rewrite app_nil_r, <- app_assoc. simpl.
      rewrite pow2_step by lia. reflexivity.
Qed.

(** Rejections at every iteration that is left. *)
Lemma loop_exhausted (errs : nat -> error) (k : nat) :
  forall (i : Z) (t : trace),
    0 <= i -> i + Z.of_nat k = maxRetries - 1 ->
    (forall j, (j <= k)%nat ->
       script (attempts t + j)%nat = Rejected (errs (attempts t + j)%nat)) ->
    exists t',
      loop i t = (Rejected (errs (attempts t + k)%nat), t')
      /\ attempts t' = (attempts t + S k)%nat
      /\ sleeps t' = sleeps t ++ geometric (delay * 2 ^ i) k.
Proof.
  subst loop. induction k as [|k IH]; intros i t Hi Hk Hrej.
  - rewrite exponentialBackoff_loop_unfold, iteration_invoke.
    destruct (Z.ltb_spec i maxRetries); [|lia].
    pose proof (Hrej 0%nat ltac:(lia)) as H0. rewrite Nat.add_0_r in H0 |- *.
    rewrite H0.
    destruct (Z.ltb_spec i (maxRetries - 1)); [lia|].
    exists (t ++ [EvCall]). rewrite attempts_app, sleeps_app. simpl.
    rewrite app_nil_r. auto.
  - rewrite exponentialBackoff_loop_unfold, iteration_invoke.
    destruct (Z.ltb_spec i maxRetries); [|lia].
    pose proof (Hrej 0%nat ltac:(lia)) as H0. rewrite Nat.add_0_r in H0.
    rewrite H0.
    destruct (Z.ltb_spec i (maxRetries - 1)); [|lia].
    set (t1 := (t ++ [EvCall]) ++ [EvSleep (delay * 2 ^ i)]).
    assert (Ha : attempts t1 = S (attempts t)).
    { subst t1. count_attempts. }
    destruct (IH (i + 1) t1) as (t' & Hrun & Hatt & Hsl).
    + lia.
    + lia.
    + intros j Hj. rewrite Ha. replace (S (attempts t) + j)%nat
        with (attempts t + S j)%nat by lia. apply Hrej. lia.
    + exists t'. rewrite Hrun, Ha.
      replace (S (attempts t) + k)%nat with (attempts t + S k)%nat by lia.
      split; [reflexivity|]. split; [lia|].
      rewrite Hsl. subst t1. rewrite !sleeps_app. simpl.
      rewrite app_nil_r, <- app_assoc. simpl.
      rewrite pow2_step by lia. reflexivity.
Qed.

End ScriptedOperation.

(** ** [fetchWithBackoff] over a scripted network *)

Section ScriptedNetwork.

Variable net : network.
Variable url : string.
Variable options : FetchOptions.

Lemma fetchWithBackoff_first_success (response : Response) (k : nat) :
  forall (retries delay : Z) (t : trace),
    Z.of_nat k <= retries ->
    (forall j, (j < k)%nat -> failed (net url (attempts t + j)%nat) = true) ->
    net url (attempts t + k)%nat = Fulfilled response ->
    ok response = true ->
    exists t',
      Generate.fetchWithBackoff net url options retries delay t
      = (Fulfilled response, t')
      /\ attempts t' = (attempts t + S k)%nat
      /\ sleeps t' = sleeps t ++ geometric delay k.
Proof.
  induction k as [|k IH]; intros retries delay t Hk Hfail Hv Hok.
  - rewrite fetchWithBackoff_unfold.
    rewrite Nat.add_0_r in Hv.
    rewrite (attempt_ok _ _ _ _ _ _ _ Hv Hok).
    eexists. split; [reflexivity|].
    rewrite attempts_app, sleeps_app. simpl. rewrite app_nil_r. auto.
  - rewrite fetchWithBackoff_unfold.
    pose proof (Hfail 0%nat ltac:(lia)) as H0. rewrite Nat.add_0_r in H0.
    destruct (attempt_failed_retry net url options retries delay t H0)
      as (positive & msg & Hatt); [lia|].
    rewrite Hatt.
    set (t1 := t ++ [EvFetch url options; EvLog msg; EvSleep delay]).
    assert (Ha : attempts t1 = S (attempts t)).
    { subst t1. count_attempts. }
    destruct (IH (retries - 1) (delay * 2) t1) as (t' & Hrun & Hat & Hsl).
    + lia.
    + intros j Hj. rewrite Ha. replace (S (attempts t) + j)%nat
        with (attempts t + S j)%nat by lia. apply Hfail. lia.
    + rewrite Ha. replace (S (attempts t) + k)%nat
        with (attempts t + S k)%nat by lia. exact Hv.
    + exact Hok.
    + exists t'. rewrite Hrun. split; [reflexivity|]. split; [lia|].
      rewrite Hsl. subst t1. rewrite sleeps_app. simpl.
      rewrite <- app_assoc. reflexivity.
Qed.

Lemma fetchWithBackoff_exhausted (k : nat) :
  forall (retries delay : Z) (t : trace),
    Z.of_nat k = Z.max 0 retries ->
    (forall j, (j <= k)%nat -> failed (net url (attempts t + j)%nat) = true) ->
    exists t',
      Generate.fetchWithBackoff net url options retries delay t
      = (Rejected (errorOf (net url (attempts t + k)%nat)), t')
      /\ attempts t' = (attempts t + S k)%nat
      /\ sleeps t' = sleeps t ++ geometric delay k.
Proof.
  induction k as [|k IH]; intros retries delay t Hk Hfail.
  - rewrite fetchWithBackoff_unfold.
    pose proof (Hfail 0%nat ltac:(lia)) as H0. rewrite Nat.add_0_r in H0 |- *.
    rewrite (attempt_failed_last net url options retries delay t H0) by lia.
    eexists. split; [reflexivity|].
    rewrite attempts_app, sleeps_app. simpl. rewrite app_nil_r. auto.
  - rewrite fetchWithBackoff_unfold.
    pose proof (Hfail 0%nat ltac:(lia)) as H0. rewrite Nat.add_0_r in H0.
    destruct (attempt_failed_retry net url options retries delay t H0)
      as (positive & msg & Hatt); [lia|].
    rewrite Hatt.
    set (t1 := t ++ [EvFetch url options; EvLog msg; EvSleep delay]).
    assert (Ha : attempts t1 = S (attempts t)).
    { subst t1. count_attempts. }
    destruct (IH (retries - 1) (delay * 2) t1) as (t' & Hrun & Hat & Hsl).
    + lia.
    + intros j Hj. rewrite Ha. replace (S (attempts t) + j)%nat
        with (attempts t + S j)%nat by lia. apply Hfail. lia.
    + exists t'. rewrite Hrun, Ha.
      replace (S (attempts t) + k)%nat with (attempts t + S k)%nat by lia.
      split; [reflexivity|]. split; [lia|].
      rewrite Hsl. subst t1. rewrite sleeps_app. simpl.
      rewrite <- app_assoc. reflexivity.
Qed.

End ScriptedNetwork.

Lemma rateLimited_failed (o : settled Response) :
  rateLimited o = true -> failed o = true.
Proof.
  destruct o as [r|e]; simpl; [|reflexivity].
  intro H. apply Z.eqb_eq in H. unfold ok. rewrite H. reflexivity.
Qed.

Lemma rejected_failed (o : settled Response) :
  rejected o = true -> failed o = true.
Proof. destruct o; simpl; [discriminate|reflexivity]. Qed.

(* ------------------------------------------------------------------ *)
(** ** The Backoff Invoker *)

(** C1. When the operation fails fewer times than the retry budget allows
    and then succeeds, the helper returns that first success, after one
    attempt per failure plus one, and the delays it waited are the geometric
    series [delay, 2 delay, 4 delay, ...], one per failure, whose sum is
    [delay * (2^k - 1)].  This holds for [exponentialBackoff] (a failure is a
    thrown error) and for [fetchWithBackoff] (a failure is a network error or
    a response that is not ok). *)
Theorem backoff_returns_first_success :
  (forall (A : Type) (U : Undef A) (script : nat -> settled A) (v : A)
          (k : nat) (maxRetries delay : Z),
      Z.of_nat k < maxRetries ->
      (forall j, (j < k)%nat -> rejected (script j) = true) ->
      script k = Fulfilled v ->
      exists t,
        GenerateReport.exponentialBackoff (invoke script) maxRetries delay []
        = (Fulfilled v, t)
        /\ attempts t = S k
        /\ sleeps t = geometric delay k
        /\ totalDelay t = delay * (2 ^ Z.of_nat k - 1))
  /\
  (forall (net : network) (url : string) (options : FetchOptions)
          (response : Response) (k : nat) (retries delay : Z),
      Z.of_nat k <= retries ->
      (forall j, (j < k)%nat -> failed (net url j) = true) ->
      net url k = Fulfilled response ->
      ok response = true ->
      exists t,
        Generate.fetchWithBackoff net url options retries delay []
        = (Fulfilled response, t)
        /\ attempts t = S k
        /\ sleeps t = geometric delay k
        /\ totalDelay t = delay * (2 ^ Z.of_nat k - 1)).
Proof.
  split.
  - intros A U script v k maxRetries delay Hk Hrej Hv.
    destruct (loop_first_success script maxRetries delay v k 0 [])
      as (t & Hrun & Hatt & Hsl); try assumption; try lia.
    exists t. unfold GenerateReport.exponentialBackoff. rewrite Hrun.
    simpl in Hatt, Hsl. rewrite Z.mul_1_r in Hsl.
    repeat split; try assumption.
    rewrite totalDelay_sleeps, Hsl. apply sumZ_geometric.
  - intros net url options response k retries delay Hk Hfail Hv Hok.
    destruct (fetchWithBackoff_first_success net url options response k
                retries delay []) as (t & Hrun & Hatt & Hsl);
      try assumption.
    exists t. simpl in Hatt, Hsl. repeat split; try assumption.
    rewrite totalDelay_sleeps, Hsl. apply sumZ_geometric.
Qed.

Lemma backoff_returns_first_success_witness :
  (exists t,
      GenerateReport.exponentialBackoff (invoke Sample.flaky) 5 1000 []
      = (Fulfilled (VStr "done"), t)
      /\ attempts t = 3%nat
      /\ sleeps t = [1000; 2000]
      /\ totalDelay t = 3000)
  /\
  (exists t,
      Generate.fetchWithBackoff Sample.droppedTwice Sample.url Sample.options
        3 1000 []
      = (Fulfilled Sample.generated, t)
      /\ attempts t = 3%nat
      /\ sleeps t = [1000; 2000]
      /\ totalDelay t = 3000).
Proof.
  split.
  - apply (proj1 backoff_returns_first_success value _ Sample.flaky
             (VStr "done") 2%nat 5 1000).
    + lia.
    + intros j Hj. destruct j as [|[|j]]; [reflexivity|reflexivity|lia].
    + reflexivity.
  - apply (proj2 backoff_returns_first_success Sample.droppedTwice Sample.url
             Sample.options Sample.generated 2%nat 3 1000).
    + lia.
    + intros j Hj. destruct j as [|[|j]]; [reflexivity|reflexivity|lia].
    + reflexivity.
    + reflexivity.
Defined.

(** C2. When the operation fails at every attempt the budget allows, the
    helper settles with one rejection, and the error it carries is the error
    of the last attempt: for [exponentialBackoff] with a positive budget the
    error thrown by the last of the [maxRetries] runs, for [fetchWithBackoff]
    the error of the last of the [retries + 1] calls. *)
Theorem backoff_raises_last_error :
  (forall (A : Type) (U : Undef A) (script : nat -> settled A)
          (errs : nat -> error) (maxRetries delay : Z),
      0 < maxRetries ->
      (forall j, Z.of_nat j < maxRetries -> script j = Rejected (errs j)) ->
      exists t,
        GenerateReport.exponentialBackoff (invoke script) maxRetries delay []
        = (Rejected (errs (Z.to_nat (maxRetries - 1))), t)
        /\ attempts t = Z.to_nat maxRetries
        /\ sleeps t = geometric delay (Z.to_nat (maxRetries - 1)))
  /\
  (forall (net : network) (url : string) (options : FetchOptions)
          (retries delay : Z),
      0 <= retries ->
      (forall j, Z.of_nat j <= retries -> failed (net url j) = true) ->
      exists t,
        Generate.fetchWithBackoff net url options retries delay []
        = (Rejected (errorOf (net url (Z.to_nat retries))), t)
        /\ attempts t = S (Z.to_nat retries)
        /\ sleeps t = geometric delay (Z.to_nat retries)).
Proof.
  split.
  - intros A U script errs maxRetries delay Hpos Hrej.
    destruct (loop_exhausted script maxRetries delay errs
                (Z.to_nat (maxRetries - 1)) 0 [])
      as (t & Hrun & Hatt & Hsl); try lia.
    + intros j Hj. simpl. apply Hrej. lia.
    + exists t. unfold GenerateReport.exponentialBackoff. rewrite Hrun.
      simpl in Hatt, Hsl |- *. rewrite Z.mul_1_r in Hsl.
      repeat split; try assumption. lia.
  - intros net url options retries delay Hpos Hfail.
    destruct (fetchWithBackoff_exhausted net url options (Z.to_nat retries)
                retries delay []) as (t & Hrun & Hatt & Hsl); try lia.
    + intros j Hj. simpl. apply Hfail. lia.
    + exists t. simpl in Hrun, Hatt, Hsl. auto.
Qed.

Lemma backoff_raises_last_error_witness :
  (exists t,
      GenerateReport.exponentialBackoff (invoke Sample.hopeless) 5 1000 []
      = (Rejected (Sample.numbered 4), t)
      /\ attempts t = 5%nat
      /\ sleeps t = [1000; 2000; 4000; 8000])
  /\
  (exists t,
      Generate.fetchWithBackoff Sample.saveRefused
        "https://api.airtable.com/v0/appBase/tblReports" Sample.options
        3 1000 []
      = (Rejected (Generate.httpError Sample.unprocessable), t)
      /\ attempts t = 4%nat
      /\ sleeps t = [1000; 2000; 4000]).
Proof.
  split.
  - apply (proj1 backoff_raises_last_error value _ Sample.hopeless
             Sample.numbered 5 1000).
    + lia.
    + intros j Hj. reflexivity.
  - apply (proj2 backoff_raises_last_error Sample.saveRefused
             "https://api.airtable.com/v0/appBase/tblReports" Sample.options
             3 1000).
    + lia.
    + intros j Hj. reflexivity.
Defined.

(** C10. With a retry budget of 0, [exponentialBackoff] never runs the
    operation: whatever the operation is, the trace is left as it was and
    the promise is fulfilled with [undefined], nothing is thrown; the value
    the caller gets is the one it gets, with the default budget, from an
    operation that resolves to [undefined]. *)
Theorem exponentialBackoff_zero_budget :
  forall (A : Type) (U : Undef A) (func : M A) (delay : Z) (t : trace),
    GenerateReport.exponentialBackoff func 0 delay t = (Fulfilled undefined, t)
    /\ fst (GenerateReport.exponentialBackoff func 0 delay t)
       = fst (GenerateReport.exponentialBackoff (ret undefined) 5 delay t).
Proof.
  intros A U func delay t.
  unfold GenerateReport.exponentialBackoff.
  rewrite (exponentialBackoff_loop_unfold func 0 delay 0 t).
  rewrite (exponentialBackoff_loop_unfold (ret undefined) 5 delay 0 t).
  simpl. split; reflexivity.
Qed.

(** One iteration of [exponentialBackoff] over a [fetch]. *)
Lemma iteration_fetch (net : network) url options (maxRetries delay i : Z) t :
  GenerateReport.iteration (fetchResp net url options) maxRetries delay i t =
  match net url (attempts t) with
  | Fulfilled r =>
      (Fulfilled (GenerateReport.Return (Resp r)), t ++ [EvFetch url options])
  | Rejected e =>
      if i <? maxRetries - 1 then
        (Fulfilled GenerateReport.Continue,
         (t ++ [EvFetch url options]) ++ [EvSleep (delay * 2 ^ i)])
      else (Rejected e, t ++ [EvFetch url options])
  end.
Proof.
  unfold GenerateReport.iteration, fetchResp, tryCatch, bind, fetch, sleep,
    emit, ret, throw.
  destruct (net url (attempts t)); [reflexivity|].
  destruct (i <? maxRetries - 1); reflexivity.
Qed.

(** C3, as the code has it.  [fetchWithBackoff] retries a rate-limit
    response (HTTP 429) as it retries a network error: with [k] such
    failures within the budget and then an ok response, both runs make
    [k + 1] calls, wait the same delays and return that response.
    [exponentialBackoff] retries thrown errors only: a response of any
    status, 429 included, is returned after the one call that produced it. *)
Theorem rate_limit_retry_policy :
  (forall (net net' : network) (url : string) (options : FetchOptions)
          (response : Response) (k : nat) (retries delay : Z),
      Z.of_nat k <= retries ->
      (forall j, (j < k)%nat ->
         rateLimited (net url j) = true /\ rejected (net' url j) = true) ->
      net url k = Fulfilled response ->
      net' url k = Fulfilled response ->
      ok response = true ->
      exists t t',
        Generate.fetchWithBackoff net url options retries delay []
        = (Fulfilled response, t)
        /\ Generate.fetchWithBackoff net' url options retries delay []
           = (Fulfilled response, t')
        /\ attempts t = S k /\ attempts t' = S k
        /\ sleeps t = geometric delay k /\ sleeps t' = geometric delay k)
  /\
  (forall (net : network) (url : string) (options : FetchOptions)
          (r : Response) (maxRetries delay : Z),
      0 < maxRetries ->
      net url 0%nat = Fulfilled r ->
      GenerateReport.exponentialBackoff (fetchResp net url options)
        maxRetries delay []
      = (Fulfilled (Resp r), [EvFetch url options])).
Proof.
  split.
  - intros net net' url options response k retries delay Hk Hfail Hv Hv' Hok.
    destruct (fetchWithBackoff_first_success net url options response k
                retries delay []) as (t & Hrun & Hatt & Hsl);
      try assumption.
    { intros j Hj. apply rateLimited_failed, (Hfail j Hj). }
    destruct (fetchWithBackoff_first_success net' url options response k
                retries delay []) as (t' & Hrun' & Hatt' & Hsl');
      try assumption.
    { intros j Hj. apply rejected_failed, (Hfail j Hj). }
    exists t, t'. simpl in *. auto 10.
  - intros net url options r maxRetries delay Hpos Hv.
    unfold GenerateReport.exponentialBackoff.
    rewrite exponentialBackoff_loop_unfold, iteration_fetch.
    destruct (Z.ltb_spec 0 maxRetries); [|lia].
    change (attempts []) with 0%nat. rewrite Hv. reflexivity.
Qed.

Lemma rate_limit_retry_policy_witness :
  (exists t t',
      Generate.fetchWithBackoff Sample.rateLimitedTwice Sample.url
        Sample.options 3 1000 []
      = (Fulfilled Sample.generated, t)
      /\ Generate.fetchWithBackoff Sample.droppedTwice Sample.url
           Sample.options 3 1000 []
         = (Fulfilled Sample.generated, t')
      /\ attempts t = 3%nat /\ attempts t' = 3%nat
      /\ sleeps t = [1000; 2000] /\ sleeps t' = [1000; 2000])
  /\
  GenerateReport.exponentialBackoff
    (fetchResp Sample.rateLimitedTwice Sample.url Sample.options) 5 1000 []
  = (Fulfilled (Resp Sample.tooManyRequests),
     [EvFetch Sample.url Sample.options]).
Proof.
  split.
  - apply (proj1 rate_limit_retry_policy Sample.rateLimitedTwice
             Sample.droppedTwice Sample.url Sample.options Sample.generated
             2%nat 3 1000).
    + lia.
    + intros j Hj.
      destruct j as [|[|j]]; [split; reflexivity|split; reflexivity|lia].
    + reflexivity.
    + reflexivity.
    + reflexivity.
  - apply (proj2 rate_limit_retry_policy Sample.rateLimitedTwice Sample.url
             Sample.options Sample.tooManyRequests 5 1000).
    + lia.
    + reflexivity.
Defined.

(** C3 as stated fails for [exponentialBackoff]: when the generation
    service answers 429, 429, 200, the helper makes one outbound call, not
    three, and hands the 429 response to the handler, which replies 500. *)
Lemma rate_limit_not_retried_by_exponentialBackoff :
  let run :=
    GenerateReport.exponentialBackoff
      (fetchResp Sample.rateLimitedTwice Sample.url Sample.options)
      5 1000 [] in
  let served :=
    GenerateReport.handler Sample.configured Sample.rateLimitedTwice
      (Sample.post Sample.cascadeBody) [] in
  fst run = Fulfilled (Resp Sample.tooManyRequests)
  /\ attempts (snd run) = 1%nat
  /\ attempts (snd run) <> 3%nat
  /\ attempts (snd served) = 1%nat
  /\ (exists reply, fst served = Fulfilled reply /\ code reply = 500).
Proof.
  vm_compute. repeat split; try discriminate.
  eexists. split; reflexivity.
Qed.

(* ------------------------------------------------------------------ *)
(** ** What the helpers can return to a handler *)

(** With a positive number of iterations left, [exponentialBackoff] over a
    [fetch] settles with an outcome of one of the calls. *)
Lemma exponentialBackoff_fetch_settles (net : network) url options
  (maxRetries delay : Z) (n : nat) :
  forall (i : Z) (t : trace),
    Z.to_nat (maxRetries - i) = S n ->
    let out :=
      GenerateReport.exponentialBackoff_loop (fetchResp net url options)
        maxRetries delay i t in
    (exists j r, fst out = Fulfilled (Resp r) /\ net url j = Fulfilled r)
    \/ (exists e, fst out = Rejected e).
Proof.
  induction n as [|n IH]; intros i t Hn out; subst out;
    rewrite exponentialBackoff_loop_unfold, iteration_fetch;
    (destruct (Z.ltb_spec i maxRetries); [|lia]);
    destruct (net url (attempts t)) as [r|e] eqn:Hcall.
  - left. exists (attempts t), r. auto.
  - destruct (Z.ltb_spec i (maxRetries - 1)); [lia|]. right. exists e. auto.
  - left. exists (attempts t), r. auto.
  - destruct (Z.ltb_spec i (maxRetries - 1)).
    + apply IH. lia.
    + right. exists e. auto.
Qed.

Lemma attempt_return (net : network) url options retries delay t t' response :
  Generate.attempt net url options retries delay t
  = (Fulfilled (Generate.Return response), t') ->
  net url (attempts t) = Fulfilled response /\ ok response = true.
Proof.
  unfold Generate.attempt, tryCatch, bind, fetch, sleep, emit, ret, throw.
  destruct (net url (attempts t)) as [r|e].
  - destruct (ok r) eqn:Hok; simpl.
    + intro H. inversion H. subst. auto.
    + destruct (status r =? 429); destruct (Z_lt_dec 0 retries);
        simpl; intro H; inversion H.
  - destruct (Z_lt_dec 0 retries); simpl; intro H; inversion H.
Qed.

(** [fetchWithBackoff] is only ever fulfilled with an ok response that one
    of the calls produced. *)
Lemma fetchWithBackoff_fulfilled (net : network) url options (n : nat) :
  forall (retries delay : Z) (t t' : trace) (response : Response),
    Z.to_nat retries = n ->
    Generate.fetchWithBackoff net url options retries delay t
    = (Fulfilled response, t') ->
    exists j, net url j = Fulfilled response /\ ok response = true.
Proof.
  induction n as [|n IH]; intros retries delay t t' response Hn;
    rewrite fetchWithBackoff_unfold;
    destruct (Generate.attempt net url options retries delay t)
      as [[[r|positive]|e] t1] eqn:Hatt; intro H; try discriminate.
  - inversion H; subst. exists (attempts t).
    eapply attempt_return; eassumption.
  - lia.
  - inversion H; subst. exists (attempts t).
    eapply attempt_return; eassumption.
  - eapply (IH (retries - 1)); [lia|eassumption].
Qed.

(* ------------------------------------------------------------------ *)
(** ** The Request Handler *)

(** Closes a goal whose handler run has ended in a reply that is not a
    success. *)
Ltac failure_reply :=
  eexists; eexists;
  split; [reflexivity | split; [simpl; discriminate | reflexivity]].

(** C4. When every call to the persistence service fails (a network error
    or a response that is not ok), the reply of either handler is never a
    success: its status is not 200 and it carries no report text.  This
    holds whatever the generation service did, so in particular when report
    generation succeeded. *)
Theorem persistence_failure_is_surfaced :
  forall (env : Env) (today : string) (net : network) (req : Request),
    (forall j, failed (net (GenerateReport.AIRTABLE_API_URL env) j) = true) ->
    (exists reply t,
        GenerateReport.handler env net req [] = (Fulfilled reply, t)
        /\ code reply <> 200
        /\ lookup "reportText" (content reply) = None)
    /\
    (exists reply t,
        Generate.exports env today net req [] = (Fulfilled reply, t)
        /\ code reply <> 200
        /\ lookup "reportText" (content reply) = None).
Proof.
  intros env today net req Hfail. split.
  - unfold GenerateReport.handler.
    destruct (method req =? "POST")%string; simpl;
      [|failure_reply].
    unfold tryCatch, bind at 1.
    destruct (body req) as [b|]; simpl;
      [|failure_reply].
    unfold bind at 1.
    destruct (GenerateReport.exponentialBackoff _ 5 1000 [])
      as [[[|r]|e] t1]; simpl;
      try (failure_reply).
    unfold bind at 1, responseJson.
    destruct (bodyJson r) as [[|v]|e]; simpl;
      try (failure_reply).
    unfold bind at 1, ret at 1.
    destruct (truthy v); simpl;
      [|failure_reply].
    unfold bind at 1.
    match goal with
    | |- context [GenerateReport.exponentialBackoff ?f 5 1000 t1] =>
        pose proof (exponentialBackoff_fetch_settles net
                      (GenerateReport.AIRTABLE_API_URL env)
                      (mkOptions "POST"
                         (airtableHeaders (AIRTABLE_API_KEY env))
                         (GenerateReport.airtablePayload b v))
                      5 1000 4 0 t1 eq_refl) as Hout;
        unfold GenerateReport.exponentialBackoff;
        destruct (GenerateReport.exponentialBackoff_loop f 5 1000 0 t1)
          as [[[|r2]|e2] t2]
    end; simpl;
      try (failure_reply).
    destruct (ok r2) eqn:Hok; simpl;
      [|failure_reply].
    exfalso. simpl in Hout.
    destruct Hout as [(j & r' & Heq & Hnet)|(e' & Heq)]; [|discriminate].
    inversion Heq; subst r'.
    specialize (Hfail j). rewrite Hnet in Hfail. simpl in Hfail.
    rewrite Hok in Hfail. discriminate.
  - unfold Generate.exports.
    destruct (method req =? "POST")%string; simpl;
      [|failure_reply].
    unfold tryCatch, bind at 1.
    destruct (body req) as [b|]; simpl;
      [|failure_reply].
    destruct (negb (envSet (AIRTABLE_API_KEY env))
              || negb (envSet (AIRTABLE_BASE_ID env))
              || negb (envSet (AIRTABLE_TABLE_ID env))
              || negb (envSet (GEMINI_API_KEY env))); simpl;
      [failure_reply|].
    unfold bind at 1.
    destruct (Generate.fetchWithBackoff net (Generate.geminiApiUrl env) _ 3 1000 [])
      as [[r|e] t1]; simpl;
      try (failure_reply).
    unfold bind at 1, responseJson.
    destruct (bodyJson r) as [d|e]; simpl;
      try (failure_reply).
    unfold bind at 1.
    destruct (Generate.intervalValueForAirtable (interval b) t1)
      as [[iv|e] t2]; simpl;
      try (failure_reply).
    unfold bind at 1.
    destruct (Generate.fetchWithBackoff net (Generate.airtableUrl env) _ 3 1000 t2)
      as [[r2|e2] t3] eqn:Hsave; simpl;
      try (failure_reply).
    exfalso.
    apply (fetchWithBackoff_fulfilled net _ _ 3) in Hsave; [|reflexivity].
    destruct Hsave as (j & Hnet & Hok).
    specialize (Hfail j). unfold Generate.airtableUrl in Hnet.
    unfold GenerateReport.AIRTABLE_API_URL in Hfail.
    rewrite Hnet in Hfail. simpl in Hfail. rewrite Hok in Hfail. discriminate.
Qed.

Lemma persistence_failure_is_surfaced_witness :
  (exists reply t,
      GenerateReport.handler Sample.configured Sample.saveRefused
        (Sample.post Sample.cascadeBody) [] = (Fulfilled reply, t)
      /\ code reply <> 200
      /\ lookup "reportText" (content reply) = None)
  /\
  (exists reply t,
      Generate.exports Sample.configured Sample.today Sample.saveRefused
        (Sample.post Sample.cascadeBody) [] = (Fulfilled reply, t)
      /\ code reply <> 200
      /\ lookup "reportText" (content reply) = None).
Proof.
  apply (persistence_failure_is_surfaced Sample.configured Sample.today
           Sample.saveRefused (Sample.post Sample.cascadeBody)).
  intro j. reflexivity.
Defined.

(** The run behind the witness: the report is generated, the write is
    refused, and both handlers answer 500 with the failure's message. *)
Example save_refused_replies :
  fst (GenerateReport.handler Sample.configured Sample.saveRefused
         (Sample.post Sample.cascadeBody) [])
  = Fulfilled
      (mkReply 500
         [("message", VStr "An unexpected error occurred.");
          ("error",
           VStr "Failed to save report to Airtable: 422 Unprocessable Entity - unknown field")])
  /\
  fst (Generate.exports Sample.configured Sample.today Sample.saveRefused
         (Sample.post Sample.cascadeBody) [])
  = Fulfilled
      (mkReply 500
         [("message", VStr "Failed to generate or save the report.");
          ("error", VStr "HTTP error! status: 422")]).
Proof. split; vm_compute; reflexivity. Qed.

(** The same with an unreachable persistence service: each handler spends
    its whole retry budget on the write and then answers 500. *)
Example save_unreachable_replies :
  let served :=
    GenerateReport.handler Sample.configured Sample.saveUnreachable
      (Sample.post Sample.cascadeBody) [] in
  let served' :=
    Generate.exports Sample.configured Sample.today Sample.saveUnreachable
      (Sample.post Sample.cascadeBody) [] in
  fst served
  = Fulfilled
      (mkReply 500
         [("message", VStr "An unexpected error occurred.");
          ("error", VStr "fetch failed")])
  /\ attempts (snd served) = 6%nat
  /\ sleeps (snd served) = [1000; 2000; 4000; 8000]
  /\ fst served'
     = Fulfilled
         (mkReply 500
            [("message", VStr "Failed to generate or save the report.");
             ("error", VStr "fetch failed")])
  /\ attempts (snd served') = 5%nat
  /\ sleeps (snd served') = [1000; 2000; 4000].
Proof. vm_compute. repeat split. Qed.

(** C5, as the code has it.  In the sibling handler, when one of its four
    credentials is absent, no request leads to an outbound call, and a POST
    request with a body is answered with the fixed 500 reply before anything
    else happens.  (A request with another method is answered 405; the
    handler of api/generate-report.js makes no such check.) *)
Theorem missing_configuration_rejected :
  forall (env : Env) (today : string) (net : network) (req : Request),
    AIRTABLE_API_KEY env = None \/ AIRTABLE_BASE_ID env = None
    \/ AIRTABLE_TABLE_ID env = None \/ GEMINI_API_KEY env = None ->
    exists reply t,
      Generate.exports env today net req [] = (Fulfilled reply, t)
      /\ attempts t = 0%nat
      /\ fetchedUrls t = []
      /\ (forall b, method req = "POST" -> body req = Some b ->
            reply = Generate.missingEnvironment /\ t = []).
Proof.
  intros env today net req Hmissing.
  assert (Hcheck :
            negb (envSet (AIRTABLE_API_KEY env))
            || negb (envSet (AIRTABLE_BASE_ID env))
            || negb (envSet (AIRTABLE_TABLE_ID env))
            || negb (envSet (GEMINI_API_KEY env)) = true).
  { destruct Hmissing as [H|[H|[H|H]]]; rewrite H; simpl;
      rewrite ?orb_true_r; reflexivity. }
  unfold Generate.exports.
  destruct (method req =? "POST")%string eqn:Hm; simpl.
  - unfold tryCatch, bind at 1.
    destruct (body req) as [b|] eqn:Hb; simpl.
    + rewrite Hcheck. simpl. eexists; eexists.
      split; [reflexivity|]. split; [reflexivity|]. split; [reflexivity|].
      intros b' _ _. split; reflexivity.
    + eexists; eexists.
      split; [reflexivity|]. split; [reflexivity|]. split; [reflexivity|].
      intros b' _ Hsome. discriminate.
  - eexists; eexists.
    split; [reflexivity|]. split; [reflexivity|]. split; [reflexivity|].
    intros b' Hpost _. rewrite Hpost in Hm. discriminate.
Qed.

Lemma missing_configuration_rejected_witness :
  exists reply t,
    Generate.exports
      (mkEnv (Some "google-key") None (Some "airtable-key") (Some "appBase")
             (Some "tblReports"))
      Sample.today Sample.reliable (Sample.post Sample.cascadeBody) []
    = (Fulfilled reply, t)
    /\ attempts t = 0%nat
    /\ fetchedUrls t = []
    /\ (forall b, method (Sample.post Sample.cascadeBody) = "POST" ->
          body (Sample.post Sample.cascadeBody) = Some b ->
          reply = Generate.missingEnvironment /\ t = []).
Proof.
  apply (missing_configuration_rejected
           (mkEnv (Some "google-key") None (Some "airtable-key")
                  (Some "appBase") (Some "tblReports"))
           Sample.today Sample.reliable (Sample.post Sample.cascadeBody)).
  right. right. right. reflexivity.
Defined.

(** C5 as stated fails twice over.  With no credential configured, the
    handler of api/generate-report.js still calls the generation service
    (with the key [undefined]); and the sibling handler answers a GET
    request 405, not 500. *)
Lemma unconfigured_handler_calls_out :
  let served :=
    GenerateReport.handler Sample.unconfigured Sample.unauthorized
      (Sample.post Sample.cascadeBody) [] in
  let refused :=
    Generate.exports Sample.unconfigured Sample.today Sample.unauthorized
      (mkRequest "GET" (Some Sample.cascadeBody)) [] in
  fetchedUrls (snd served)
  = ["https://generativelanguage.googleapis.com/v1beta/models/gemini-2.5-flash-preview-05-20:generateContent?key=undefined"]
  /\ attempts (snd served) <> 0%nat
  /\ fst refused
     = Fulfilled (mkReply 405 [("message", VStr "Method Not Allowed")]).
Proof. vm_compute. repeat split. discriminate. Qed.

(* ------------------------------------------------------------------ *)
(** ** Reading the numeral of an interval *)

Lemma digit_cases (c : ascii) :
  isSome (digit_of c) = true ->
  In c ["0"; "1"; "2"; "3"; "4"; "5"; "6"; "7"; "8"; "9"]%char.
Proof.
  destruct c as [[|] [|] [|] [|] [|] [|] [|] [|]];
    vm_compute; intro H; try discriminate; tauto.
Qed.

(** Decides a closed property of a digit by running through the ten. *)
Ltac by_digit H :=
  apply digit_cases in H; simpl in H;
  repeat (destruct H as [H|H]; [subst; reflexivity|]);
  contradiction.

Lemma digit_not_white c : isSome (digit_of c) = true -> isWhite c = false.
Proof. intro H. by_digit H. Qed.

Lemma digit_takeSign c s :
  isSome (digit_of c) = true -> takeSign (String c s) = (false, String c s).
Proof. intro H. by_digit H. Qed.

Lemma digit_not_Infinity c s :
  isSome (digit_of c) = true -> prefix "Infinity" (String c s) = false.
Proof. intro H. by_digit H. Qed.

Lemma digit_hexdigit c :
  isSome (digit_of c) = true -> isSome (hexdigit_of c) = true.
Proof. intro H. by_digit H. Qed.

Lemma digit_not_x c :
  isSome (digit_of c) = true ->
  Ascii.eqb c "x" = false /\ Ascii.eqb c "X" = false.
Proof. intro H. split; by_digit H. Qed.

Lemma digit_not_mark c (m : ascii) :
  isSome (digit_of m) = false -> isSome (digit_of c) = true ->
  Ascii.eqb c m = false.
Proof.
  intros Hm Hc. destruct (Ascii.eqb_spec c m) as [->|]; [|reflexivity].
  rewrite Hc in Hm. discriminate.
Qed.

Lemma spanDigits_app (ds rest : string) :
  allDigits ds = true -> startsWithDigit rest = false ->
  spanDigits digit_of (ds ++ rest)%string = (ds, rest).
Proof.
  intros Hds Hrest. induction ds as [|c ds IH].
  - destruct rest as [|c r]; [reflexivity|].
    cbn [startsWithDigit] in Hrest. cbn [append spanDigits].
    rewrite Hrest. reflexivity.
  - cbn [allDigits] in Hds. apply andb_true_iff in Hds.
    destruct Hds as [Hc Hds]. cbn [append spanDigits].
    rewrite Hc, (IH Hds). reflexivity.
Qed.

Lemma append_nil_r (s : string) : (s ++ "")%string = s.
Proof. induction s as [|c s IH]; simpl; [|rewrite IH]; reflexivity. Qed.

Lemma append_assoc (a b c : string) :
  ((a ++ b) ++ c)%string = (a ++ (b ++ c))%string.
Proof. induction a as [|x a IH]; simpl; [|rewrite IH]; reflexivity. Qed.

Lemma endsNumeral_cases (rest : string) :
  endsNumeral rest = true ->
  rest = ""%string \/ exists r, rest = String " " r \/ rest = String "+" r.
Proof.
  destruct rest as [|c r]; simpl; [auto|].
  intro H. right. exists r. apply orb_true_iff in H.
  destruct H as [H|H]; apply Ascii.eqb_eq in H; subst; auto.
Qed.

(** [parseFloat] reads the whole numeral and stops where it ends. *)
Lemma parseFloat_str_literal (ip fp rest : string) :
  wholeNumber ip = true -> allDigits fp = true -> endsNumeral rest = true ->
  parseFloat_str (decimalLiteral ip fp ++ rest)%string = decimalValue ip fp.
Proof.
  intros Hip Hfp Hrest.
  apply andb_true_iff in Hip. destruct Hip as [Hne Hip].
  destruct ip as [|c ip]; [discriminate|]. clear Hne.
  pose proof Hip as Hall. cbn [allDigits] in Hip. apply andb_true_iff in Hip.
  destruct Hip as [Hc Hip'].
  assert (Hexp : scanExponent rest = (0, rest)).
  { destruct (endsNumeral_cases rest Hrest) as [->|(r & [->| ->])];
      reflexivity. }
  assert (Hnodot : match rest with
                   | String "." r => spanDigits digit_of r
                   | _ => (""%string, rest)
                   end = (""%string, rest)).
  { destruct (endsNumeral_cases rest Hrest) as [->|(r & [->| ->])];
      reflexivity. }
  assert (Hnodigit : startsWithDigit rest = false).
  { destruct (endsNumeral_cases rest Hrest) as [->|(r & [->| ->])];
      reflexivity. }
  unfold parseFloat_str, decimalLiteral, decimalValue.
  destruct fp as [|d fp].
  - simpl isEmpty. cbv iota.
    change (String c ip ++ rest)%string with (String c (ip ++ rest)%string).
    cbn [trimStart]. rewrite (digit_not_white c Hc).
    unfold scanDecimal. rewrite (digit_takeSign c _ Hc).
    rewrite (digit_not_Infinity c _ Hc).
    change (String c (ip ++ rest)%string) with (String c ip ++ rest)%string.
    rewrite (spanDigits_app (String c ip) rest Hall Hnodigit), Hnodot, Hexp.
    simpl. rewrite append_nil_r. reflexivity.
  - simpl isEmpty. cbv iota.
    rewrite append_assoc.
    change (String c ip ++ ("." ++ String d fp) ++ rest)%string
      with (String c (ip ++ String "." (String d (fp ++ rest)))%string).
    cbn [trimStart]. rewrite (digit_not_white c Hc).
    unfold scanDecimal. rewrite (digit_takeSign c _ Hc).
    rewrite (digit_not_Infinity c _ Hc).
    change (String c (ip ++ String "." (String d (fp ++ rest)))%string)
      with (String c ip ++ String "." (String d (fp ++ rest)))%string.
    rewrite (spanDigits_app (String c ip)
               (String "." (String d (fp ++ rest))) Hall eq_refl).
    change (String d (fp ++ rest)%string) with (String d fp ++ rest)%string.
    rewrite (spanDigits_app (String d fp) rest Hfp Hnodigit), Hexp.
    reflexivity.
Qed.

Lemma endsWhole_cases (tail : string) :
  endsWhole tail = true ->
  tail = ""%string
  \/ exists r, tail = String " " r \/ tail = String "+" r \/ tail = String "." r.
Proof.
  destruct tail as [|c r]; simpl; [auto|].
  intro H. right. exists r. apply orb_true_iff in H.
  destruct H as [H|H]; [apply orb_true_iff in H; destruct H as [H|H]|];
    apply Ascii.eqb_eq in H; subst; auto.
Qed.

Lemma no_hex_prefix (c : ascii) (s : string) :
  match s with
  | String x _ => Ascii.eqb x "x" = false /\ Ascii.eqb x "X" = false
  | EmptyString => True
  end ->
  hasHexPrefix (String c s) = false.
Proof.
  intro H. unfold hasHexPrefix. cbn [prefix].
  destruct (ascii_dec "0" c) as [_|_]; [|reflexivity].
  destruct s as [|x s]; [reflexivity|]. destruct H as [Hx HX].
  cbn [prefix].
  destruct (ascii_dec "x" x) as [<-|_]; [discriminate|].
  destruct (ascii_dec "X" x) as [<-|_]; [discriminate|].
  reflexivity.
Qed.

(** [parseInt] reads the whole part of the numeral and stops there. *)
Lemma parseInt_str_whole (ip tail : string) :
  wholeNumber ip = true -> endsWhole tail = true ->
  parseInt_str (ip ++ tail)%string = numZ (digitsValue ip).
Proof.
  intros Hip Htail.
  apply andb_true_iff in Hip. destruct Hip as [Hne Hall].
  destruct ip as [|c ip]; [discriminate|]. clear Hne.
  pose proof Hall as Hip. cbn [allDigits] in Hip.
  apply andb_true_iff in Hip. destruct Hip as [Hc Hip].
  assert (Hnodigit : startsWithDigit tail = false).
  { destruct (endsWhole_cases tail Htail) as [->|(r & [->|[->| ->]])];
      reflexivity. }
  assert (Hhex : hasHexPrefix (String c (ip ++ tail)%string) = false).
  { apply no_hex_prefix. destruct ip as [|d ip].
    - destruct (endsWhole_cases tail Htail) as [->|(r & [->|[->| ->]])];
        simpl; auto.
    - cbn [append]. cbn [allDigits] in Hip. apply andb_true_iff in Hip.
      apply digit_not_x, Hip. }
  unfold parseInt_str.
  change (String c ip ++ tail)%string with (String c (ip ++ tail)%string).
  cbn [trimStart]. rewrite (digit_not_white c Hc).
  rewrite (digit_takeSign c _ Hc), Hhex.
  change (String c (ip ++ tail)%string) with (String c ip ++ tail)%string.
  rewrite (spanDigits_app (String c ip) tail Hall Hnodigit).
  reflexivity.
Qed.

Lemma allDigits_absent (c : ascii) (s : string) :
  isSome (digit_of c) = false -> allDigits s = true -> absent c s = true.
Proof.
  intros Hc. induction s as [|d s IH]; [reflexivity|].
  cbn [allDigits absent]. intro H. apply andb_true_iff in H.
  destruct H as [Hd Hs]. rewrite (digit_not_mark d c Hc Hd), (IH Hs).
  reflexivity.
Qed.

Lemma absent_app (c : ascii) (a b : string) :
  absent c (a ++ b)%string = absent c a && absent c b.
Proof.
  induction a as [|d a IH]; [reflexivity|].
  cbn [append absent]. rewrite IH, andb_assoc. reflexivity.
Qed.

Lemma absent_literal (c : ascii) (ip fp : string) :
  isSome (digit_of c) = false -> Ascii.eqb "." c = false ->
  wholeNumber ip = true -> allDigits fp = true ->
  absent c (decimalLiteral ip fp) = true.
Proof.
  intros Hc Hdot Hip Hfp. apply andb_true_iff in Hip. destruct Hip as [_ Hip].
  unfold decimalLiteral. destruct (isEmpty fp).
  - apply allDigits_absent; assumption.
  - rewrite !absent_app. cbn [absent]. rewrite Hdot.
    rewrite !allDigits_absent by assumption. reflexivity.
Qed.

Lemma removeFirst_app (c : ascii) (a b : string) :
  absent c a = true ->
  removeFirst c (a ++ b)%string = (a ++ removeFirst c b)%string.
Proof.
  induction a as [|d a IH]; [reflexivity|].
  cbn [absent append removeFirst]. intro H. apply andb_true_iff in H.
  destruct H as [Hd Ha]. apply negb_true_iff in Hd.
  rewrite Hd, (IH Ha). reflexivity.
Qed.

Lemma removeFirst_absent (c : ascii) (a : string) :
  absent c a = true -> removeFirst c a = a.
Proof.
  intro H. rewrite <- (append_nil_r a) at 1.
  rewrite (removeFirst_app c a "" H). apply append_nil_r.
Qed.

Lemma beforeFirst_app (c : ascii) (a b : string) :
  absent c a = true -> beforeFirst c (a ++ String c b)%string = a.
Proof.
  induction a as [|d a IH].
  - intros _. cbn [append beforeFirst]. rewrite Ascii.eqb_refl. reflexivity.
  - cbn [absent append beforeFirst]. intro H. apply andb_true_iff in H.
    destruct H as [Hd Ha]. apply negb_true_iff in Hd.
    rewrite Hd, (IH Ha). reflexivity.
Qed.

Lemma beforeFirst_absent (c : ascii) (a : string) :
  absent c a = true -> beforeFirst c a = a.
Proof.
  induction a as [|d a IH]; [reflexivity|].
  cbn [absent beforeFirst]. intro H. apply andb_true_iff in H.
  destruct H as [Hd Ha]. apply negb_true_iff in Hd.
  rewrite Hd, (IH Ha). reflexivity.
Qed.

Lemma includes_suffix (needle a b : string) :
  prefix needle b = true -> includes needle (a ++ b)%string = true.
Proof.
  intro H. induction a as [|d a IH].
  - cbn [append]. destruct b; cbn [includes]; rewrite H; reflexivity.
  - cbn [append includes]. rewrite IH. apply orb_true_r.
Qed.

Lemma parseFloat_str_numeral (ip fp : string) :
  wholeNumber ip = true -> allDigits fp = true ->
  parseFloat_str (decimalLiteral ip fp) = decimalValue ip fp.
Proof.
  intros Hip Hfp. rewrite <- (append_nil_r (decimalLiteral ip fp)).
  apply parseFloat_str_literal; auto.
Qed.

(** The interval of the sibling handler, on the three forms. *)
Lemma intervalValue_numeral (ip fp rest : string) (t : trace) :
  wholeNumber ip = true -> allDigits fp = true ->
  rest = ""%string \/ rest = "+"%string \/ (exists u, rest = String " " u) ->
  Generate.intervalValueForAirtable
    (VStr (decimalLiteral ip fp ++ rest)%string) t
  = (Fulfilled (decimalValue ip fp), t).
Proof.
  intros Hip Hfp Hrest.
  pose proof (absent_literal "+" ip fp eq_refl eq_refl Hip Hfp) as Hplus.
  pose proof (absent_literal " " ip fp eq_refl eq_refl Hip Hfp) as Hspace.
  unfold Generate.intervalValueForAirtable, ret, parseFloat, toString.
  destruct Hrest as [->|[->|(u & ->)]].
  - rewrite append_nil_r, (removeFirst_absent _ _ Hplus),
      (beforeFirst_absent _ _ Hspace), (parseFloat_str_numeral ip fp Hip Hfp).
    destruct (includes "+" _); [reflexivity|].
    destruct (includes "per" _); reflexivity.
  - rewrite (includes_suffix "+" (decimalLiteral ip fp) "+" eq_refl).
    rewrite (removeFirst_app _ _ _ Hplus). cbn [removeFirst Ascii.eqb].
    simpl. rewrite append_nil_r, (parseFloat_str_numeral ip fp Hip Hfp).
    reflexivity.
  - rewrite (removeFirst_app _ _ _ Hplus), (beforeFirst_app _ _ _ Hspace).
    change (removeFirst "+" (String " " u))
      with (String " " (removeFirst "+" u)).
    rewrite !parseFloat_str_literal by (assumption || reflexivity).
    rewrite (parseFloat_str_numeral ip fp Hip Hfp).
    destruct (includes "+" _); [reflexivity|].
    destruct (includes "per" _); reflexivity.
Qed.

Lemma orNull_mkDec (m e : Z) : Generate.orNull (mkDec m e) = VNum (mkDec m e).
Proof. unfold mkDec. destruct (0 <=? e); reflexivity. Qed.

(** ** The value of a numeral *)

Lemma digitsValueFrom_snoc (acc : Z) (s : string) (c : ascii) (d : Z) :
  allDigits s = true -> digit_of c = Some d ->
  digitsValueFrom digit_of 10 acc (s ++ String c "")%string
  = digitsValueFrom digit_of 10 acc s * 10 + d.
Proof.
  intros Hs Hc. revert acc. induction s as [|x s IH]; intro acc.
  - cbn [append digitsValueFrom]. rewrite Hc. reflexivity.
  - cbn [allDigits] in Hs. apply andb_true_iff in Hs. destruct Hs as [Hx Hs].
    cbn [append digitsValueFrom].
    destruct (digit_of x) as [dx|]; [|discriminate].
    apply IH, Hs.
Qed.

(** Appending a digit multiplies the value by ten and adds the digit. *)
Lemma digitsValue_snoc (s : string) (c : ascii) (d : Z) :
  allDigits s = true -> digit_of c = Some d ->
  digitsValue (s ++ String c "")%string = digitsValue s * 10 + d.
Proof. apply digitsValueFrom_snoc. Qed.

(** [ip.fp] denotes the value of the digits [ip fp] scaled down by one
    power of ten per digit of the fraction. *)
Lemma decimalValue_scaled (ip fp : string) :
  exists q,
    decimalValue ip fp = Fin q
    /\ (q * inject_Z (10 ^ Z.of_nat (String.length fp))
        == inject_Z (digitsValue (ip ++ fp)%string))%Q.
Proof.
  unfold decimalValue, mkDec.
  destruct (Z.leb_spec 0 (- Z.of_nat (String.length fp))) as [Hle|Hlt].
  - assert (Hz : Z.of_nat (String.length fp) = 0) by lia.
    rewrite Hz. eexists. split; [reflexivity|].
    simpl. unfold Qeq, inject_Z. simpl. lia.
  - eexists. split; [reflexivity|].
    rewrite Qred_correct, Z.opp_involutive.
    unfold Qeq, Qmult, inject_Z. cbn [Qnum Qden].
    rewrite Pos.mul_1_r, Z2Pos.id by (apply Z.pow_pos_nonneg; lia). lia.
Qed.

(* ------------------------------------------------------------------ *)
(** ** The Record Persister *)

(** C6, as the code has it.  For an interval ["N+"], ["N per <unit>"] or
    ["N"], with [N] an unsigned decimal numeral [ip] or [ip.fp] whose value
    and whose whole part are binary64 numbers (parsing them does not round):
    the sibling handler computes, and persists as Anchor Interval, the
    number [N] ([parseFloat]); api/generate-report.js persists the whole
    part of [N] ([parseInt]), which is [N] itself when [N] has no
    fraction. *)
Theorem interval_numeral_parsed :
  forall (ip fp unit : string),
    wholeNumber ip = true -> allDigits fp = true ->
    binary64 (decimalValue ip fp) = true ->
    binary64 (numZ (digitsValue ip)) = true ->
    let N := decimalLiteral ip fp in
    let forms := [N ++ "+"; N ++ " per " ++ unit; N]%string in
    (forall s b g today t, In s forms ->
       Generate.intervalValueForAirtable (VStr s) t
       = (Fulfilled (decimalValue ip fp), t)
       /\ lookup "Anchor Interval"
            (Generate.airtableFields b g (decimalValue ip fp) today)
          = Some (VNum (decimalValue ip fp)))
    /\
    (forall s b g, In s forms ->
       lookup "Anchor Interval"
         (GenerateReport.airtableFields (withInterval b (VStr s)) g)
       = Some (VNum (numZ (digitsValue ip))))
    /\
    (fp = ""%string -> decimalValue ip fp = numZ (digitsValue ip)).
Proof.
  intros ip fp unit Hip Hfp _ _ N forms. subst N forms. split; [|split].
  - intros s b g today t Hs. split.
    + destruct Hs as [<-|[<-|[<-|[]]]].
      * apply intervalValue_numeral; auto.
      * apply intervalValue_numeral; auto.
        right. right. eexists. reflexivity.
      * rewrite <- (append_nil_r (decimalLiteral ip fp)).
        apply intervalValue_numeral; auto.
    + cbn [Generate.airtableFields lookup String.eqb Ascii.eqb Bool.eqb].
      unfold decimalValue. rewrite orNull_mkDec. reflexivity.
  - intros s b g Hs.
    cbn [GenerateReport.airtableFields lookup String.eqb Ascii.eqb Bool.eqb
         withInterval interval].
    do 2 f_equal. unfold parseInt, toString.
    destruct Hs as [<-|[<-|[<-|[]]]]; unfold decimalLiteral;
      destruct (isEmpty fp); rewrite ?append_assoc;
      first [ apply parseInt_str_whole; auto; fail
            | rewrite <- (append_nil_r ip) at 1;
              apply parseInt_str_whole; auto ].
  - intros ->. unfold decimalValue, mkDec. cbn [String.length Z.of_nat Z.opp].
    rewrite append_nil_r. simpl. rewrite Z.mul_1_r. reflexivity.
Qed.

Lemma interval_numeral_parsed_witness :
  (forall s b g today t, In s ["150+"; "150 per 100 ft"; "150"]%string ->
     Generate.intervalValueForAirtable (VStr s) t
     = (Fulfilled (decimalValue "150" ""), t)
     /\ lookup "Anchor Interval"
          (Generate.airtableFields b g (decimalValue "150" "") today)
        = Some (VNum (decimalValue "150" "")))
  /\
  (forall s b g, In s ["150+"; "150 per 100 ft"; "150"]%string ->
     lookup "Anchor Interval"
       (GenerateReport.airtableFields (withInterval b (VStr s)) g)
     = Some (VNum (numZ (digitsValue "150"))))
  /\
  (""%string = ""%string -> decimalValue "150" "" = numZ (digitsValue "150")).
Proof.
  apply (interval_numeral_parsed "150" "" "100 ft"); reflexivity.
Defined.

(** Numbers that binary64 holds, and numbers that it rounds. *)
Example binary64_examples :
  binary64 (numZ 150) = true
  /\ binary64 (decimalValue "2" "5") = true
  /\ binary64 (numZ (2 ^ 53)) = true
  /\ binary64 (numZ 9007199254740993) = false
  /\ binary64 (decimalValue "0" "1") = false.
Proof. vm_compute. repeat split. Qed.

(** The three intervals of the specification, in both handlers. *)
Example interval_examples :
  Generate.intervalValueForAirtable (VStr "200+") [] = (Fulfilled (numZ 200), [])
  /\ Generate.intervalValueForAirtable (VStr "1 per 100 ft") []
     = (Fulfilled (numZ 1), [])
  /\ Generate.intervalValueForAirtable (VStr "150") [] = (Fulfilled (numZ 150), [])
  /\ parseInt (VStr "200+") = numZ 200
  /\ parseInt (VStr "1 per 100 ft") = numZ 1
  /\ parseInt (VStr "150") = numZ 150.
Proof. vm_compute. repeat split. Qed.

(** C6 as stated fails in api/generate-report.js for a numeral with a
    fraction: the interval "2.5+" is persisted as 2, while the number it
    leads with is 5/2 (which the sibling handler computes). *)
Lemma fractional_interval_truncated :
  lookup "Anchor Interval"
    (GenerateReport.airtableFields
       (withInterval Sample.cascadeBody (VStr "2.5+")) (VStr "report"))
  = Some (VNum (numZ 2))
  /\ decimalValue "2" "5" = Fin (5 # 2)
  /\ Generate.intervalValueForAirtable (VStr "2.5+") []
     = (Fulfilled (Fin (5 # 2)), [])
  /\ ~ (2 # 1 == 5 # 2)%Q.
Proof.
  vm_compute. repeat split. intro H. discriminate.
Qed.

(** Reduces the projections of an updated request. *)
Ltac project_body :=
  cbn [withSegments withInterval current angle riverWidth riverMile
       calculatedBoomLength tension interval driftTime isCascade segments
       anchors anchorDetailsText].

(* ------------------------------------------------------------------ *)
(** ** Occurrences in a concatenation *)

Lemma prefix_break (needle : string) :
  forall (a : string) (c : ascii) (b : string),
    absent c needle = true ->
    prefix needle (a ++ String c b)%string = prefix needle a.
Proof.
  induction needle as [|x needle IH]; intros a c b Hc.
  - destruct a; reflexivity.
  - cbn [absent] in Hc. apply andb_true_iff in Hc. destruct Hc as [Hx Hc].
    destruct a as [|y a]; cbn [append prefix].
    + destruct (ascii_dec x c) as [->|]; [|reflexivity].
      rewrite Ascii.eqb_refl in Hx. discriminate.
    + destruct (ascii_dec x y); [|reflexivity]. apply IH, Hc.
Qed.

Lemma includes_nil (needle : string) :
  needle <> ""%string -> includes needle "" = false.
Proof. destruct needle; [congruence|reflexivity]. Qed.

(** A character that the needle does not contain splits the search. *)
Lemma includes_break (needle : string) (c : ascii) (b : string) :
  needle <> ""%string -> absent c needle = true ->
  forall a,
    includes needle (a ++ String c b)%string
    = includes needle a || includes needle b.
Proof.
  intros Hne Hc. induction a as [|y a IH].
  - pose proof (prefix_break needle "" c b Hc) as Hp.
    cbn [append] in Hp. cbn [append includes]. rewrite Hp.
    destruct needle; [congruence|]. reflexivity.
  - pose proof (prefix_break needle (String y a) c b Hc) as Hp.
    cbn [append] in Hp. cbn [append includes]. rewrite Hp, IH.
    apply orb_assoc.
Qed.

Lemma lastChar_snoc (p : string) (c : ascii) :
  lastChar p = Some c -> exists p', p = (p' ++ String c "")%string.
Proof.
  induction p as [|x p IH]; [discriminate|].
  cbn [lastChar]. destruct p as [|y p].
  - intros [= ->]. exists ""%string. reflexivity.
  - intro H. destruct (IH H) as (p' & ->).
    exists (String x p'). reflexivity.
Qed.

Lemma pieces_cons (p q : string) (rest : list string) :
  pieces (p :: q :: rest) = (p ++ pieces (q :: rest))%string.
Proof. reflexivity. Qed.

(** A text whose pieces do not contain the needle, and whose pieces are
    separated for it, does not contain it. *)
Lemma pieces_free (needle : string) :
  needle <> ""%string ->
  forall l,
    separated needle l ->
    Forall (fun p => includes needle p = false) l ->
    includes needle (pieces l) = false.
Proof.
  intros Hne. induction l as [|p rest IH]; intros Hsep Hfree.
  - apply includes_nil, Hne.
  - destruct rest as [|q rest].
    + inversion Hfree; assumption.
    + rewrite pieces_cons.
      cbn [separated] in Hsep. destruct Hsep as [Hbreak Hsep].
      inversion Hfree as [|? ? Hp Hrest]; subst.
      specialize (IH Hsep Hrest).
      destruct Hbreak as [Hafter|Hbefore].
      * unfold breaksAfter in Hafter.
        destruct (lastChar p) as [c|] eqn:Hlast; [|discriminate].
        destruct (lastChar_snoc p c Hlast) as (p' & ->).
        rewrite append_assoc. cbn [append].
        rewrite (includes_break needle c "" Hne Hafter) in Hp.
        rewrite (includes_break needle c _ Hne Hafter).
        apply orb_false_iff in Hp. destruct Hp as [Hp _].
        rewrite Hp, IH. reflexivity.
      * inversion Hrest as [|? ? Hq _]; subst.
        assert (Hhead : exists c tail,
                   pieces (q :: rest) = String c tail
                   /\ absent c needle = true).
        { destruct q as [|c q]; [discriminate|].
          destruct rest; [exists c, q|eexists c, _]; split;
            solve [reflexivity | exact Hbefore]. }
        destruct Hhead as (c & tail & Heq & Hc).
        rewrite Heq in IH |- *.
        rewrite (includes_break needle c tail Hne Hc).
        cbn [includes] in IH. apply orb_false_iff in IH.
        destruct IH as [_ IH]. rewrite Hp, IH. reflexivity.
Qed.

Lemma prefix_app (needle a b : string) :
  prefix needle a = true -> prefix needle (a ++ b)%string = true.
Proof.
  revert a. induction needle as [|x needle IH]; intros a H.
  - destruct (a ++ b)%string; reflexivity.
  - destruct a as [|y a]; [discriminate|]. cbn [append prefix] in *.
    destruct (ascii_dec x y); [apply IH, H|discriminate].
Qed.

Lemma includes_app_l (needle a b : string) :
  includes needle a = true -> includes needle (a ++ b)%string = true.
Proof.
  induction a as [|y a IH]; cbn [append includes]; intro H.
  - rewrite orb_false_r in H.
    destruct needle; [|discriminate]. destruct b; reflexivity.
  - apply orb_true_iff in H. destruct H as [H|H].
    + pose proof (prefix_app needle (String y a) b H) as Hp.
      cbn [append] in Hp. rewrite Hp. reflexivity.
    + rewrite (IH H). apply orb_true_r.
Qed.

Lemma includes_app_r (needle a b : string) :
  includes needle b = true -> includes needle (a ++ b)%string = true.
Proof.
  intro H. induction a as [|y a IH]; cbn [append includes]; [exact H|].
  rewrite IH. apply orb_true_r.
Qed.

(** The pieces of a right-nested concatenation. *)
Ltac pieces_of t :=
  lazymatch t with
  | (?a ++ ?b)%string => let r := pieces_of b in constr:(a :: r)
  | ?a => constr:([a])
  end.

(** The sibling handler's prompt for a request without the cascade flag
    does not contain the word of its cascade clause, unless a request field
    brings it. *)
Lemma userQuery_without_cascade (b : Body) :
  truthy (isCascade b) = false ->
  mentions "cascade" b = false ->
  includes "cascade" (Generate.userQuery b) = false.
Proof.
  intros Hflag Hfields.
  unfold mentions, interpolated in Hfields. cbn [existsb] in Hfields.
  repeat (apply orb_false_iff in Hfields;
          let H := fresh "Hfield" in destruct Hfields as [H Hfields]).
  unfold Generate.userQuery, Generate.cascadeClause. rewrite Hflag.
  match goal with
  | |- includes ?n ?t = false =>
      let l := pieces_of t in
      change (includes n (pieces l) = false)
  end.
  apply pieces_free; [discriminate| |].
  - cbn [separated].
    repeat first [ exact I
                 | split
                 | left; reflexivity
                 | right; reflexivity ].
  - repeat first [ apply Forall_nil
                 | apply Forall_cons; [first [assumption|reflexivity]|] ].
Qed.

(** Every prompt of api/generate-report.js asks about a cascade booming
    system. *)
Lemma prompt_asks_about_cascade (b : Body) :
  includes "cascade booming system" (GenerateReport.prompt b) = true.
Proof.
  unfold GenerateReport.prompt.
  repeat first [ apply includes_app_l; reflexivity | apply includes_app_r ].
Qed.

(** Skips the pieces of a template that come before the piece [lit]. *)
Ltac skip_to lit :=
  repeat lazymatch goal with
         | |- includes _ (lit ++ _)%string = true => fail
         | |- includes _ (_ ++ _)%string = true => apply includes_app_r
         end.

(** Joins the first two pieces of a template. *)
Ltac join_pieces :=
  lazymatch goal with
  | |- includes _ (?a ++ (?b ++ ?c))%string = true =>
      rewrite <- (append_assoc a b c)
  end.

Lemma prompt_answers_no (b : Body) :
  truthy (isCascade b) = false ->
  includes "- Is Cascade Booming System Recommended?: No"
    (GenerateReport.prompt b) = true
  /\ includes ("- Total segments (if cascade): 1" ++ nl)%string
       (GenerateReport.prompt b) = true.
Proof.
  intro Hflag. unfold GenerateReport.prompt. rewrite Hflag. split.
  - skip_to "            - Is Cascade Booming System Recommended?: "%string.
    join_pieces. apply includes_app_l. reflexivity.
  - skip_to "            - Total segments (if cascade): "%string.
    join_pieces. join_pieces. apply includes_app_l. reflexivity.
Qed.

(** C7, as the code has it.  When the cascade flag of the request is false
    (or absent, or any falsy value), the Segments field persisted by
    api/generate-report.js is the number 1 and the one persisted by the
    sibling handler is null.  The sibling's prompt has no cascade clause:
    it does not contain the word "cascade", unless a request field has it
    in its own text, and it does not depend on the segment count of the
    request.  The prompt of api/generate-report.js carries its cascade
    lines all the same: the instruction on a cascade booming system, the
    question answered "No" and the total of segments given as 1, whatever
    the segment count of the request is. *)
Theorem single_boom_cascade_content :
  forall (b : Body),
    truthy (isCascade b) = false ->
    (forall g,
        lookup "Segments" (GenerateReport.airtableFields b g)
        = Some (VNum (numZ 1))
        /\ persisted "Segments" (GenerateReport.airtableFields b g)
           = Some (JNum 1))
    /\ (forall g iv today,
          lookup "Segments" (Generate.airtableFields b g iv today) = Some VNull
          /\ persisted "Segments" (Generate.airtableFields b g iv today)
             = Some JNull)
    /\ (mentions "cascade" b = false ->
        includes "cascade" (Generate.userQuery b) = false)
    /\ (forall s, Generate.userQuery (withSegments b s) = Generate.userQuery b)
    /\ includes "cascade booming system" (GenerateReport.prompt b) = true
    /\ includes "- Is Cascade Booming System Recommended?: No"
         (GenerateReport.prompt b) = true
    /\ includes ("- Total segments (if cascade): 1" ++ nl)%string
         (GenerateReport.prompt b) = true
    /\ (forall s,
          GenerateReport.prompt (withSegments b s) = GenerateReport.prompt b).
Proof.
  intros b Hflag.
  split; [|split; [|split; [|split; [|split; [|split; [|split]]]]]].
  - intro g. unfold persisted.
    cbn [GenerateReport.airtableFields lookup String.eqb Ascii.eqb Bool.eqb].
    rewrite Hflag. split; reflexivity.
  - intros g iv today. unfold persisted.
    cbn [Generate.airtableFields lookup String.eqb Ascii.eqb Bool.eqb].
    rewrite Hflag. split; reflexivity.
  - exact (userQuery_without_cascade b Hflag).
  - intro s. unfold Generate.userQuery, Generate.cascadeClause.
    project_body. rewrite Hflag. reflexivity.
  - exact (prompt_asks_about_cascade b).
  - exact (proj1 (prompt_answers_no b Hflag)).
  - exact (proj2 (prompt_answers_no b Hflag)).
  - intro s. unfold GenerateReport.prompt.
    project_body. rewrite Hflag. reflexivity.
Qed.

Lemma single_boom_cascade_content_witness :
  (forall g,
      lookup "Segments" (GenerateReport.airtableFields Sample.singleBody g)
      = Some (VNum (numZ 1))
      /\ persisted "Segments" (GenerateReport.airtableFields Sample.singleBody g)
         = Some (JNum 1))
  /\ (forall g iv today,
        lookup "Segments" (Generate.airtableFields Sample.singleBody g iv today)
        = Some VNull
        /\ persisted "Segments"
             (Generate.airtableFields Sample.singleBody g iv today)
           = Some JNull)
  /\ (mentions "cascade" Sample.singleBody = false ->
      includes "cascade" (Generate.userQuery Sample.singleBody) = false)
  /\ (forall s,
        Generate.userQuery (withSegments Sample.singleBody s)
        = Generate.userQuery Sample.singleBody)
  /\ includes "cascade booming system"
       (GenerateReport.prompt Sample.singleBody) = true
  /\ includes "- Is Cascade Booming System Recommended?: No"
       (GenerateReport.prompt Sample.singleBody) = true
  /\ includes ("- Total segments (if cascade): 1" ++ nl)%string
       (GenerateReport.prompt Sample.singleBody) = true
  /\ (forall s,
        GenerateReport.prompt (withSegments Sample.singleBody s)
        = GenerateReport.prompt Sample.singleBody).
Proof.
  apply (single_boom_cascade_content Sample.singleBody). reflexivity.
Defined.

(** C7 as stated fails in api/generate-report.js: the prompt for a request
    whose cascade flag is false, and whose fields do not mention a cascade,
    has the three cascade lines of the template. *)
Lemma single_boom_prompt_names_cascade :
  truthy (isCascade Sample.singleBody) = false
  /\ mentions "cascade" Sample.singleBody = false
  /\ includes "a single boom or a cascade booming system is required"
       (GenerateReport.prompt Sample.singleBody) = true
  /\ includes "- Is Cascade Booming System Recommended?: "
       (GenerateReport.prompt Sample.singleBody) = true
  /\ includes "- Total segments (if cascade): "
       (GenerateReport.prompt Sample.singleBody) = true.
Proof. vm_compute. repeat split. Qed.

(** On the sample requests: the sibling's prompt for a single boom does not
    contain the word "cascade", the one for a cascade system does; the
    prompt of api/generate-report.js answers the cascade question "No" and
    gives 1 as the total of segments. *)
Example single_boom_prompts :
  includes "cascade" (Generate.userQuery Sample.singleBody) = false
  /\ includes "cascade booming system with 2 segments"
       (Generate.userQuery Sample.cascadeBody) = true
  /\ includes "Is Cascade Booming System Recommended?: No"
       (GenerateReport.prompt Sample.singleBody) = true
  /\ includes "Total segments (if cascade): 1"
       (GenerateReport.prompt Sample.singleBody) = true
  /\ includes "Total segments (if cascade): 2"
       (GenerateReport.prompt Sample.singleBody) = false.
Proof. vm_compute. repeat split. Qed.

(** C9, as the code has it.  api/generate-report.js persists Seg Length as
    the calculated boom length divided by the segment count of the request
    for every request, whatever the cascade flag is; a quotient that is not
    a finite number is persisted as null.  The sibling handler has no such
    field. *)
Theorem segment_length_always_derived :
  forall (b : Body) (g : value),
    let quotient :=
      numDiv (toNumber (calculatedBoomLength b)) (toNumber (segments b)) in
    lookup "Seg Length" (GenerateReport.airtableFields b g)
    = Some (VNum quotient)
    /\ persisted "Seg Length" (GenerateReport.airtableFields b g)
       = Some (match quotient with Fin q => JNum q | _ => JNull end)
    /\ (forall iv today,
          lookup "Seg Length" (Generate.airtableFields b g iv today) = None).
Proof.
  intros b g quotient. subst quotient. unfold persisted.
  cbn [GenerateReport.airtableFields Generate.airtableFields lookup
       String.eqb Ascii.eqb Bool.eqb parseFloat].
  repeat split.
  destruct (numDiv _ _); reflexivity.
Qed.

(** C9 as stated fails: for a request whose cascade flag is false the
    Seg Length is derived all the same (350 / 2 = 175), next to a Segments
    field fixed at 1. *)
Lemma segment_length_without_cascade :
  truthy (isCascade Sample.singleBody) = false
  /\ persisted "Seg Length"
       (GenerateReport.airtableFields Sample.singleBody (VStr "report"))
     = Some (JNum 175)
  /\ persisted "Segments"
       (GenerateReport.airtableFields Sample.singleBody (VStr "report"))
     = Some (JNum 1).
Proof. vm_compute. repeat split. Qed.

(* ------------------------------------------------------------------ *)
(** ** The calls a helper leaves in the trace *)

Lemma exponentialBackoff_first_response (net : network) url options
  (maxRetries delay : Z) (t : trace) (r : Response) :
  0 < maxRetries ->
  net url (attempts t) = Fulfilled r ->
  GenerateReport.exponentialBackoff (fetchResp net url options)
    maxRetries delay t
  = (Fulfilled (Resp r), t ++ [EvFetch url options]).
Proof.
  intros Hpos Hcall. unfold GenerateReport.exponentialBackoff.
  rewrite exponentialBackoff_loop_unfold, iteration_fetch, Hcall.
  destruct (Z.ltb_spec 0 maxRetries); [reflexivity|lia].
Qed.

(** Whatever the outcome, the first thing the helper does is the call. *)
Lemma exponentialBackoff_fetch_trace (net : network) url options
  (maxRetries delay : Z) (n : nat) :
  forall (i : Z) (t : trace),
    Z.to_nat (maxRetries - i) = S n ->
    exists rest,
      snd (GenerateReport.exponentialBackoff_loop (fetchResp net url options)
             maxRetries delay i t)
      = t ++ EvFetch url options :: rest.
Proof.
  induction n as [|n IH]; intros i t Hn;
    rewrite exponentialBackoff_loop_unfold, iteration_fetch;
    (destruct (Z.ltb_spec i maxRetries); [|lia]);
    destruct (net url (attempts t)) as [r|e].
  - exists []. reflexivity.
  - destruct (Z.ltb_spec i (maxRetries - 1)); [lia|]. exists []. reflexivity.
  - exists []. reflexivity.
  - destruct (Z.ltb_spec i (maxRetries - 1)).
    + destruct (IH (i + 1)
                  ((t ++ [EvFetch url options]) ++ [EvSleep (delay * 2 ^ i)]))
        as (rest & Hrest); [lia|].
      rewrite Hrest. rewrite <- !app_assoc. simpl. eexists. reflexivity.
    + exists []. reflexivity.
Qed.

Lemma fetchWithBackoff_first_response (net : network) url options
  (retries delay : Z) (t : trace) (r : Response) :
  net url (attempts t) = Fulfilled r -> ok r = true ->
  Generate.fetchWithBackoff net url options retries delay t
  = (Fulfilled r, t ++ [EvFetch url options]).
Proof.
  intros Hcall Hok. rewrite fetchWithBackoff_unfold.
  rewrite (attempt_ok _ _ _ _ _ _ _ Hcall Hok). reflexivity.
Qed.

Lemma attempt_trace (net : network) url options retries delay t :
  exists rest,
    snd (Generate.attempt net url options retries delay t)
    = t ++ EvFetch url options :: rest.
Proof.
  unfold Generate.attempt, tryCatch, bind, fetch, sleep, emit, ret, throw.
  destruct (net url (attempts t)) as [r|e].
  - destruct (ok r); simpl; [exists []; reflexivity|].
    destruct (status r =? 429); destruct (Z_lt_dec 0 retries); simpl;
      rewrite <- ?app_assoc; simpl; eexists; reflexivity.
  - destruct (Z_lt_dec 0 retries); simpl;
      rewrite <- ?app_assoc; simpl; eexists; reflexivity.
Qed.

Lemma fetchWithBackoff_trace (net : network) url options (n : nat) :
  forall (retries delay : Z) (t : trace),
    Z.to_nat retries = n ->
    exists rest,
      snd (Generate.fetchWithBackoff net url options retries delay t)
      = t ++ EvFetch url options :: rest.
Proof.
  induction n as [|n IH]; intros retries delay t Hn;
    rewrite fetchWithBackoff_unfold;
    destruct (attempt_trace net url options retries delay t) as (rest & Hatt);
    destruct (Generate.attempt net url options retries delay t)
      as [[[r|positive]|e] t1]; simpl in Hatt; subst t1;
    try (exists rest; reflexivity).
  - lia.
  - destruct (IH (retries - 1) (delay * 2)
                (t ++ EvFetch url options :: rest)) as (rest' & Hrest);
      [lia|].
    rewrite Hrest, <- app_assoc. simpl. eexists. reflexivity.
Qed.

(** After a generated report, api/generate-report.js submits the record,
    whatever the request fields are. *)
Lemma handler_submits_record (env : Env) (net : network) (b : Body)
  (r : Response) (g : value) :
  net (GenerateReport.googleAiUrl env) 0%nat = Fulfilled r ->
  bodyJson r = Fulfilled (Doc g) ->
  truthy g = true ->
  In (EvFetch (GenerateReport.AIRTABLE_API_URL env)
        (mkOptions "POST" (airtableHeaders (AIRTABLE_API_KEY env))
           (GenerateReport.airtablePayload b g)))
     (snd (GenerateReport.handler env net (mkRequest "POST" (Some b)) [])).
Proof.
  intros Hcall Hjson Htext.
  unfold GenerateReport.handler.
  cbn [method body]. rewrite String.eqb_refl. cbn [negb].
  unfold tryCatch, bind at 1. cbn [destructure]. unfold ret at 1.
  unfold bind at 1.
  rewrite (exponentialBackoff_first_response net _ _ 5 1000 [] r)
    by (reflexivity || exact Hcall).
  cbn [GenerateReport.googleAiResult].
  unfold bind at 1, responseJson. rewrite Hjson.
  cbn [GenerateReport.candidateOf]. unfold bind at 1, ret at 1.
  rewrite Htext. cbn [negb].
  unfold bind at 1.
  match goal with
  | |- context [GenerateReport.exponentialBackoff ?f 5 1000 ?t1] =>
      destruct (exponentialBackoff_fetch_trace net
                  (GenerateReport.AIRTABLE_API_URL env)
                  (mkOptions "POST" (airtableHeaders (AIRTABLE_API_KEY env))
                     (GenerateReport.airtablePayload b g))
                  5 1000 4 0 t1 eq_refl) as (rest & Hrest);
      unfold GenerateReport.exponentialBackoff;
      destruct (GenerateReport.exponentialBackoff_loop f 5 1000 0 t1)
        as [[[|r2]|e2] t2]
  end; cbn [snd] in Hrest; subst t2.
  all: try (destruct (ok r2)); cbn;
    rewrite ?in_app_iff; cbn [In]; auto 6.
Qed.

Lemma intervalValue_string (s : string) :
  exists iv, forall t,
    Generate.intervalValueForAirtable (VStr s) t = (Fulfilled iv, t).
Proof.
  unfold Generate.intervalValueForAirtable.
  destruct (includes "+" s); [|destruct (includes "per" s)];
    eexists; intro t; reflexivity.
Qed.

(** After the report text is obtained, the sibling handler submits the
    record whenever the interval of the request is a string. *)
Lemma exports_submits_record (env : Env) (today : string) (net : network)
  (b : Body) (r : Response) (d : document) (s : string) (iv : number) :
  envSet (AIRTABLE_API_KEY env) = true ->
  envSet (AIRTABLE_BASE_ID env) = true ->
  envSet (AIRTABLE_TABLE_ID env) = true ->
  envSet (GEMINI_API_KEY env) = true ->
  interval b = VStr s ->
  (forall t, Generate.intervalValueForAirtable (VStr s) t = (Fulfilled iv, t)) ->
  net (Generate.geminiApiUrl env) 0%nat = Fulfilled r ->
  ok r = true ->
  bodyJson r = Fulfilled d ->
  In (EvFetch (Generate.airtableUrl env)
        (mkOptions "POST" (airtableHeaders (AIRTABLE_API_KEY env))
           (Generate.airtablePayload b (Generate.generatedTextOf d) iv today)))
     (snd (Generate.exports env today net (mkRequest "POST" (Some b)) [])).
Proof.
  intros H1 H2 H3 H4 Hint Hiv Hcall Hok Hjson.
  unfold Generate.exports.
  cbn [method body]. rewrite String.eqb_refl. cbn [negb].
  unfold tryCatch, bind at 1. cbn [destructure]. unfold ret at 1.
  rewrite H1, H2, H3, H4. cbn [negb orb].
  unfold bind at 1.
  rewrite (fetchWithBackoff_first_response net _ _ 3 1000 [] r Hcall Hok).
  unfold bind at 1, responseJson. rewrite Hjson.
  unfold bind at 1. rewrite Hint, Hiv.
  unfold bind at 1.
  match goal with
  | |- context [Generate.fetchWithBackoff net ?u ?o 3 1000 ?t1] =>
      destruct (fetchWithBackoff_trace net u o 3 3 1000 t1 eq_refl)
        as (rest & Hrest);
      destruct (Generate.fetchWithBackoff net u o 3 1000 t1)
        as [[r2|e2] t2]
  end; cbn [snd] in Hrest; subst t2; cbn;
    rewrite ?in_app_iff; cbn [In]; auto 6.
Qed.

(** C8, as the code has it.  The fields that a handler parses as numbers
    are persisted as null when the request value is absent or does not
    parse (the result of the parse is NaN), and this does not keep the
    record from being submitted: once the report text is generated,
    api/generate-report.js posts the record for every request, and the
    sibling handler posts it for every request whose interval is a string.
    The fields that are not parsed are outside this statement. *)
Theorem coerced_fields_normalised :
  (isNaN (parseFloat VUndef) = true /\ isNaN (parseInt VUndef) = true)
  /\
  (forall (env : Env) (net : network) (b : Body) (r : Response) (g : value),
      net (GenerateReport.googleAiUrl env) 0%nat = Fulfilled r ->
      bodyJson r = Fulfilled (Doc g) ->
      truthy g = true ->
      let fields := GenerateReport.airtableFields b g in
      In (EvFetch (GenerateReport.AIRTABLE_API_URL env)
            (mkOptions "POST" (airtableHeaders (AIRTABLE_API_KEY env))
               (recordsJson fields)))
         (snd (GenerateReport.handler env net (mkRequest "POST" (Some b)) []))
      /\ (forall field v, In (field, v) (parsedFields b) ->
            isNaN (parseFloat v) = true ->
            persisted field fields = Some JNull)
      /\ (isNaN (parseInt (interval b)) = true ->
          persisted "Anchor Interval" fields = Some JNull))
  /\
  (forall (env : Env) (today : string) (net : network) (b : Body)
          (r : Response) (d : document) (s : string),
      envSet (AIRTABLE_API_KEY env) = true ->
      envSet (AIRTABLE_BASE_ID env) = true ->
      envSet (AIRTABLE_TABLE_ID env) = true ->
      envSet (GEMINI_API_KEY env) = true ->
      interval b = VStr s ->
      net (Generate.geminiApiUrl env) 0%nat = Fulfilled r ->
      ok r = true ->
      bodyJson r = Fulfilled d ->
      exists iv,
        (forall t,
            Generate.intervalValueForAirtable (interval b) t
            = (Fulfilled iv, t))
        /\
        let fields :=
          Generate.airtableFields b (Generate.generatedTextOf d) iv today in
        In (EvFetch (Generate.airtableUrl env)
              (mkOptions "POST" (airtableHeaders (AIRTABLE_API_KEY env))
                 (recordsJson fields)))
           (snd (Generate.exports env today net (mkRequest "POST" (Some b)) []))
        /\ (forall field v, In (field, v) (siblingParsedFields b) ->
              isNaN (parseFloat v) = true ->
              persisted field fields = Some JNull)
        /\ (isNaN iv = true -> persisted "Anchor Interval" fields = Some JNull)
        /\ (isNaN (parseFloat (segments b)) = true ->
            persisted "Segments" fields = Some JNull)).
Proof.
  split; [split; reflexivity|]. split.
  - intros env net b r g Hcall Hjson Htext fields. subst fields.
    split; [|split].
    + apply (handler_submits_record env net b r g Hcall Hjson Htext).
    + intros field v Hin Hnan. unfold persisted.
      cbn [parsedFields In] in Hin.
      repeat (destruct Hin as [Hin|Hin];
              [injection Hin as <- <-;
               cbn [GenerateReport.airtableFields lookup String.eqb Ascii.eqb
                    Bool.eqb orElse truthy];
               destruct (parseFloat _); try discriminate; reflexivity|]).
      contradiction.
    + intro Hnan. unfold persisted.
      cbn [GenerateReport.airtableFields lookup String.eqb Ascii.eqb Bool.eqb].
      destruct (parseInt _); try discriminate; reflexivity.
  - intros env today net b r d s H1 H2 H3 H4 Hint Hcall Hok Hjson.
    destruct (intervalValue_string s) as (iv & Hiv).
    exists iv. split; [rewrite Hint; exact Hiv|]. cbv zeta.
    split; [|split; [|split]].
    + apply (exports_submits_record env today net b r d s iv); assumption.
    + intros field v Hin Hnan. unfold persisted.
      cbn [siblingParsedFields In] in Hin.
      repeat (destruct Hin as [Hin|Hin];
              [injection Hin as <- <-;
               cbn [Generate.airtableFields lookup String.eqb Ascii.eqb
                    Bool.eqb];
               destruct (parseFloat _); try discriminate; reflexivity|]).
      contradiction.
    + intro Hnan. unfold persisted.
      cbn [Generate.airtableFields lookup String.eqb Ascii.eqb Bool.eqb].
      destruct iv; try discriminate; reflexivity.
    + intro Hnan. unfold persisted.
      cbn [Generate.airtableFields lookup String.eqb Ascii.eqb Bool.eqb].
      destruct (truthy (isCascade b)); [|reflexivity].
      destruct (parseFloat _); try discriminate; reflexivity.
Qed.

Lemma coerced_fields_normalised_witness :
  let g := VStr "Deploy 350 ft of boom." in
  (In (EvFetch (GenerateReport.AIRTABLE_API_URL Sample.configured)
         (mkOptions "POST"
            (airtableHeaders (AIRTABLE_API_KEY Sample.configured))
            (recordsJson (GenerateReport.airtableFields Sample.wordyBody g))))
      (snd (GenerateReport.handler Sample.configured Sample.reliable
              (mkRequest "POST" (Some Sample.wordyBody)) []))
   /\ persisted "Current" (GenerateReport.airtableFields Sample.wordyBody g)
      = Some JNull
   /\ persisted "Angle" (GenerateReport.airtableFields Sample.wordyBody g)
      = Some JNull
   /\ persisted "Anchor Interval"
        (GenerateReport.airtableFields Sample.wordyBody g)
      = Some JNull)
  /\
  (exists iv,
      let fields := Generate.airtableFields Sample.wordyBody g iv Sample.today in
      In (EvFetch (Generate.airtableUrl Sample.configured)
            (mkOptions "POST"
               (airtableHeaders (AIRTABLE_API_KEY Sample.configured))
               (recordsJson fields)))
         (snd (Generate.exports Sample.configured Sample.today Sample.reliable
                 (mkRequest "POST" (Some Sample.wordyBody)) []))
      /\ persisted "Current" fields = Some JNull
      /\ persisted "Anchors" fields = Some JNull
      /\ persisted "Segments" fields = Some JNull).
Proof.
  intro g. split.
  - destruct (proj1 (proj2 coerced_fields_normalised)
                Sample.configured Sample.reliable Sample.wordyBody
                Sample.generated g eq_refl eq_refl eq_refl)
      as (Hsent & Hparsed & Hinterval).
    split; [exact Hsent|]. split; [|split].
    + apply (Hparsed "Current"%string (VStr "fast")); [simpl; auto|reflexivity].
    + apply (Hparsed "Angle"%string VUndef); [simpl; auto|reflexivity].
    + apply Hinterval. reflexivity.
  - destruct (proj2 (proj2 coerced_fields_normalised)
                Sample.configured Sample.today Sample.reliable
                Sample.wordyBody Sample.generated (Doc g) "wide"%string
                eq_refl eq_refl eq_refl eq_refl eq_refl eq_refl eq_refl
                eq_refl)
      as (iv & Hiv & Hsent & Hparsed & Hinterval & Hsegments).
    exists iv. split; [exact Hsent|]. split; [|split].
    + apply (Hparsed "Current"%string (VStr "fast")); [simpl; auto|reflexivity].
    + apply (Hparsed "Anchors"%string (VStr "five")); [simpl; auto 6|reflexivity].
    + apply Hsegments. reflexivity.
Defined.

(** C8 as stated fails for the fields that are persisted unparsed: a
    tension, a count of anchors or a segment count that is not a number is
    persisted as the text it came with, and an absent river mile as the
    text "N/A" in the sibling handler. *)
Lemma unparsed_fields_pass_through :
  let g := VStr "report" in
  persisted "Tension"
    (Generate.airtableFields Sample.wordyBody g NaN Sample.today)
  = Some (JStr "heavy")
  /\ persisted "River Mile"
       (Generate.airtableFields Sample.wordyBody g NaN Sample.today)
     = Some (JStr "N/A")
  /\ persisted "Anchors" (GenerateReport.airtableFields Sample.wordyBody g)
     = Some (JStr "five")
  /\ persisted "Segments" (GenerateReport.airtableFields Sample.wordyBody g)
     = Some (JStr "several").
Proof. vm_compute. repeat split. Qed.

(** A request without an interval: [interval.includes] throws in the
    sibling handler once the report is generated, the reply is 500 and the
    persistence service is never called. *)
Example absent_interval_aborts_write :
  let served :=
    Generate.exports Sample.configured Sample.today Sample.reliable
      (Sample.post (withInterval Sample.cascadeBody VUndef)) [] in
  fst served
  = Fulfilled
      (mkReply 500
         [("message", VStr "Failed to generate or save the report.");
          ("error",
           VStr "Cannot read properties of undefined (reading 'includes')")])
  /\ fetchedUrls (snd served) = [Generate.geminiApiUrl Sample.configured].
Proof. vm_compute. split; reflexivity. Qed.

(* ------------------------------------------------------------------ *)
(** ** Every run of a retry helper *)

Lemma fetches_app (t u : trace) : fetches (t ++ u) = fetches t ++ fetches u.
Proof. unfold fetches. apply flat_map_app. Qed.

Lemma fetchedUrls_fetches (t : trace) : fetchedUrls t = map fst (fetches t).
Proof.
  induction t as [|e t IH]; [reflexivity|].
  destruct e; simpl; try exact IH. f_equal. exact IH.
Qed.

Lemma sumZ_app (l m : list Z) : sumZ (l ++ m) = sumZ l + sumZ m.
Proof.
  induction l as [|x l IH]; [reflexivity|].
  cbn [app sumZ fold_right]. fold (sumZ (l ++ m)). fold (sumZ l). lia.
Qed.

Lemma attempts_schedule (ev : event) (delay : Z) (k : nat) :
  isAttempt ev = true -> attempts (schedule ev delay k) = S k.
Proof.
  intro Hev.
  assert (Hone : attempts [ev] = 1%nat).
  { unfold attempts. cbn [filter]. rewrite Hev. reflexivity. }
  revert delay. induction k as [|k IH]; intro delay; [exact Hone|].
  change (schedule ev delay (S k))
    with ([ev] ++ [EvSleep delay] ++ schedule ev (delay * 2) k).
  rewrite !attempts_app, Hone, IH. reflexivity.
Qed.

Lemma sleeps_schedule (ev : event) (delay : Z) (k : nat) :
  sleeps [ev] = [] -> sleeps (schedule ev delay k) = geometric delay k.
Proof.
  intro Hev. revert delay. induction k as [|k IH]; intro delay.
  - exact Hev.
  - change (schedule ev delay (S k))
      with ([ev] ++ EvSleep delay :: schedule ev (delay * 2) k).
    rewrite sleeps_app, Hev. cbn [app sleeps geometric]. rewrite IH.
    reflexivity.
Qed.

Lemma fetches_schedule url options (delay : Z) (k : nat) :
  fetches (schedule (EvFetch url options) delay k)
  = repeat (url, options) (S k).
Proof.
  revert delay. induction k as [|k IH]; intro delay; [reflexivity|].
  cbn [schedule]. unfold fetches in *. cbn [flat_map app].
  rewrite IH. reflexivity.
Qed.

Lemma schedule_snoc_step (ev : event) (delay : Z) (k : nat) (t : trace) :
  ((t ++ [ev]) ++ [EvSleep delay]) ++ schedule ev (delay * 2) k
  = t ++ schedule ev delay (S k).
Proof. rewrite <- !app_assoc. reflexivity. Qed.

(** The loop of [exponentialBackoff] over an operation whose every run
    leaves the event [ev] and settles as the script says. *)
Section ScriptedLoop.

Context {A : Type} {U : Undef A}.
Variable func : M A.
Variable script : nat -> settled A.
Variable ev : event.
Hypothesis func_runs : forall t, func t = (script (attempts t), t ++ [ev]).
Hypothesis ev_attempt : isAttempt ev = true.
Variables maxRetries delay : Z.

Lemma iteration_scripted (i : Z) (t : trace) :
  GenerateReport.iteration func maxRetries delay i t =
  match script (attempts t) with
  | Fulfilled a => (Fulfilled (GenerateReport.Return a), t ++ [ev])
  | Rejected e =>
      if i <? maxRetries - 1 then
        (Fulfilled GenerateReport.Continue,
         (t ++ [ev]) ++ [EvSleep (delay * 2 ^ i)])
      else (Rejected e, t ++ [ev])
  end.
Proof.
  unfold GenerateReport.iteration, tryCatch, bind, sleep, emit, ret, throw.
  rewrite func_runs.
  destruct (script (attempts t)); [reflexivity|].
  destruct (i <? maxRetries - 1); reflexivity.
Qed.

(** With [n + 1] iterations left, the loop stops after [k <= n] rejected
    runs, at the first run that is fulfilled or at the last one left, and
    settles as that run did. *)
Lemma loop_scripted (n : nat) :
  forall (i : Z) (t : trace),
    Z.to_nat (maxRetries - i) = S n -> 0 <= i ->
    exists k,
      (k <= n)%nat
      /\ GenerateReport.exponentialBackoff_loop func maxRetries delay i t
         = (script (attempts t + k)%nat, t ++ schedule ev (delay * 2 ^ i) k)
      /\ (forall j, (j < k)%nat ->
            rejected (script (attempts t + j)%nat) = true)
      /\ (rejected (script (attempts t + k)%nat) = true -> k = n).
Proof.
  induction n as [|n IH]; intros i t Hn Hi;
    rewrite exponentialBackoff_loop_unfold, iteration_scripted;
    (destruct (Z.ltb_spec i maxRetries); [|lia]);
    destruct (script (attempts t)) as [a|e] eqn:Hrun.
  - exists 0%nat. rewrite Nat.add_0_r, Hrun.
    split; [lia|]. split; [reflexivity|]. split; [intros j Hj; lia|].
    discriminate.
  - destruct (Z.ltb_spec i (maxRetries - 1)); [lia|].
    exists 0%nat. rewrite Nat.add_0_r, Hrun.
    split; [lia|]. split; [reflexivity|]. split; [intros j Hj; lia|].
    reflexivity.
  - exists 0%nat. rewrite Nat.add_0_r, Hrun.
    split; [lia|]. split; [reflexivity|]. split; [intros j Hj; lia|].
    discriminate.
  - destruct (Z.ltb_spec i (maxRetries - 1)); [|lia].
    set (t1 := (t ++ [ev]) ++ [EvSleep (delay * 2 ^ i)]).
    assert (Ha : attempts t1 = S (attempts t)).
    { subst t1. rewrite !attempts_app.
      change (attempts [EvSleep (delay * 2 ^ i)]) with 0%nat.
      replace (attempts [ev]) with 1%nat; [lia|].
      unfold attempts. cbn [filter]. rewrite ev_attempt. reflexivity. }
    destruct (IH (i + 1) t1) as (k & Hk & Hloop & Hbefore & Hlast);
      [lia|lia|].
    exists (S k). rewrite Hloop, Ha.
    replace (S (attempts t) + k)%nat with (attempts t + S k)%nat by lia.
    split; [lia|]. split; [|split].
    + f_equal. subst t1. rewrite pow2_step by lia. apply schedule_snoc_step.
    + intros j Hj. destruct j as [|j].
      * rewrite Nat.add_0_r, Hrun. reflexivity.
      * replace (attempts t + S j)%nat with (attempts t1 + j)%nat by lia.
        apply Hbefore. lia.
    + intro Hrej. f_equal. apply Hlast. rewrite Ha.
      replace (S (attempts t) + k)%nat with (attempts t + S k)%nat by lia.
      exact Hrej.
Qed.

End ScriptedLoop.

Lemma invoke_runs {A} (script : nat -> settled A) (t : trace) :
  invoke script t = (script (attempts t), t ++ [EvCall]).
Proof. reflexivity. Qed.

Lemma fetchResp_runs (net : network) url options (t : trace) :
  fetchResp net url options t
  = (asFetched (net url (attempts t)), t ++ [EvFetch url options]).
Proof.
  unfold fetchResp, bind, fetch, ret.
  destruct (net url (attempts t)); reflexivity.
Qed.

(** [fetchWithBackoff] stops after [k] failed calls, at the first call that
    does not fail or when the retries are used up, and settles with the ok
    response of that call or with the error of the last failure. *)
Lemma fetchWithBackoff_scripted (net : network) url options (n : nat) :
  forall (retries delay : Z) (t : trace),
    Z.to_nat retries = n ->
    exists k tail,
      (k <= n)%nat
      /\ snd (Generate.fetchWithBackoff net url options retries delay t)
         = t ++ tail
      /\ attempts tail = S k
      /\ sleeps tail = geometric delay k
      /\ fetches tail = repeat (url, options) (S k)
      /\ (forall j, (j < k)%nat ->
            failed (net url (attempts t + j)%nat) = true)
      /\ fst (Generate.fetchWithBackoff net url options retries delay t)
         = (if failed (net url (attempts t + k)%nat)
            then Rejected (errorOf (net url (attempts t + k)%nat))
            else net url (attempts t + k)%nat)
      /\ (failed (net url (attempts t + k)%nat) = true -> k = n).
Proof.
  induction n as [|n IH]; intros retries delay t Hn;
    rewrite fetchWithBackoff_unfold;
    destruct (failed (net url (attempts t))) eqn:Hfail.
  - rewrite (attempt_failed_last net url options retries delay t Hfail)
      by lia.
    exists 0%nat, [EvFetch url options]. rewrite Nat.add_0_r, Hfail.
    repeat (split; [first [reflexivity | lia | intros j Hj; lia]|]).
    reflexivity.
  - destruct (net url (attempts t)) as [r|e] eqn:Hcall; [|discriminate].
    simpl in Hfail. apply negb_false_iff in Hfail.
    rewrite (attempt_ok _ _ _ _ _ _ _ Hcall Hfail).
    exists 0%nat, [EvFetch url options]. rewrite Nat.add_0_r, Hcall.
    simpl. rewrite Hfail. simpl.
    repeat (split; [first [reflexivity | lia | intros j Hj; lia]|]).
    discriminate.
  - destruct (attempt_failed_retry net url options retries delay t Hfail)
      as (positive & msg & Hatt); [lia|].
    rewrite Hatt.
    set (step := [EvFetch url options; EvLog msg; EvSleep delay]).
    assert (Ha : attempts (t ++ step) = S (attempts t)).
    { subst step. count_attempts. }
    destruct (IH (retries - 1) (delay * 2) (t ++ step))
      as (k & tail & Hk & Htrace & Hatts & Hsl & Hfe & Hbefore & Hout & Hlast);
      [lia|].
    exists (S k), (step ++ tail).
    rewrite Ha in Hbefore, Hout, Hlast.
    replace (attempts t + S k)%nat with (S (attempts t) + k)%nat by lia.
    split; [lia|]. split; [rewrite Htrace, app_assoc; reflexivity|].
    split; [rewrite attempts_app, Hatts; subst step; count_attempts|].
    split; [rewrite sleeps_app, Hsl; reflexivity|].
    split; [rewrite fetches_app, Hfe; reflexivity|].
    split; [|split; [exact Hout|intro H; f_equal; apply Hlast, H]].
    intros j Hj. destruct j as [|j].
    + rewrite Nat.add_0_r. exact Hfail.
    + replace (attempts t + S j)%nat with (S (attempts t) + j)%nat by lia.
      apply Hbefore. lia.
  - destruct (net url (attempts t)) as [r|e] eqn:Hcall; [|discriminate].
    simpl in Hfail. apply negb_false_iff in Hfail.
    rewrite (attempt_ok _ _ _ _ _ _ _ Hcall Hfail).
    exists 0%nat, [EvFetch url options]. rewrite Nat.add_0_r, Hcall.
    simpl. rewrite Hfail. simpl.
    repeat (split; [first [reflexivity | lia | intros j Hj; lia]|]).
    discriminate.
Qed.

(* ------------------------------------------------------------------ *)
(** ** Every run of a handler *)

Lemma pow2_zero (delay : Z) : delay * 2 ^ 0 = delay.
Proof. rewrite Z.pow_0_r. lia. Qed.

(** [exponentialBackoff] with the default budget over a [fetch], from any
    trace. *)
Lemma exponentialBackoff_fetch_scripted (net : network) url options
  (delay : Z) (t : trace) :
  exists k,
    (k <= 4)%nat
    /\ GenerateReport.exponentialBackoff (fetchResp net url options) 5 delay t
       = (asFetched (net url (attempts t + k)%nat),
          t ++ schedule (EvFetch url options) delay k)
    /\ (forall j, (j < k)%nat ->
          rejected (net url (attempts t + j)%nat) = true)
    /\ (rejected (net url (attempts t + k)%nat) = true -> k = 4%nat).
Proof.
  destruct (loop_scripted (fetchResp net url options)
              (fun n => asFetched (net url n)) (EvFetch url options)
              (fetchResp_runs net url options) eq_refl 5 delay 4 0 t
              eq_refl ltac:(lia))
    as (k & Hk & Hrun & Hbefore & Hlast).
  exists k. rewrite pow2_zero in Hrun. split; [exact Hk|].
  split; [exact Hrun|]. split.
  - intros j Hj. specialize (Hbefore j Hj).
    destruct (net url (attempts t + j)%nat); [discriminate|reflexivity].
  - intro H. apply Hlast.
    destruct (net url (attempts t + k)%nat); [discriminate|reflexivity].
Qed.

(** Reads the calls and the waits off a trace built from schedules. *)
Ltac read_trace :=
  cbn [snd fst];
  rewrite ?fetches_app, ?sleeps_app, ?fetches_schedule, ?sleeps_schedule
    by reflexivity;
  cbn [fetches sleeps flat_map app repeat geometric pred];
  rewrite ?app_nil_r.

(** Closes the bounds and the status of a finished run. *)
Ltac run_facts :=
  repeat match goal with |- _ /\ _ => split end;
  first [ lia
        | solve [cbn; auto]
        | solve [cbn; discriminate]
        | solve [intro; lia]
        | solve [intro; discriminate] ].

(** A run of the handler of api/generate-report.js: the reply, [a] calls to
    the generation service followed by [b] calls to the persistence
    service, and the waits between them. *)
Lemma handler_runs (env : Env) (net : network) (req : Request) :
  exists reply t a b go ao,
    GenerateReport.handler env net req [] = (Fulfilled reply, t)
    /\ fetches t
       = repeat (GenerateReport.googleAiUrl env, go) a
         ++ repeat (GenerateReport.AIRTABLE_API_URL env, ao) b
    /\ sleeps t = geometric 1000 (pred a) ++ geometric 1000 (pred b)
    /\ (a <= 5)%nat /\ (b <= 5)%nat
    /\ (b <> 0%nat -> a <> 0%nat)
    /\ (code reply = 200 \/ code reply = 405 \/ code reply = 500)
    /\ (code reply = 200 -> b <> 0%nat)
    /\ (a = 0%nat -> t = [] \/ body req = None).
Proof.
  unfold GenerateReport.handler.
  destruct (method req =? "POST")%string; cbn [negb].
  2:{ exists (mkReply 405 [("message", VStr "Method Not Allowed")]), [],
        0%nat, 0%nat, Sample.options, Sample.options.
      split; [reflexivity|]. split; [reflexivity|]. split; [reflexivity|].
      run_facts. }
  unfold tryCatch, bind at 1.
  destruct (body req) as [bd|]; cbn [destructure].
  2:{ eexists; exists [EvError "API Error:"
                         (TypeError "Cannot destructure property 'current' of 'req.body' as it is undefined.")],
        0%nat, 0%nat, Sample.options, Sample.options.
      split; [reflexivity|]. split; [reflexivity|]. split; [reflexivity|].
      run_facts. }
  unfold ret at 1. unfold bind at 1.
  set (go := mkOptions "POST" jsonHeaders (GenerateReport.googleAiPayload bd)).
  destruct (exponentialBackoff_fetch_scripted net
              (GenerateReport.googleAiUrl env) go 1000 [])
    as (k1 & Hk1 & Hrun1 & _ & _).
  rewrite Hrun1. cbn [app]. clear Hrun1.
  set (t1 := schedule (EvFetch (GenerateReport.googleAiUrl env) go) 1000 k1).
  assert (Hfail :
    forall e,
      exists reply t a b go ao,
        (emit (EvError "API Error:" e) ;;
         ret (mkReply 500
                [("message", VStr "An unexpected error occurred.");
                 ("error", VStr (err_message e))])) t1
        = (Fulfilled reply, t)
        /\ fetches t
           = repeat (GenerateReport.googleAiUrl env, go) a
             ++ repeat (GenerateReport.AIRTABLE_API_URL env, ao) b
        /\ sleeps t = geometric 1000 (pred a) ++ geometric 1000 (pred b)
        /\ (a <= 5)%nat /\ (b <= 5)%nat
        /\ (b <> 0%nat -> a <> 0%nat)
        /\ (code reply = 200 \/ code reply = 405 \/ code reply = 500)
        /\ (code reply = 200 -> b <> 0%nat)
        /\ (a = 0%nat -> t = [] \/ Some bd = None)).
  { intro e. eexists; exists (t1 ++ [EvError "API Error:" e]), (S k1), 0%nat,
      go, Sample.options.
    split; [reflexivity|].
    subst t1. split; [read_trace; reflexivity|].
    split; [read_trace; reflexivity|].
    run_facts. }
  destruct (net (GenerateReport.googleAiUrl env) (attempts [] + k1)%nat)
    as [r|e]; cbn [asFetched]; [|apply Hfail].
  cbn [GenerateReport.googleAiResult]. unfold bind at 1, responseJson.
  destruct (bodyJson r) as [[|g]|e]; cbn [GenerateReport.candidateOf];
    [apply Hfail| |apply Hfail].
  unfold bind at 1, ret at 1.
  destruct (truthy g); cbn [negb]; [|apply Hfail].
  unfold bind at 1.
  set (ao := mkOptions "POST" (airtableHeaders (AIRTABLE_API_KEY env))
               (GenerateReport.airtablePayload bd g)).
  destruct (exponentialBackoff_fetch_scripted net
              (GenerateReport.AIRTABLE_API_URL env) ao 1000 t1)
    as (k2 & Hk2 & Hrun2 & _ & _).
  rewrite Hrun2. clear Hrun2 Hfail.
  set (t2 := t1 ++ schedule (EvFetch (GenerateReport.AIRTABLE_API_URL env) ao)
                     1000 k2).
  assert (Hshape :
    forall tail, fetches tail = [] -> sleeps tail = [] ->
      fetches (t2 ++ tail)
      = repeat (GenerateReport.googleAiUrl env, go) (S k1)
        ++ repeat (GenerateReport.AIRTABLE_API_URL env, ao) (S k2)
      /\ sleeps (t2 ++ tail)
         = geometric 1000 (pred (S k1)) ++ geometric 1000 (pred (S k2))).
  { intros tail Hf Hs. subst t2 t1. split.
    - rewrite !fetches_app, !fetches_schedule, Hf, app_nil_r. reflexivity.
    - rewrite !sleeps_app, !sleeps_schedule, Hs, app_nil_r by reflexivity.
      reflexivity. }
  destruct (net (GenerateReport.AIRTABLE_API_URL env) (attempts t1 + k2)%nat)
    as [r2|e2]; cbn [asFetched].
  - destruct (ok r2); cbn [negb].
    + exists (mkReply 200 [("reportText", g)]), t2, (S k1), (S k2), go, ao.
      split; [reflexivity|].
      destruct (Hshape [] eq_refl eq_refl) as (Hf & Hs).
      rewrite app_nil_r in Hf, Hs.
      split; [exact Hf|]. split; [exact Hs|].
      run_facts.
    + eexists. eexists. exists (S k1), (S k2), go, ao.
      split; [reflexivity|].
      destruct (Hshape [EvError "API Error:"
                          (GenerateReport.saveFailed r2 (bodyText r2))]
                  eq_refl eq_refl) as (Hf & Hs).
      split; [exact Hf|]. split; [exact Hs|].
      run_facts.
  - eexists. eexists. exists (S k1), (S k2), go, ao.
    split; [reflexivity|].
    destruct (Hshape [EvError "API Error:" e2] eq_refl eq_refl) as (Hf & Hs).
    split; [exact Hf|]. split; [exact Hs|].
    run_facts.
Qed.

(** A run of the sibling handler, in the same terms; the persistence
    service is only called for a request whose interval is a string. *)
Lemma exports_runs (env : Env) (today : string) (net : network)
  (req : Request) :
  exists reply t a b go ao,
    Generate.exports env today net req [] = (Fulfilled reply, t)
    /\ fetches t
       = repeat (Generate.geminiApiUrl env, go) a
         ++ repeat (Generate.airtableUrl env, ao) b
    /\ sleeps t = geometric 1000 (pred a) ++ geometric 1000 (pred b)
    /\ (a <= 4)%nat /\ (b <= 4)%nat
    /\ (b <> 0%nat -> a <> 0%nat)
    /\ (code reply = 200 \/ code reply = 405 \/ code reply = 500)
    /\ (code reply = 200 -> b <> 0%nat)
    /\ (code reply = 405 -> (method req =? "POST")%string = false)
    /\ (b <> 0%nat ->
        exists bd, body req = Some bd /\ isString (interval bd) = true).
Proof.
  unfold Generate.exports.
  destruct (method req =? "POST")%string; cbn [negb].
  2:{ exists (mkReply 405 [("message", VStr "Method Not Allowed")]), [],
        0%nat, 0%nat, Sample.options, Sample.options.
      split; [reflexivity|]. split; [reflexivity|]. split; [reflexivity|].
      run_facts. }
  unfold tryCatch, bind at 1.
  destruct (body req) as [bd|]; cbn [destructure].
  2:{ eexists; eexists; exists 0%nat, 0%nat, Sample.options, Sample.options.
      split; [reflexivity|]. split; [reflexivity|]. split; [reflexivity|].
      run_facts. }
  unfold ret at 1.
  destruct (negb (envSet (AIRTABLE_API_KEY env))
            || negb (envSet (AIRTABLE_BASE_ID env))
            || negb (envSet (AIRTABLE_TABLE_ID env))
            || negb (envSet (GEMINI_API_KEY env))).
  { eexists; eexists; exists 0%nat, 0%nat, Sample.options, Sample.options.
    split; [reflexivity|]. split; [reflexivity|]. split; [reflexivity|].
    run_facts. }
  unfold bind at 1.
  set (go := mkOptions "POST" jsonHeaders (Generate.geminiPayload bd)).
  destruct (fetchWithBackoff_scripted net (Generate.geminiApiUrl env) go 3
              3 1000 [] eq_refl)
    as (k1 & tail1 & Hk1 & Htrace1 & _ & Hsl1 & Hfe1 & _).
  destruct (Generate.fetchWithBackoff net (Generate.geminiApiUrl env) go
              3 1000 []) as [out1 t1].
  cbn [snd app] in Htrace1. subst t1.
  assert (Hfail :
    forall e tail, fetches tail = [] -> sleeps tail = [] ->
      exists reply t a b go ao,
        (emit (EvError "API call failed:" e) ;;
         ret (mkReply 500
                [("message", VStr "Failed to generate or save the report.");
                 ("error", VStr (err_message e))])) (tail1 ++ tail)
        = (Fulfilled reply, t)
        /\ fetches t
           = repeat (Generate.geminiApiUrl env, go) a
             ++ repeat (Generate.airtableUrl env, ao) b
        /\ sleeps t = geometric 1000 (pred a) ++ geometric 1000 (pred b)
        /\ (a <= 4)%nat /\ (b <= 4)%nat
        /\ (b <> 0%nat -> a <> 0%nat)
        /\ (code reply = 200 \/ code reply = 405 \/ code reply = 500)
        /\ (code reply = 200 -> b <> 0%nat)
        /\ (code reply = 405 -> true = false)
        /\ (b <> 0%nat ->
            exists bd', Some bd = Some bd' /\ isString (interval bd') = true)).
  { intros e tail Hf Hs. eexists; eexists; exists (S k1), 0%nat, go, Sample.options.
    split; [reflexivity|].
    split; [rewrite !fetches_app, Hfe1, Hf, !app_nil_r; reflexivity|].
    split; [rewrite !sleeps_app, Hsl1, Hs, !app_nil_r; reflexivity|].
    run_facts. }
  destruct out1 as [r|e].
  2:{ rewrite <- (app_nil_r tail1). apply Hfail; reflexivity. }
  unfold bind at 1, responseJson.
  destruct (bodyJson r) as [d|e].
  2:{ rewrite <- (app_nil_r tail1). apply Hfail; reflexivity. }
  unfold bind at 1.
  destruct (interval bd) as [| |flag|num|s] eqn:Hinterval;
    cbn [Generate.intervalValueForAirtable];
    try (unfold throw; rewrite <- (app_nil_r tail1);
         apply Hfail; reflexivity).
  destruct (intervalValue_string s) as (iv & Hiv).
  change (if includes "+" s
          then ret (parseFloat (VStr (removeFirst "+" s)))
          else if includes "per" s
               then ret (parseFloat (VStr (beforeFirst " " s)))
               else ret (parseFloat (VStr s)))
    with (Generate.intervalValueForAirtable (VStr s)).
  rewrite Hiv. unfold bind at 1.
  set (ao := mkOptions "POST" (airtableHeaders (AIRTABLE_API_KEY env))
               (Generate.airtablePayload bd (Generate.generatedTextOf d)
                  iv today)).
  destruct (fetchWithBackoff_scripted net (Generate.airtableUrl env) ao 3
              3 1000 tail1 eq_refl)
    as (k2 & tail2 & Hk2 & Htrace2 & _ & Hsl2 & Hfe2 & _).
  destruct (Generate.fetchWithBackoff net (Generate.airtableUrl env) ao
              3 1000 tail1) as [out2 t2].
  cbn [snd] in Htrace2. subst t2.
  assert (Hshape :
    forall tail, fetches tail = [] -> sleeps tail = [] ->
      fetches ((tail1 ++ tail2) ++ tail)
      = repeat (Generate.geminiApiUrl env, go) (S k1)
        ++ repeat (Generate.airtableUrl env, ao) (S k2)
      /\ sleeps ((tail1 ++ tail2) ++ tail)
         = geometric 1000 (pred (S k1)) ++ geometric 1000 (pred (S k2))).
  { intros tail Hf Hs. split.
    - rewrite !fetches_app, Hfe1, Hfe2, Hf, app_nil_r. reflexivity.
    - rewrite !sleeps_app, Hsl1, Hsl2, Hs, app_nil_r. reflexivity. }
  destruct out2 as [r2|e2].
  - eexists. exists (tail1 ++ tail2), (S k1), (S k2), go, ao.
    split; [reflexivity|].
    destruct (Hshape [] eq_refl eq_refl) as (Hf & Hs).
    rewrite app_nil_r in Hf, Hs.
    split; [exact Hf|]. split; [exact Hs|].
    repeat match goal with |- _ /\ _ => split end;
      try (intro; exists bd; split;
           [reflexivity|rewrite Hinterval; reflexivity]);
      try run_facts.
  - eexists. eexists. exists (S k1), (S k2), go, ao.
    split; [reflexivity|].
    destruct (Hshape [EvError "API call failed:" e2] eq_refl eq_refl)
      as (Hf & Hs).
    split; [exact Hf|]. split; [exact Hs|].
    repeat match goal with |- _ /\ _ => split end;
      try (intro; exists bd; split;
           [reflexivity|rewrite Hinterval; reflexivity]);
      try run_facts.
Qed.

(* ------------------------------------------------------------------ *)
(** ** Further properties of the retry helpers *)

(** X1. Whatever the operation does and whatever the budget is,
    [exponentialBackoff] runs it at most [maxRetries] times (never for a
    budget of 0 or less), waits once between two runs and never after the
    last, and the waits are [delay, 2 delay, 4 delay, ...]: for [n] runs
    the total wait is [delay * (2^(n-1) - 1)]. *)
Theorem exponentialBackoff_schedule :
  forall (A : Type) (U : Undef A) (script : nat -> settled A)
         (maxRetries delay : Z),
    let run :=
      GenerateReport.exponentialBackoff (invoke script) maxRetries delay [] in
    Z.of_nat (attempts (snd run)) <= Z.max 0 maxRetries
    /\ sleeps (snd run) = geometric delay (pred (attempts (snd run)))
    /\ totalDelay (snd run)
       = delay * (2 ^ Z.of_nat (pred (attempts (snd run))) - 1).
Proof.
  intros A U script maxRetries delay run. subst run.
  unfold GenerateReport.exponentialBackoff.
  destruct (Z.ltb_spec 0 maxRetries) as [Hpos|Hnone].
  - destruct (loop_scripted (invoke script) script EvCall
                (invoke_runs script) eq_refl maxRetries delay
                (Z.to_nat (maxRetries - 1)) 0 [] ltac:(lia) ltac:(lia))
      as (k & Hk & Hrun & _ & _).
    rewrite Hrun, pow2_zero. cbn [snd app].
    rewrite attempts_schedule, totalDelay_sleeps, sleeps_schedule
      by reflexivity.
    cbn [pred]. rewrite sumZ_geometric. repeat split. lia.
  - rewrite exponentialBackoff_loop_unfold.
    destruct (Z.ltb_spec 0 maxRetries); [lia|].
    cbn. repeat split; lia.
Qed.

(** X2. With a positive budget, [exponentialBackoff] settles exactly as the
    last run of the operation did: it stops at the first run that is
    fulfilled, every run before it was rejected, and it only settles with a
    rejection when that rejection is the one of run number [maxRetries].
    The trace is the schedule of those runs. *)
Theorem exponentialBackoff_settles_as_last_run :
  forall (A : Type) (U : Undef A) (script : nat -> settled A)
         (maxRetries delay : Z),
    0 < maxRetries ->
    exists k,
      Z.of_nat k < maxRetries
      /\ GenerateReport.exponentialBackoff (invoke script) maxRetries delay []
         = (script k, schedule EvCall delay k)
      /\ (forall j, (j < k)%nat -> rejected (script j) = true)
      /\ (rejected (script k) = true -> Z.of_nat k = maxRetries - 1).
Proof.
  intros A U script maxRetries delay Hpos.
  destruct (loop_scripted (invoke script) script EvCall
              (invoke_runs script) eq_refl maxRetries delay
              (Z.to_nat (maxRetries - 1)) 0 [] ltac:(lia) ltac:(lia))
    as (k & Hk & Hrun & Hbefore & Hlast).
  exists k. unfold GenerateReport.exponentialBackoff.
  rewrite Hrun, pow2_zero. change (attempts []) with 0%nat in *.
  cbn [Nat.add app] in *.
  split; [lia|]. split; [reflexivity|]. split; [exact Hbefore|].
  intro H. apply Hlast in H. lia.
Qed.

Lemma exponentialBackoff_settles_as_last_run_witness :
  exists k,
    Z.of_nat k < 5
    /\ GenerateReport.exponentialBackoff (invoke Sample.flaky) 5 1000 []
       = (Sample.flaky k, schedule EvCall 1000 k)
    /\ (forall j, (j < k)%nat -> rejected (Sample.flaky j) = true)
    /\ (rejected (Sample.flaky k) = true -> Z.of_nat k = 5 - 1).
Proof.
  apply (exponentialBackoff_settles_as_last_run value _ Sample.flaky 5 1000).
  lia.
Defined.

(** X3. Whatever the network does and whatever [retries] is,
    [fetchWithBackoff] makes at least one call and at most [retries + 1],
    all to the same URL with the same options, waits once between two calls
    and never after the last, and the waits are [delay, 2 delay, ...]. *)
Theorem fetchWithBackoff_schedule :
  forall (net : network) (url : string) (options : FetchOptions)
         (retries delay : Z),
    let run := Generate.fetchWithBackoff net url options retries delay [] in
    (1 <= attempts (snd run))%nat
    /\ Z.of_nat (attempts (snd run)) <= Z.max 0 retries + 1
    /\ fetches (snd run) = repeat (url, options) (attempts (snd run))
    /\ sleeps (snd run) = geometric delay (pred (attempts (snd run)))
    /\ totalDelay (snd run)
       = delay * (2 ^ Z.of_nat (pred (attempts (snd run))) - 1).
Proof.
  intros net url options retries delay run. subst run.
  destruct (fetchWithBackoff_scripted net url options (Z.to_nat retries)
              retries delay [] eq_refl)
    as (k & tail & Hk & Htrace & Hatt & Hsl & Hfe & _).
  cbn [app] in Htrace. rewrite Htrace, Hatt, Hfe, totalDelay_sleeps, Hsl.
  cbn [pred]. rewrite sumZ_geometric. repeat split; lia.
Qed.

(** X4. [fetchWithBackoff] settles as its last call did: it stops at the
    first call that is answered with an ok response and is fulfilled with
    that response, every call before it failed, and it is only rejected,
    with the error of the last call, when all [retries + 1] calls failed.
    It is never fulfilled with a response that is not ok. *)
Theorem fetchWithBackoff_settles_as_last_call :
  forall (net : network) (url : string) (options : FetchOptions)
         (retries delay : Z),
    let run := Generate.fetchWithBackoff net url options retries delay [] in
    exists k,
      attempts (snd run) = S k
      /\ (k <= Z.to_nat retries)%nat
      /\ (forall j, (j < k)%nat -> failed (net url j) = true)
      /\ fst run
         = (if failed (net url k)
            then Rejected (errorOf (net url k))
            else net url k)
      /\ (failed (net url k) = true -> k = Z.to_nat retries)
      /\ (forall r, fst run = Fulfilled r -> ok r = true).
Proof.
  intros net url options retries delay run. subst run.
  destruct (fetchWithBackoff_scripted net url options (Z.to_nat retries)
              retries delay [] eq_refl)
    as (k & tail & Hk & Htrace & Hatt & _ & _ & Hbefore & Hout & Hlast).
  change (attempts []) with 0%nat in *. cbn [app Nat.add] in *.
  exists k. rewrite Htrace, Hatt, Hout.
  repeat (split; [assumption || reflexivity|]).
  intros r. destruct (net url k) as [r'|e]; cbn [failed].
  - destruct (ok r') eqn:Hok; intro H; cbn in H; [|discriminate].
    inversion H. subst. exact Hok.
  - intro H. discriminate.
Qed.

(* ------------------------------------------------------------------ *)
(** ** Further properties of the handlers *)

(** X5. A request that is not a POST, or that has no body, is answered by
    both handlers without any outbound call and without any wait, whatever
    the configuration and the network are: 405 with no effect at all for
    the wrong method, 500 (from the catch clause) for the missing body. *)
Theorem rejected_requests_make_no_call :
  forall (env : Env) (today : string) (net : network) (req : Request),
    method req <> "POST"%string \/ body req = None ->
    exists reply reply' t t',
      GenerateReport.handler env net req [] = (Fulfilled reply, t)
      /\ Generate.exports env today net req [] = (Fulfilled reply', t')
      /\ fetches t = [] /\ fetches t' = []
      /\ sleeps t = [] /\ sleeps t' = []
      /\ code reply = code reply'
      /\ (method req <> "POST"%string ->
          code reply = 405 /\ t = [] /\ t' = [])
      /\ (method req = "POST"%string -> code reply = 500).
Proof.
  intros env today net req Hreq.
  unfold GenerateReport.handler, Generate.exports.
  destruct (String.eqb_spec (method req) "POST") as [Hpost|Hother];
    cbn [negb].
  - destruct Hreq as [Hreq|Hbody]; [contradiction|].
    unfold tryCatch, bind at 1 3. rewrite Hbody. cbn [destructure].
    do 4 eexists. split; [reflexivity|]. split; [reflexivity|].
    repeat (split; [reflexivity|]).
    split; [intro H; contradiction|reflexivity].
  - do 4 eexists. split; [reflexivity|]. split; [reflexivity|].
    repeat (split; [reflexivity|]).
    split; [intros _; repeat split|intro H; contradiction].
Qed.

Lemma rejected_requests_make_no_call_witness :
  exists reply reply' t t',
    GenerateReport.handler Sample.configured Sample.reliable
      (mkRequest "GET" (Some Sample.cascadeBody)) [] = (Fulfilled reply, t)
    /\ Generate.exports Sample.configured Sample.today Sample.reliable
         (mkRequest "GET" (Some Sample.cascadeBody)) [] = (Fulfilled reply', t')
    /\ fetches t = [] /\ fetches t' = []
    /\ sleeps t = [] /\ sleeps t' = []
    /\ code reply = code reply'
    /\ (method (mkRequest "GET" (Some Sample.cascadeBody)) <> "POST"%string ->
        code reply = 405 /\ t = [] /\ t' = [])
    /\ (method (mkRequest "GET" (Some Sample.cascadeBody)) = "POST"%string ->
        code reply = 500).
Proof.
  apply (rejected_requests_make_no_call Sample.configured Sample.today
           Sample.reliable (mkRequest "GET" (Some Sample.cascadeBody))).
  left. discriminate.
Defined.

(** X6. Every run of the handler of api/generate-report.js ends in a reply
    with status 200, 405 or 500: no exception escapes it.  Its outbound
    calls are at most 5 calls to the generation URL, all with the same
    options, followed by at most 5 calls to the persistence URL, all with
    the same options; the persistence service is only called after the
    generation service, and a reply 200 is only given after a call to the
    persistence service. *)
Theorem handler_call_sequence :
  forall (env : Env) (net : network) (req : Request),
    exists reply t a b go ao,
      GenerateReport.handler env net req [] = (Fulfilled reply, t)
      /\ (code reply = 200 \/ code reply = 405 \/ code reply = 500)
      /\ fetches t
         = repeat (GenerateReport.googleAiUrl env, go) a
           ++ repeat (GenerateReport.AIRTABLE_API_URL env, ao) b
      /\ (a <= 5)%nat /\ (b <= 5)%nat
      /\ (b <> 0%nat -> a <> 0%nat)
      /\ (code reply = 200 -> b <> 0%nat).
Proof.
  intros env net req.
  destruct (handler_runs env net req)
    as (reply & t & a & b & go & ao & Hrun & Hf & _ & Ha & Hb & Hab & Hcode
        & Hok & _).
  exists reply, t, a, b, go, ao. auto 10.
Qed.

(** X7. The same for the sibling handler, with at most 4 calls to each
    service. *)
Theorem exports_call_sequence :
  forall (env : Env) (today : string) (net : network) (req : Request),
    exists reply t a b go ao,
      Generate.exports env today net req [] = (Fulfilled reply, t)
      /\ (code reply = 200 \/ code reply = 405 \/ code reply = 500)
      /\ fetches t
         = repeat (Generate.geminiApiUrl env, go) a
           ++ repeat (Generate.airtableUrl env, ao) b
      /\ (a <= 4)%nat /\ (b <= 4)%nat
      /\ (b <> 0%nat -> a <> 0%nat)
      /\ (code reply = 200 -> b <> 0%nat).
Proof.
  intros env today net req.
  destruct (exports_runs env today net req)
    as (reply & t & a & b & go & ao & Hrun & Hf & _ & Ha & Hb & Hab & Hcode
        & Hok & _).
  exists reply, t, a, b, go, ao. auto 10.
Qed.

Lemma geometric_total_bound (k : nat) :
  (k <= 4)%nat -> sumZ (geometric 1000 k) <= 15000.
Proof.
  intro Hk. rewrite sumZ_geometric.
  assert (2 ^ Z.of_nat k <= 2 ^ 4) by (apply Z.pow_le_mono_r; lia).
  change (2 ^ 4) with 16 in *. lia.
Qed.

Lemma geometric_total_bound' (k : nat) :
  (k <= 3)%nat -> sumZ (geometric 1000 k) <= 7000.
Proof.
  intro Hk. rewrite sumZ_geometric.
  assert (2 ^ Z.of_nat k <= 2 ^ 3) by (apply Z.pow_le_mono_r; lia).
  change (2 ^ 3) with 8 in *. lia.
Qed.

(** X8. Whatever the request and the network are, the time a handler
    spends waiting between retries is bounded: at most 30 seconds in
    api/generate-report.js (15 for each service) and at most 14 seconds in
    the sibling handler (7 for each service). *)
Theorem handlers_wait_bounded :
  forall (env : Env) (today : string) (net : network) (req : Request),
    0 <= totalDelay (snd (GenerateReport.handler env net req [])) <= 30000
    /\ 0 <= totalDelay (snd (Generate.exports env today net req [])) <= 14000.
Proof.
  intros env today net req. split.
  - destruct (handler_runs env net req)
      as (reply & t & a & b & go & ao & Hrun & _ & Hs & Ha & Hb & _).
    rewrite Hrun. cbn [snd]. rewrite totalDelay_sleeps, Hs, sumZ_app.
    pose proof (geometric_total_bound (pred a) ltac:(lia)).
    pose proof (geometric_total_bound (pred b) ltac:(lia)).
    rewrite !sumZ_geometric in *.
    pose proof (Z.pow_pos_nonneg 2 (Z.of_nat (pred a)) ltac:(lia) ltac:(lia)).
    pose proof (Z.pow_pos_nonneg 2 (Z.of_nat (pred b)) ltac:(lia) ltac:(lia)).
    lia.
  - destruct (exports_runs env today net req)
      as (reply & t & a & b & go & ao & Hrun & _ & Hs & Ha & Hb & _).
    rewrite Hrun. cbn [snd]. rewrite totalDelay_sleeps, Hs, sumZ_app.
    pose proof (geometric_total_bound' (pred a) ltac:(lia)).
    pose proof (geometric_total_bound' (pred b) ltac:(lia)).
    rewrite !sumZ_geometric in *.
    pose proof (Z.pow_pos_nonneg 2 (Z.of_nat (pred a)) ltac:(lia) ltac:(lia)).
    pose proof (Z.pow_pos_nonneg 2 (Z.of_nat (pred b)) ltac:(lia) ltac:(lia)).
    lia.
Qed.

(** X9. A request whose interval is not a string (absent, null, a number or
    a boolean) is never persisted by the sibling handler: once the calls to
    the generation service are made the handler answers 500, and no call
    goes to the persistence service. *)
Theorem interval_must_be_string :
  forall (env : Env) (today : string) (net : network) (bd : Body),
    isString (interval bd) = false ->
    exists reply t a go,
      Generate.exports env today net (mkRequest "POST" (Some bd)) []
      = (Fulfilled reply, t)
      /\ code reply = 500
      /\ fetches t = repeat (Generate.geminiApiUrl env, go) a
      /\ (a <= 4)%nat.
Proof.
  intros env today net bd Hint.
  destruct (exports_runs env today net (mkRequest "POST" (Some bd)))
    as (reply & t & a & b & go & ao & Hrun & Hf & _ & Ha & _ & _ & Hcode
        & Hok & Hpost & Hstr).
  assert (Hb : b = 0%nat).
  { destruct b as [|b]; [reflexivity|].
    destruct (Hstr ltac:(discriminate)) as (bd' & Heq & Hs).
    cbn in Heq. injection Heq as <-. rewrite Hs in Hint. discriminate. }
  subst b. cbn [repeat] in Hf. rewrite app_nil_r in Hf.
  exists reply, t, a, go. split; [exact Hrun|]. split; [|auto].
  destruct Hcode as [H|[H|H]]; [|discriminate (Hpost H)|exact H].
  exfalso. apply (Hok H). reflexivity.
Qed.

Lemma interval_must_be_string_witness :
  exists reply t a go,
    Generate.exports Sample.configured Sample.today Sample.reliable
      (mkRequest "POST"
         (Some (withInterval Sample.cascadeBody (VNum (numZ 150))))) []
    = (Fulfilled reply, t)
    /\ code reply = 500
    /\ fetches t = repeat (Generate.geminiApiUrl Sample.configured, go) a
    /\ (a <= 4)%nat.
Proof.
  apply (interval_must_be_string Sample.configured Sample.today
           Sample.reliable (withInterval Sample.cascadeBody (VNum (numZ 150)))).
  reflexivity.
Defined.

(** X10. When the first call to the generation service is answered with a
    document that carries a report text, whatever the status of that
    response is, and the next call, to the persistence service, is answered
    with an ok response, the handler of api/generate-report.js makes exactly
    these two calls, without waiting, and replies 200 with that text. *)
Theorem report_generated_and_saved :
  forall (env : Env) (net : network) (bd : Body) (r r2 : Response)
         (g : value),
    net (GenerateReport.googleAiUrl env) 0%nat = Fulfilled r ->
    bodyJson r = Fulfilled (Doc g) ->
    truthy g = true ->
    net (GenerateReport.AIRTABLE_API_URL env) 1%nat = Fulfilled r2 ->
    ok r2 = true ->
    GenerateReport.handler env net (mkRequest "POST" (Some bd)) []
    = (Fulfilled (mkReply 200 [("reportText", g)]),
       [EvFetch (GenerateReport.googleAiUrl env)
          (mkOptions "POST" jsonHeaders (GenerateReport.googleAiPayload bd));
        EvFetch (GenerateReport.AIRTABLE_API_URL env)
          (mkOptions "POST" (airtableHeaders (AIRTABLE_API_KEY env))
             (GenerateReport.airtablePayload bd g))]).
Proof.
  intros env net bd r r2 g Hcall Hjson Htext Hsave Hok.
  unfold GenerateReport.handler.
  cbn [method body]. rewrite String.eqb_refl. cbn [negb].
  unfold tryCatch, bind at 1. cbn [destructure]. unfold ret at 1.
  unfold bind at 1.
  rewrite (exponentialBackoff_first_response net _ _ 5 1000 [] r)
    by (reflexivity || exact Hcall).
  cbn [GenerateReport.googleAiResult app].
  unfold bind at 1, responseJson. rewrite Hjson.
  cbn [GenerateReport.candidateOf]. unfold bind at 1, ret at 1.
  rewrite Htext. cbn [negb].
  unfold bind at 1.
  rewrite (exponentialBackoff_first_response net _ _ 5 1000 _ r2)
    by (reflexivity || exact Hsave).
  rewrite Hok. reflexivity.
Qed.

Lemma report_generated_and_saved_witness :
  GenerateReport.handler Sample.configured Sample.reliable
    (mkRequest "POST" (Some Sample.cascadeBody)) []
  = (Fulfilled (mkReply 200 [("reportText", VStr "Deploy 350 ft of boom.")]),
     [EvFetch (GenerateReport.googleAiUrl Sample.configured)
        (mkOptions "POST" jsonHeaders
           (GenerateReport.googleAiPayload Sample.cascadeBody));
      EvFetch (GenerateReport.AIRTABLE_API_URL Sample.configured)
        (mkOptions "POST"
           (airtableHeaders (AIRTABLE_API_KEY Sample.configured))
           (GenerateReport.airtablePayload Sample.cascadeBody
              (VStr "Deploy 350 ft of boom.")))]).
Proof.
  apply (report_generated_and_saved Sample.configured Sample.reliable
           Sample.cascadeBody Sample.generated Sample.generated
           (VStr "Deploy 350 ft of boom."));
    reflexivity.
Defined.

(** X11. When the first call to the generation service is answered with a
    document without a report text (no candidate, or an empty text), the
    handler of api/generate-report.js does not retry, whatever the status
    of the response is: it replies 500 with the message "Failed to generate
    report text from Google AI." after that single call, and the
    persistence service is not called. *)
Theorem report_without_text_fails :
  forall (env : Env) (net : network) (bd : Body) (r : Response) (g : value),
    net (GenerateReport.googleAiUrl env) 0%nat = Fulfilled r ->
    bodyJson r = Fulfilled (Doc g) ->
    truthy g = false ->
    let failure := Error "Failed to generate report text from Google AI." in
    GenerateReport.handler env net (mkRequest "POST" (Some bd)) []
    = (Fulfilled
         (mkReply 500
            [("message", VStr "An unexpected error occurred.");
             ("error", VStr "Failed to generate report text from Google AI.")]),
       [EvFetch (GenerateReport.googleAiUrl env)
          (mkOptions "POST" jsonHeaders (GenerateReport.googleAiPayload bd));
        EvError "API Error:" failure]).
Proof.
  intros env net bd r g Hcall Hjson Htext failure. subst failure.
  unfold GenerateReport.handler.
  cbn [method body]. rewrite String.eqb_refl. cbn [negb].
  unfold tryCatch, bind at 1. cbn [destructure]. unfold ret at 1.
  unfold bind at 1.
  rewrite (exponentialBackoff_first_response net _ _ 5 1000 [] r)
    by (reflexivity || exact Hcall).
  cbn [GenerateReport.googleAiResult app].
  unfold bind at 1, responseJson. rewrite Hjson.
  cbn [GenerateReport.candidateOf]. unfold bind at 1, ret at 1.
  rewrite Htext. reflexivity.
Qed.

Lemma report_without_text_fails_witness :
  GenerateReport.handler Sample.configured Sample.unauthorized
    (mkRequest "POST" (Some Sample.cascadeBody)) []
  = (Fulfilled
       (mkReply 500
          [("message", VStr "An unexpected error occurred.");
           ("error", VStr "Failed to generate report text from Google AI.")]),
     [EvFetch (GenerateReport.googleAiUrl Sample.configured)
        (mkOptions "POST" jsonHeaders
           (GenerateReport.googleAiPayload Sample.cascadeBody));
      EvError "API Error:"
        (Error "Failed to generate report text from Google AI.")]).
Proof.
  apply (report_without_text_fails Sample.configured Sample.unauthorized
           Sample.cascadeBody Sample.forbidden VUndef);
    reflexivity.
Defined.

(** The sibling handler when both services answer their first call with an
    ok response. *)
Lemma exports_first_calls (env : Env) (today : string) (net : network)
  (bd : Body) (r r2 : Response) (d : document) (s : string) (iv : number) :
  envSet (AIRTABLE_API_KEY env) = true ->
  envSet (AIRTABLE_BASE_ID env) = true ->
  envSet (AIRTABLE_TABLE_ID env) = true ->
  envSet (GEMINI_API_KEY env) = true ->
  interval bd = VStr s ->
  (forall t, Generate.intervalValueForAirtable (VStr s) t = (Fulfilled iv, t)) ->
  net (Generate.geminiApiUrl env) 0%nat = Fulfilled r ->
  ok r = true ->
  bodyJson r = Fulfilled d ->
  net (Generate.airtableUrl env) 1%nat = Fulfilled r2 ->
  ok r2 = true ->
  Generate.exports env today net (mkRequest "POST" (Some bd)) []
  = (Fulfilled
       (mkReply 200
          [("success", VBool true);
           ("message", VStr "Report generated and saved!");
           ("reportText", Generate.generatedTextOf d)]),
     [EvFetch (Generate.geminiApiUrl env)
        (mkOptions "POST" jsonHeaders (Generate.geminiPayload bd));
      EvFetch (Generate.airtableUrl env)
        (mkOptions "POST" (airtableHeaders (AIRTABLE_API_KEY env))
           (Generate.airtablePayload bd (Generate.generatedTextOf d) iv
              today))]).
Proof.
  intros H1 H2 H3 H4 Hint Hiv Hcall Hok Hjson Hsave Hok2.
  unfold Generate.exports.
  cbn [method body]. rewrite String.eqb_refl. cbn [negb].
  unfold tryCatch, bind at 1. cbn [destructure]. unfold ret at 1.
  rewrite H1, H2, H3, H4. cbn [negb orb].
  unfold bind at 1.
  rewrite (fetchWithBackoff_first_response net _ _ 3 1000 [] r Hcall Hok).
  unfold bind at 1, responseJson. rewrite Hjson.
  unfold bind at 1. rewrite Hint, Hiv.
  unfold bind at 1. cbn [app].
  match goal with
  | |- context [Generate.fetchWithBackoff net ?u ?o 3 1000 ?t1] =>
      rewrite (fetchWithBackoff_first_response net u o 3 1000 t1 r2
                 Hsave Hok2)
  end.
  reflexivity.
Qed.

(** X12. In the sibling handler, with its four credentials set and a
    request whose interval is a string: when the first call to each service
    is answered with an ok response, the handler makes exactly these two
    calls, without waiting, and replies 200 with the success envelope; the
    text it returns is the text it persists as Generated Report. *)
Theorem exports_generated_and_saved :
  forall (env : Env) (today : string) (net : network) (bd : Body)
         (r r2 : Response) (d : document) (s : string),
    envSet (AIRTABLE_API_KEY env) = true ->
    envSet (AIRTABLE_BASE_ID env) = true ->
    envSet (AIRTABLE_TABLE_ID env) = true ->
    envSet (GEMINI_API_KEY env) = true ->
    interval bd = VStr s ->
    net (Generate.geminiApiUrl env) 0%nat = Fulfilled r ->
    ok r = true ->
    bodyJson r = Fulfilled d ->
    net (Generate.airtableUrl env) 1%nat = Fulfilled r2 ->
    ok r2 = true ->
    exists iv text,
      Generate.exports env today net (mkRequest "POST" (Some bd)) []
      = (Fulfilled
           (mkReply 200
              [("success", VBool true);
               ("message", VStr "Report generated and saved!");
               ("reportText", text)]),
         [EvFetch (Generate.geminiApiUrl env)
            (mkOptions "POST" jsonHeaders (Generate.geminiPayload bd));
          EvFetch (Generate.airtableUrl env)
            (mkOptions "POST" (airtableHeaders (AIRTABLE_API_KEY env))
               (recordsJson (Generate.airtableFields bd text iv today)))])
      /\ lookup "Generated Report" (Generate.airtableFields bd text iv today)
         = Some text
      /\ truthy text = true.
Proof.
  intros env today net bd r r2 d s H1 H2 H3 H4 Hint Hcall Hok Hjson Hsave
    Hok2.
  destruct (intervalValue_string s) as (iv & Hiv).
  exists iv, (Generate.generatedTextOf d).
  split; [|split].
  - apply (exports_first_calls env today net bd r r2 d s iv); assumption.
  - reflexivity.
  - unfold Generate.generatedTextOf, orElse.
    destruct d as [|v]; [reflexivity|].
    destruct (truthy v) eqn:Hv; [exact Hv|reflexivity].
Qed.

Lemma exports_generated_and_saved_witness :
  exists iv text,
    Generate.exports Sample.configured Sample.today Sample.reliable
      (mkRequest "POST" (Some Sample.cascadeBody)) []
    = (Fulfilled
         (mkReply 200
            [("success", VBool true);
             ("message", VStr "Report generated and saved!");
             ("reportText", text)]),
       [EvFetch (Generate.geminiApiUrl Sample.configured)
          (mkOptions "POST" jsonHeaders
             (Generate.geminiPayload Sample.cascadeBody));
        EvFetch (Generate.airtableUrl Sample.configured)
          (mkOptions "POST"
             (airtableHeaders (AIRTABLE_API_KEY Sample.configured))
             (recordsJson
                (Generate.airtableFields Sample.cascadeBody text iv
                   Sample.today)))])
    /\ lookup "Generated Report"
         (Generate.airtableFields Sample.cascadeBody text iv Sample.today)
       = Some text
    /\ truthy text = true.
Proof.
  apply (exports_generated_and_saved Sample.configured Sample.today
           Sample.reliable Sample.cascadeBody Sample.generated
           Sample.generated (Doc (VStr "Deploy 350 ft of boom.")) "150+");
    reflexivity.
Defined.

(** X13. In the same situation, when the document of the generation
    service carries no report text (it is null, or has no candidate or an
    empty text), the sibling handler still replies 200, with the text
    "Could not generate report. Please try again.", and persists that text
    as the Generated Report of the record. *)
Theorem exports_placeholder_saved :
  forall (env : Env) (today : string) (net : network) (bd : Body)
         (r r2 : Response) (d : document) (s : string),
    envSet (AIRTABLE_API_KEY env) = true ->
    envSet (AIRTABLE_BASE_ID env) = true ->
    envSet (AIRTABLE_TABLE_ID env) = true ->
    envSet (GEMINI_API_KEY env) = true ->
    interval bd = VStr s ->
    net (Generate.geminiApiUrl env) 0%nat = Fulfilled r ->
    ok r = true ->
    bodyJson r = Fulfilled d ->
    (d = DocNull \/ exists v, d = Doc v /\ truthy v = false) ->
    net (Generate.airtableUrl env) 1%nat = Fulfilled r2 ->
    ok r2 = true ->
    let placeholder := VStr "Could not generate report. Please try again." in
    exists reply t iv,
      Generate.exports env today net (mkRequest "POST" (Some bd)) []
      = (Fulfilled reply, t)
      /\ code reply = 200
      /\ lookup "reportText" (content reply) = Some placeholder
      /\ In (EvFetch (Generate.airtableUrl env)
               (mkOptions "POST" (airtableHeaders (AIRTABLE_API_KEY env))
                  (recordsJson
                     (Generate.airtableFields bd placeholder iv today))))
            t
      /\ persisted "Generated Report"
           (Generate.airtableFields bd placeholder iv today)
         = Some (JStr "Could not generate report. Please try again.").
Proof.
  intros env today net bd r r2 d s H1 H2 H3 H4 Hint Hcall Hok Hjson Hnone
    Hsave Hok2 placeholder.
  destruct (intervalValue_string s) as (iv & Hiv).
  assert (Htext : Generate.generatedTextOf d = placeholder).
  { destruct Hnone as [->|(v & -> & Hv)]; [reflexivity|].
    unfold Generate.generatedTextOf, orElse. rewrite Hv. reflexivity. }
  rewrite (exports_first_calls env today net bd r r2 d s iv) by assumption.
  rewrite Htext. do 2 eexists. exists iv.
  split; [reflexivity|]. split; [reflexivity|]. split; [reflexivity|].
  split; [right; left; reflexivity|reflexivity].
Qed.

Lemma exports_placeholder_saved_witness :
  let placeholder := VStr "Could not generate report. Please try again." in
  exists reply t iv,
    Generate.exports Sample.configured Sample.today Sample.speechless
      (mkRequest "POST" (Some Sample.cascadeBody)) []
    = (Fulfilled reply, t)
    /\ code reply = 200
    /\ lookup "reportText" (content reply) = Some placeholder
    /\ In (EvFetch (Generate.airtableUrl Sample.configured)
             (mkOptions "POST"
                (airtableHeaders (AIRTABLE_API_KEY Sample.configured))
                (recordsJson
                   (Generate.airtableFields Sample.cascadeBody placeholder iv
                      Sample.today))))
          t
    /\ persisted "Generated Report"
         (Generate.airtableFields Sample.cascadeBody placeholder iv
            Sample.today)
       = Some (JStr "Could not generate report. Please try again.").
Proof.
  apply (exports_placeholder_saved Sample.configured Sample.today
           Sample.speechless Sample.cascadeBody Sample.textless
           Sample.textless (Doc VUndef) "150+");
    try reflexivity.
  right. exists VUndef. split; reflexivity.
Defined.

(** X14. A reply 200 of the handler of api/generate-report.js is never made
    up: the request was a POST, the report text of the reply is the
    non-empty candidate text of a document that the generation service
    returned, and the persistence service answered one of the calls with an
    ok response. *)
Theorem success_reports_generated_text :
  forall (env : Env) (net : network) (req : Request) (reply : Reply)
         (t : trace),
    GenerateReport.handler env net req [] = (Fulfilled reply, t) ->
    code reply = 200 ->
    exists g j r j' r',
      content reply = [("reportText", g)]
      /\ truthy g = true
      /\ method req = "POST"%string
      /\ net (GenerateReport.googleAiUrl env) j = Fulfilled r
      /\ bodyJson r = Fulfilled (Doc g)
      /\ net (GenerateReport.AIRTABLE_API_URL env) j' = Fulfilled r'
      /\ ok r' = true.
Proof.
  intros env net req reply t. unfold GenerateReport.handler.
  destruct (String.eqb_spec (method req) "POST") as [Hpost|Hother];
    cbn [negb]; [|intros H Hc; inversion H; subst; discriminate].
  unfold tryCatch, bind at 1.
  destruct (body req) as [bd|]; cbn [destructure];
    [|intros H Hc; inversion H; subst; discriminate].
  unfold ret at 1. unfold bind at 1.
  set (go := mkOptions "POST" jsonHeaders (GenerateReport.googleAiPayload bd)).
  destruct (exponentialBackoff_fetch_scripted net
              (GenerateReport.googleAiUrl env) go 1000 [])
    as (k1 & _ & Hrun1 & _ & _).
  rewrite Hrun1. clear Hrun1.
  destruct (net (GenerateReport.googleAiUrl env) (attempts [] + k1)%nat)
    as [r|e] eqn:Hgen; cbn [asFetched];
    [|intros H Hc; inversion H; subst; discriminate].
  cbn [GenerateReport.googleAiResult]. unfold bind at 1, responseJson.
  destruct (bodyJson r) as [[|g]|e] eqn:Hjson;
    cbn [GenerateReport.candidateOf];
    try (intros H Hc; inversion H; subst; discriminate).
  unfold bind at 1, ret at 1.
  destruct (truthy g) eqn:Htext; cbn [negb];
    [|intros H Hc; inversion H; subst; discriminate].
  unfold bind at 1.
  set (ao := mkOptions "POST" (airtableHeaders (AIRTABLE_API_KEY env))
               (GenerateReport.airtablePayload bd g)).
  match goal with
  | |- context [GenerateReport.exponentialBackoff _ 5 1000 ?t1] =>
      destruct (exponentialBackoff_fetch_scripted net
                  (GenerateReport.AIRTABLE_API_URL env) ao 1000 t1)
        as (k2 & _ & Hrun2 & _ & _);
      rewrite Hrun2; clear Hrun2;
      destruct (net (GenerateReport.AIRTABLE_API_URL env)
                  (attempts t1 + k2)%nat) as [r2|e2] eqn:Hsave
  end; cbn [asFetched];
    [|intros H Hc; inversion H; subst; discriminate].
  destruct (ok r2) eqn:Hok; cbn [negb];
    [|intros H Hc; inversion H; subst; discriminate].
  intros H _. inversion H; subst.
  exists g. eexists. exists r. eexists. exists r2. cbn [content].
  repeat (split; [first [reflexivity | eassumption]|]). exact Hok.
Qed.

Lemma success_reports_generated_text_witness :
  exists g j r j' r',
    content (mkReply 200 [("reportText", VStr "Deploy 350 ft of boom.")])
    = [("reportText", g)]
    /\ truthy g = true
    /\ method (Sample.post Sample.cascadeBody) = "POST"%string
    /\ Sample.reliable (GenerateReport.googleAiUrl Sample.configured) j
       = Fulfilled r
    /\ bodyJson r = Fulfilled (Doc g)
    /\ Sample.reliable (GenerateReport.AIRTABLE_API_URL Sample.configured) j'
       = Fulfilled r'
    /\ ok r' = true.
Proof.
  apply (success_reports_generated_text Sample.configured Sample.reliable
           (Sample.post Sample.cascadeBody)
           (mkReply 200 [("reportText", VStr "Deploy 350 ft of boom.")])
           (snd (GenerateReport.handler Sample.configured Sample.reliable
                   (Sample.post Sample.cascadeBody) [])));
    reflexivity.
Defined.

(** X15. A reply 200 of the sibling handler is only given when the request
    was a POST, the four credentials are set, an ok response of the
    generation service was obtained, whose document gives the text of the
    reply (or the placeholder), and the persistence service answered one of
    the calls with an ok response. *)
Theorem exports_success_requires_both_services :
  forall (env : Env) (today : string) (net : network) (req : Request)
         (reply : Reply) (t : trace),
    Generate.exports env today net req [] = (Fulfilled reply, t) ->
    code reply = 200 ->
    exists d j r j' r',
      content reply
      = [("success", VBool true);
         ("message", VStr "Report generated and saved!");
         ("reportText", Generate.generatedTextOf d)]
      /\ method req = "POST"%string
      /\ envSet (AIRTABLE_API_KEY env) && envSet (AIRTABLE_BASE_ID env)
         && envSet (AIRTABLE_TABLE_ID env) && envSet (GEMINI_API_KEY env)
         = true
      /\ net (Generate.geminiApiUrl env) j = Fulfilled r
      /\ ok r = true
      /\ bodyJson r = Fulfilled d
      /\ net (Generate.airtableUrl env) j' = Fulfilled r'
      /\ ok r' = true.
Proof.
  intros env today net req reply t. unfold Generate.exports.
  destruct (String.eqb_spec (method req) "POST") as [Hpost|Hother];
    cbn [negb]; [|intros H Hc; inversion H; subst; discriminate].
  unfold tryCatch, bind at 1.
  destruct (body req) as [bd|]; cbn [destructure];
    [|intros H Hc; inversion H; subst; discriminate].
  unfold ret at 1.
  destruct (envSet (AIRTABLE_API_KEY env)); cbn [negb orb andb];
    [|intros H Hc; inversion H; subst; discriminate].
  destruct (envSet (AIRTABLE_BASE_ID env)); cbn [negb orb andb];
    [|intros H Hc; inversion H; subst; discriminate].
  destruct (envSet (AIRTABLE_TABLE_ID env)); cbn [negb orb andb];
    [|intros H Hc; inversion H; subst; discriminate].
  destruct (envSet (GEMINI_API_KEY env)); cbn [negb orb andb];
    [|intros H Hc; inversion H; subst; discriminate].
  unfold bind at 1.
  destruct (Generate.fetchWithBackoff net (Generate.geminiApiUrl env) _
              3 1000 []) as [[r|e] t1] eqn:Hgen;
    [|intros H Hc; inversion H; subst; discriminate].
  apply (fetchWithBackoff_fulfilled net _ _ 3) in Hgen; [|reflexivity].
  destruct Hgen as (j & Hcall & Hok).
  unfold bind at 1, responseJson.
  destruct (bodyJson r) as [d|e] eqn:Hjson;
    [|intros H Hc; inversion H; subst; discriminate].
  unfold bind at 1.
  destruct (Generate.intervalValueForAirtable (interval bd) t1)
    as [[iv|e] t2];
    [|intros H Hc; inversion H; subst; discriminate].
  unfold bind at 1.
  destruct (Generate.fetchWithBackoff net (Generate.airtableUrl env) _
              3 1000 t2) as [[r2|e2] t3] eqn:Hsave;
    [|intros H Hc; inversion H; subst; discriminate].
  apply (fetchWithBackoff_fulfilled net _ _ 3) in Hsave; [|reflexivity].
  destruct Hsave as (j' & Hcall' & Hok').
  intros H _. inversion H; subst.
  exists d, j, r, j', r2. cbn [content]. auto 10.
Qed.

Lemma exports_success_requires_both_services_witness :
  exists d j r j' r',
    content
      (mkReply 200
         [("success", VBool true);
          ("message", VStr "Report generated and saved!");
          ("reportText", VStr "Deploy 350 ft of boom.")])
    = [("success", VBool true);
       ("message", VStr "Report generated and saved!");
       ("reportText", Generate.generatedTextOf d)]
    /\ method (Sample.post Sample.cascadeBody) = "POST"%string
    /\ envSet (AIRTABLE_API_KEY Sample.configured)
       && envSet (AIRTABLE_BASE_ID Sample.configured)
       && envSet (AIRTABLE_TABLE_ID Sample.configured)
       && envSet (GEMINI_API_KEY Sample.configured)
       = true
    /\ Sample.reliable (Generate.geminiApiUrl Sample.configured) j
       = Fulfilled r
    /\ ok r = true
    /\ bodyJson r = Fulfilled d
    /\ Sample.reliable (Generate.airtableUrl Sample.configured) j'
       = Fulfilled r'
    /\ ok r' = true.
Proof.
  apply (exports_success_requires_both_services Sample.configured
           Sample.today Sample.reliable (Sample.post Sample.cascadeBody)
           (mkReply 200
              [("success", VBool true);
               ("message", VStr "Report generated and saved!");
               ("reportText", VStr "Deploy 350 ft of boom.")])
           (snd (Generate.exports Sample.configured Sample.today
                   Sample.reliable (Sample.post Sample.cascadeBody) [])));
    reflexivity.
Defined.

(** X16. In the sibling handler, an interval without a plus that contains
    "per" is read up to its first space only ([split(' ')[0]]): when such
    an interval starts with a space, nothing is read and the Anchor
    Interval is persisted as null, whatever number follows the space,
    although [parseFloat] of the whole interval would skip the space. *)
Theorem interval_per_with_leading_space :
  forall (rest : string) (bd : Body) (g : value) (today : string) (t : trace),
    includes "+" rest = false ->
    includes "per" rest = true ->
    Generate.intervalValueForAirtable (VStr (String " " rest)) t
    = (Fulfilled NaN, t)
    /\ persisted "Anchor Interval" (Generate.airtableFields bd g NaN today)
       = Some JNull
    /\ parseFloat (VStr (String " " rest)) = parseFloat (VStr rest).
Proof.
  intros rest bd g today t Hplus Hper. split; [|split; reflexivity].
  unfold Generate.intervalValueForAirtable.
  assert (H1 : includes "+" (String " " rest) = false).
  { cbn [includes]. rewrite Hplus. reflexivity. }
  assert (H2 : includes "per" (String " " rest) = true).
  { cbn [includes]. rewrite Hper. apply orb_true_r. }
  rewrite H1, H2. reflexivity.
Qed.

Lemma interval_per_with_leading_space_witness :
  Generate.intervalValueForAirtable (VStr (String " " "5 per 100 ft")) []
  = (Fulfilled NaN, [])
  /\ persisted "Anchor Interval"
       (Generate.airtableFields Sample.cascadeBody (VStr "report") NaN
          Sample.today)
     = Some JNull
  /\ parseFloat (VStr (String " " "5 per 100 ft"))
     = parseFloat (VStr "5 per 100 ft").
Proof.
  apply (interval_per_with_leading_space "5 per 100 ft" Sample.cascadeBody
           (VStr "report") Sample.today []);
    reflexivity.
Defined.
